(** * Weather-Data-System: ingestion and reporting layer

    Shallow embedding of [src/db_utils.py], [src/aws/aws_lambda.py] and
    [src/main.py].

    - Naive datetimes follow the arithmetic of Python's [datetime] module:
      the date is kept as its proleptic Gregorian ordinal
      ([date.toordinal()]), the time of day as hour, minute, second and
      microsecond.
    - Python exceptions are values of [exn]; code that may raise returns a
      [result].
    - Code with effects (logging, HTTP, database sessions) runs in a small
      state-and-exception monad over a [world].
    - What the program meets outside itself is a parameter: the clock, the
      line typed at the prompt and [strptime]; the answer of the network to
      a GET; whether [session.add], [session.commit] and [session.refresh]
      raise; whether the set-up of the database in [lambda_handler] raises;
      whether [create_engine] accepts the database URL of [main.py]; the
      order in which the worker pool of an invocation gets its tasks done.
      The reporting queries are evaluated on the stored table by a database
      that can be reached. *)

From Stdlib Require Import ZArith List String Bool Lia Permutation.
Import ListNotations.
Open Scope string_scope.
Open Scope list_scope.
Open Scope Z_scope.

(** ** Exceptions *)

Inductive exn_class : Type :=
| ValueError
| OverflowError
| KeyError
| IndexError
| TypeError
| AttributeError
| RequestException      (* requests.RequestException and its subclasses *)
| ValidationError       (* pydantic_core ValidationError *)
| DatabaseError         (* whatever the database driver or the ORM raises *)
| ArgumentError.        (* sqlalchemy.exc.ArgumentError *)

Record exn : Type := mkExn { exn_cls : exn_class; exn_msg : string }.

Inductive result (A : Type) : Type :=
| Ok (a : A)
| Raise (e : exn).
Arguments Ok {A} a.
Arguments Raise {A} e.

Definition is_RequestException (e : exn) : bool :=
  match exn_cls e with RequestException => true | _ => false end.

Definition is_ValidationError (e : exn) : bool :=
  match exn_cls e with ValidationError => true | _ => false end.

(** ** datetime and timedelta *)

Definition MAXORDINAL : Z := 3652059.      (* date(9999, 12, 31).toordinal() *)
Definition SECONDS_PER_DAY : Z := 86400.
Definition US_PER_SECOND : Z := 1000000.
Definition US_PER_DAY : Z := 86400000000.
Definition US_PER_HOUR : Z := 3600000000.

Record datetime : Type := mkDatetime {
  dt_ordinal : Z;        (* toordinal(): 1 is 0001-01-01 *)
  dt_hour : Z;
  dt_minute : Z;
  dt_second : Z;
  dt_microsecond : Z
}.

(** The values a [datetime] object can hold. *)
Definition datetime_valid (d : datetime) : Prop :=
  1 <= dt_ordinal d <= MAXORDINAL /\
  0 <= dt_hour d < 24 /\ 0 <= dt_minute d < 60 /\
  0 <= dt_second d < 60 /\ 0 <= dt_microsecond d < US_PER_SECOND.

Definition seconds_of_day (d : datetime) : Z :=
  dt_hour d * 3600 + dt_minute d * 60 + dt_second d.

(** Position of a datetime on the microsecond time line; naive datetimes
    are ordered by it. *)
Definition to_us (d : datetime) : Z :=
  (dt_ordinal d * SECONDS_PER_DAY + seconds_of_day d) * US_PER_SECOND
  + dt_microsecond d.

Definition datetime_leb (a b : datetime) : bool := to_us a <=? to_us b.
Definition datetime_ltb (a b : datetime) : bool := to_us a <? to_us b.

(** A normalized [timedelta]: 0 <= seconds < 86400, 0 <= microseconds < 10^6. *)
Record timedelta : Type := mkTimedelta {
  td_days : Z;
  td_seconds : Z;
  td_microseconds : Z
}.

Definition td_normalize (days seconds microseconds : Z) : timedelta :=
  let s := seconds + microseconds / US_PER_SECOND in
  {| td_days := days + s / SECONDS_PER_DAY;
     td_seconds := s mod SECONDS_PER_DAY;
     td_microseconds := microseconds mod US_PER_SECOND |}.

(** [timedelta(days=days, hours=hours)] *)
Definition timedelta_of (days hours : Z) : timedelta :=
  td_normalize days (hours * 3600) 0.

Definition td_us (t : timedelta) : Z :=
  (td_days t * SECONDS_PER_DAY + td_seconds t) * US_PER_SECOND
  + td_microseconds t.

(** [-t] *)
Definition td_neg (t : timedelta) : timedelta :=
  td_normalize (- td_days t) (- td_seconds t) (- td_microseconds t).

(** [d + t]: the sum is normalized and must fall on a representable date. *)
Definition datetime_add (d : datetime) (t : timedelta) : result datetime :=
  let delta := td_normalize (dt_ordinal d + td_days t)
                            (seconds_of_day d + td_seconds t)
                            (dt_microsecond d + td_microseconds t) in
  if (0 <? td_days delta) && (td_days delta <=? MAXORDINAL) then
    Ok {| dt_ordinal := td_days delta;
          dt_hour := td_seconds delta / 3600;
          dt_minute := (td_seconds delta mod 3600) / 60;
          dt_second := td_seconds delta mod 60;
          dt_microsecond := td_microseconds delta |}
  else Raise (mkExn OverflowError "date value out of range").

(** [d - t] is [d + (-t)]. *)
Definition datetime_sub (d : datetime) (t : timedelta) : result datetime :=
  datetime_add d (td_neg t).

(** [d.replace(hour=0, minute=0, second=0, microsecond=0)] *)
Definition replace_midnight (d : datetime) : datetime :=
  {| dt_ordinal := dt_ordinal d;
     dt_hour := 0; dt_minute := 0; dt_second := 0; dt_microsecond := 0 |}.

(** [d.weekday()]: Monday is 0, Sunday is 6. *)
Definition weekday (d : datetime) : Z := (dt_ordinal d + 6) mod 7.

(** Sequencing of computations that may raise. *)
Definition rbind {A B : Type} (r : result A) (k : A -> result B) : result B :=
  match r with
  | Ok a => k a
  | Raise e => Raise e
  end.

Notation "'let?' x ':=' r 'in' k" := (rbind r (fun x => k))
  (at level 10, x pattern, r at level 100, k at level 200).

(** ** db_utils.py: date windows *)

(** [date_range(start_date, days, hours)] *)
Definition date_range (start_date : datetime) (days hours : Z)
  : result (datetime * datetime) :=
  let? end_date := datetime_add start_date (timedelta_of days hours) in
  Ok (start_date, end_date).

(** What [parse_date_filter] reads from its surroundings: the clock
    ([datetime.now()]), the line typed at the prompt ([input(...)]) and the
    standard library's parser [datetime.strptime(_, '%Y-%m-%d %H')], which
    returns a datetime or raises ValueError ([None]).  The prompt is taken
    to be answered: a standard input that is closed, for which [input]
    raises EOFError, is outside the model. *)
Record clock_env : Type := mkClockEnv {
  env_now : datetime;
  env_input : string;
  env_strptime : string -> option datetime
}.

Definition parse_date_filter (env : clock_env) (date_filter : string)
  : result (datetime * datetime) :=
  let now := env_now env in
  if String.eqb date_filter "selected_hour" then
    let timestamp_str := env_input env in
    match env_strptime env timestamp_str with
    | Some start_date => date_range start_date 0 1
    | None => Raise (mkExn ValueError "time data does not match format")
    end
  else if String.eqb date_filter "today" then
    date_range (replace_midnight now) 1 0
  else if String.eqb date_filter "yesterday" then
    let? d := datetime_sub now (timedelta_of 1 0) in
    let start_date := replace_midnight d in
    date_range start_date 1 0
  else if String.eqb date_filter "current_week" then
    let? d := datetime_sub now (timedelta_of (weekday now) 0) in
    let start_date := replace_midnight d in
    date_range start_date 7 0
  else if String.eqb date_filter "last_seven_days" then
    let? d := datetime_add now (timedelta_of 1 0) in
    let end_date := replace_midnight d in
    let? start_date := datetime_sub end_date (timedelta_of 7 0) in
    date_range start_date 7 0
  else
    Raise (mkExn ValueError "Invalid date filter").

(** *** The windows as the specification words them

    [named_window env f s e]: [(s, e)] is the window the specification
    names for the filter [f] when the clock shows [env_now env]. *)

Definition midnight_of (ordinal : Z) : datetime :=
  {| dt_ordinal := ordinal;
     dt_hour := 0; dt_minute := 0; dt_second := 0; dt_microsecond := 0 |}.

(** [e] is the datetime [us] microseconds after [s]. *)
Definition later_by (s e : datetime) (us : Z) : Prop :=
  datetime_valid e /\ to_us e = to_us s + us.

Definition named_window (env : clock_env) (date_filter : string)
           (s e : datetime) : Prop :=
  let today := dt_ordinal (env_now env) in
  if String.eqb date_filter "selected_hour" then
    env_strptime env (env_input env) = Some s /\ later_by s e US_PER_HOUR
  else if String.eqb date_filter "today" then
    s = midnight_of today /\ later_by s e US_PER_DAY
  else if String.eqb date_filter "yesterday" then
    s = midnight_of (today - 1) /\ later_by s e US_PER_DAY
  else if String.eqb date_filter "current_week" then
    (exists monday,
        weekday (midnight_of monday) = 0 /\ monday <= today < monday + 7 /\
        s = midnight_of monday) /\
    later_by s e (7 * US_PER_DAY)
  else if String.eqb date_filter "last_seven_days" then
    e = midnight_of (today + 1) /\ s = midnight_of (today + 1 - 7) /\
    later_by s e (7 * US_PER_DAY)
  else False.

Definition named_filters : list string :=
  ["selected_hour"; "today"; "yesterday"; "current_week"; "last_seven_days"].

(** *** A worked setting

    The clock shows Wednesday 2024-03-13 15:30:12.000500 (ordinal 738958);
    the line typed at the prompt is "2024-03-13 10". *)

Definition sample_now : datetime :=
  {| dt_ordinal := 738958; dt_hour := 15; dt_minute := 30; dt_second := 12;
     dt_microsecond := 500 |}.

Definition sample_clock : clock_env :=
  {| env_now := sample_now;
     env_input := "2024-03-13 10";
     env_strptime := fun t =>
       if String.eqb t "2024-03-13 10"
       then Some {| dt_ordinal := 738958; dt_hour := 10; dt_minute := 0;
                    dt_second := 0; dt_microsecond := 0 |}
       else None |}.

(** ** The windows of the clock filters, by the date alone

    What the four filters that read the clock come to when the clock shows
    a time on the day of ordinal [today]. *)

Definition overflow {A : Type} : result A :=
  Raise (mkExn OverflowError "date value out of range").

Definition clock_window (today : Z) (date_filter : string)
  : result (datetime * datetime) :=
  if String.eqb date_filter "today" then
    if today + 1 <=? MAXORDINAL
    then Ok (midnight_of today, midnight_of (today + 1))
    else overflow
  else if String.eqb date_filter "yesterday" then
    if 1 <? today
    then Ok (midnight_of (today - 1), midnight_of today)
    else overflow
  else if String.eqb date_filter "current_week" then
    let monday := today - (today + 6) mod 7 in
    if monday + 7 <=? MAXORDINAL
    then Ok (midnight_of monday, midnight_of (monday + 7))
    else overflow
  else if String.eqb date_filter "last_seven_days" then
    if (today + 1 <=? MAXORDINAL) && (7 <=? today)
    then Ok (midnight_of (today - 6), midnight_of (today + 1))
    else overflow
  else Raise (mkExn ValueError "Invalid date filter").

Definition clock_filters : list string :=
  ["today"; "yesterday"; "current_week"; "last_seven_days"].

(** * The ingestion and reporting code *)

Section WeatherSystem.

#[local] Set Default Proof Using "Type".

(** ** Python values met on the way from the HTTP response to a record *)

(** Temperatures are Python floats and SQL double precision values.  The
    code never computes with them: it compares a rain amount with 0, turns a
    timestamp into a datetime, and leaves ordering, grouping and the
    standard deviation to the database.  The type and these operations are
    parameters of the development. *)
Variable float : Type.
Variable float_leb : float -> float -> bool.       (* SQL ordering, x <= y *)
Variable float_eqb : float -> float -> bool.       (* SQL equality *)
Variable float_gt0 : float -> bool.                (* Python [x > 0] *)
Variable stddev : list float -> option float.      (* SQL aggregate; [None] is NULL *)

#[local] Set Warnings "-register-all".

Inductive pyval : Type :=
| PyNone
| PyBool (b : bool)
| PyInt (z : Z)
| PyFloat (f : float)
| PyStr (s : string)
| PyList (l : list pyval)
| PyDict (d : list (string * pyval))
| PyDatetime (t : datetime).

Definition pydict : Type := list (string * pyval).

Fixpoint dict_lookup (d : pydict) (key : string) : option pyval :=
  match d with
  | [] => None
  | (k, v) :: rest => if String.eqb k key then Some v else dict_lookup rest key
  end.

(** [obj[key]] for a string key. *)
Definition getitem (obj : pyval) (key : string) : result pyval :=
  match obj with
  | PyDict d =>
      match dict_lookup d key with
      | Some v => Ok v
      | None => Raise (mkExn KeyError key)
      end
  | PyList _ => Raise (mkExn TypeError "list indices must be integers or slices, not str")
  | PyStr _ => Raise (mkExn TypeError "string indices must be integers, not 'str'")
  | _ => Raise (mkExn TypeError "object is not subscriptable")
  end.

(** [obj[0]] *)
Definition getitem0 (obj : pyval) : result pyval :=
  match obj with
  | PyList (x :: _) => Ok x
  | PyList [] => Raise (mkExn IndexError "list index out of range")
  | PyStr (String c _) => Ok (PyStr (String c EmptyString))
  | PyStr EmptyString => Raise (mkExn IndexError "string index out of range")
  | PyDict _ => Raise (mkExn KeyError "0")     (* JSON objects have string keys *)
  | _ => Raise (mkExn TypeError "object is not subscriptable")
  end.

(** [obj.get(key, default)] *)
Definition dict_get (obj : pyval) (key : string) (default : pyval) : result pyval :=
  match obj with
  | PyDict d =>
      match dict_lookup d key with
      | Some v => Ok v
      | None => Ok default
      end
  | _ => Raise (mkExn AttributeError "object has no attribute 'get'")
  end.

(** [obj > 0] *)
Definition py_gt0 (obj : pyval) : result bool :=
  match obj with
  | PyInt z => Ok (0 <? z)
  | PyBool b => Ok b
  | PyFloat f => Ok (float_gt0 f)
  | _ => Raise (mkExn TypeError "'>' not supported between instances")
  end.

Definition EPOCH_ORDINAL : Z := 719163.     (* date(1970, 1, 1).toordinal() *)

(** [datetime.utcfromtimestamp(t)] for a float. *)
Variable utcfromtimestamp_float : float -> result datetime.

Definition utcfromtimestamp_int (z : Z) : result datetime :=
  let days := EPOCH_ORDINAL + z / SECONDS_PER_DAY in
  let s := z mod SECONDS_PER_DAY in
  if (1 <=? days) && (days <=? MAXORDINAL) then
    Ok {| dt_ordinal := days;
          dt_hour := s / 3600;
          dt_minute := (s mod 3600) / 60;
          dt_second := s mod 60;
          dt_microsecond := 0 |}
  else Raise (mkExn ValueError "year is out of range").

Definition utcfromtimestamp (obj : pyval) : result datetime :=
  match obj with
  | PyInt z => utcfromtimestamp_int z
  | PyBool b => utcfromtimestamp_int (if b then 1 else 0)
  | PyFloat f => utcfromtimestamp_float f
  | _ => Raise (mkExn TypeError "an integer is required")
  end.

(** ** aws_lambda.py: the table model *)

Record WeatherData : Type := mkWeatherData {
  id : option Z;                   (* primary key, [None] until inserted *)
  country : string;
  city : string;
  temperature : float;
  rain_presence : bool;
  weather_description : string;
  weather_data_date : datetime
}.

(** SQLModel's constructor called on the unpacked dictionary: an instance,
    or the exception it raises for data that does not fit the schema. *)
Variable WeatherData_init : pydict -> result WeatherData.

(** ** The world the program acts on *)

(** A value of a column of the table. *)
Inductive sqlval : Type :=
| SqlInt (z : Z)
| SqlText (s : string)
| SqlFloat (f : float)
| SqlBool (b : bool)
| SqlTimestamp (t : datetime)
| SqlNull.

(** Rows returned by the reporting queries: the grouping value with
    max_temp, min_temp and stddev_temp; a city with its extreme. *)
Definition stats_row : Type :=
  (sqlval * option float * option float * option float)%type.
Definition extreme_row : Type := (sqlval * option float)%type.

(** The columns of the table, as attributes of the model class. *)
Inductive column : Type :=
| col_id
| col_country
| col_city
| col_temperature
| col_rain_presence
| col_weather_description
| col_weather_data_date.

(** The three shapes of SELECT the reporting layer sends: grouped
    statistics, the extreme per city (by max, descending, or by min,
    ascending), and the count of rain rows; each over a window. *)
Inductive statement : Type :=
| SelectStats (group_by_column : column) (start_date end_date : datetime)
| SelectExtreme (use_max : bool) (start_date end_date : datetime)
| SelectRainCount (start_date end_date : datetime).

Inductive log_payload : Type :=
| InfoStats (r : stats_row)
| InfoExtremes (r : option extreme_row)
| InfoRain (n : Z).

Inductive log_record : Type :=
| LogHttpError                                  (* 'Error in the HTTP request' *)
| LogRequestError (e : exn)                     (* 'An error occurred while making the request: {e}' *)
| LogDatabaseError (e : exn)                    (* 'Database error: {e}' *)
| LogValidationError (c : string) (e : exn)     (* 'Validation error for {city}: {e.json()}' *)
| LogProcessingError (c : string) (e : exn)     (* 'Error processing {city}: {e}' *)
| LogLambdaError (e : exn)                      (* 'Lambda execution error: {e}' *)
| LogInvalidDataType                            (* 'Invalid data type specified.' *)
| LogInfo (p : log_payload).

Record world : Type := mkWorld {
  w_table : list WeatherData;      (* rows of the weatherdata table, in insertion order *)
  w_next_id : Z;                   (* next value of the primary key sequence *)
  w_session : list WeatherData;    (* objects added to the open session, not yet flushed *)
  w_log : list log_record;         (* what [logging] has emitted, oldest first *)
  w_http : list string;            (* URLs passed to [requests.get], oldest first *)
  w_statements : list statement    (* statements run by [session.exec], oldest first *)
}.

(** ** State and exceptions *)

Definition M (A : Type) : Type := world -> result A * world.

Definition ret {A : Type} (a : A) : M A := fun w => (Ok a, w).

Definition raise {A : Type} (e : exn) : M A := fun w => (Raise e, w).

Definition bind {A B : Type} (m : M A) (k : A -> M B) : M B :=
  fun w =>
    match m w with
    | (Ok a, w') => k a w'
    | (Raise e, w') => (Raise e, w')
    end.

(** [try: m  except ... as e: handler e]; the handler re-raises what its
    [except] clause does not match. *)
Definition try_except {A : Type} (m : M A) (handler : exn -> M A) : M A :=
  fun w =>
    match m w with
    | (Ok a, w') => (Ok a, w')
    | (Raise e, w') => handler e w'
    end.

Definition lift {A : Type} (r : result A) : M A := fun w => (r, w).

Notation "x <- m ;; k" := (bind m (fun x => k))
  (at level 61, m at next level, right associativity).
Notation "m ;;; k" := (bind m (fun _ => k))
  (at level 61, right associativity).

Definition set_table (t : list WeatherData) (n : Z) (w : world) : world :=
  {| w_table := t; w_next_id := n; w_session := w_session w; w_log := w_log w;
     w_http := w_http w; w_statements := w_statements w |}.

Definition set_session (s : list WeatherData) (w : world) : world :=
  {| w_table := w_table w; w_next_id := w_next_id w; w_session := s;
     w_log := w_log w; w_http := w_http w; w_statements := w_statements w |}.

Definition add_log (rs : list log_record) (w : world) : world :=
  {| w_table := w_table w; w_next_id := w_next_id w; w_session := w_session w;
     w_log := w_log w ++ rs; w_http := w_http w;
     w_statements := w_statements w |}.

Definition add_http (url : string) (w : world) : world :=
  {| w_table := w_table w; w_next_id := w_next_id w; w_session := w_session w;
     w_log := w_log w; w_http := w_http w ++ [url];
     w_statements := w_statements w |}.

(** [logging.error(...)] and [logging.info(...)] *)
Definition logging (r : log_record) : M unit :=
  fun w => (Ok tt, add_log [r] w).

(** ** aws_lambda.py: WeatherAPI *)

Inductive http_outcome : Type :=
| HttpRaises (e : exn)                              (* [requests.get] raised *)
| HttpResponse (status_code : Z) (json : result pyval).
                                  (* [json] is what [response.json()] gives *)

(** The network: what a GET of a URL meets. *)
Variable network : string -> http_outcome.

Definition requests_get (url : string) : M (Z * result pyval) :=
  fun w =>
    match network url with
    | HttpRaises e => (Raise e, add_http url w)
    | HttpResponse status_code json => (Ok (status_code, json), add_http url w)
    end.

Definition base_url : string := "http://api.openweathermap.org/data/2.5/weather?".

Definition complete_url (api_key c : string) : string :=
  (base_url ++ "q=" ++ c ++ "&appid=" ++ api_key ++ "&units=metric")%string.

(** Lines 70 to 88 of aws_lambda.py, from [response.json()] to the
    dictionary: the only effects are the exceptions. *)
Definition normalized_record (c : string) (json : result pyval) : result pydict :=
  let? data := json in
  let? main := getitem data "main" in
  let? temperature_ := getitem main "temp" in
  let? weather := getitem data "weather" in
  let? weather0 := getitem0 weather in
  let? weather_description_ := getitem weather0 "description" in
  let? rain_data := dict_get data "rain" (PyDict []) in
  let? rain_last_hour := dict_get rain_data "1h" (PyInt 0) in
  let? rain_presence_ := py_gt0 rain_last_hour in
  let? timestamp := getitem data "dt" in
  let? weather_data_date_ := utcfromtimestamp timestamp in
  let? sys := getitem data "sys" in
  let? country_ := getitem sys "country" in
  Ok [("country", country_);
      ("city", PyStr c);
      ("temperature", temperature_);
      ("rain_presence", PyBool rain_presence_);
      ("weather_description", weather_description_);
      ("weather_data_date", PyDatetime weather_data_date_)].

(** [WeatherAPI.get_weather]; [None] is Python's [None]. *)
Definition get_weather (api_key c : string) : M (option pydict) :=
  try_except
    (response <- requests_get (complete_url api_key c) ;;
     if fst response =? 200 then
       record <- lift (normalized_record c (snd response)) ;;
       ret (Some record)
     else
       logging LogHttpError ;;; ret None)
    (fun e =>
       if is_RequestException e then
         logging (LogRequestError e) ;;; ret None
       else raise e).

(** ** DatabaseManager.add_record (the same text in aws_lambda.py and db_utils.py) *)

(** The database as the session meets it: for a given record, whether
    [session.add], [session.commit] (the flush of the INSERT and the COMMIT)
    or [session.refresh] raises, and with what. *)
Variable session_add_raises : WeatherData -> option exn.
Variable session_commit_raises : WeatherData -> option exn.
Variable session_refresh_raises : WeatherData -> option exn.

Definition with_id (n : Z) (r : WeatherData) : WeatherData :=
  {| id := Some n; country := country r; city := city r;
     temperature := temperature r; rain_presence := rain_presence r;
     weather_description := weather_description r;
     weather_data_date := weather_data_date r |}.

(** The INSERT of one pending object: the key comes from the sequence when
    the object has none. *)
Definition insert_row (r : WeatherData) (tn : list WeatherData * Z)
  : list WeatherData * Z :=
  let (t, n) := tn in
  match id r with
  | Some _ => (t ++ [r], n)
  | None => (t ++ [with_id n r], n + 1)
  end.

Fixpoint insert_rows (pending : list WeatherData) (tn : list WeatherData * Z)
  : list WeatherData * Z :=
  match pending with
  | [] => tn
  | r :: rest => insert_rows rest (insert_row r tn)
  end.

Fixpoint first_raise (f : WeatherData -> option exn) (l : list WeatherData)
  : option exn :=
  match l with
  | [] => None
  | r :: rest =>
      match f r with
      | Some e => Some e
      | None => first_raise f rest
      end
  end.

(** [Session(self.engine)]: a new session with nothing pending. *)
Definition session_open : M unit := fun w => (Ok tt, set_session [] w).

(** Leaving the [with] block closes the session; what is pending is dropped. *)
Definition session_close : M unit := fun w => (Ok tt, set_session [] w).

Definition session_add (record : WeatherData) : M unit :=
  fun w =>
    match session_add_raises record with
    | Some e => (Raise e, w)
    | None => (Ok tt, set_session (w_session w ++ [record]) w)
    end.

(** A commit is atomic: either every pending row is stored, or none is. *)
Definition session_commit : M unit :=
  fun w =>
    match first_raise session_commit_raises (w_session w) with
    | Some e => (Raise e, w)
    | None =>
        let (t, n) := insert_rows (w_session w) (w_table w, w_next_id w) in
        (Ok tt, set_session [] (set_table t n w))
    end.

Definition session_refresh (record : WeatherData) : M unit :=
  fun w =>
    match session_refresh_raises record with
    | Some e => (Raise e, w)
    | None => (Ok tt, w)
    end.

(** A rollback discards what has not been committed. *)
Definition session_rollback : M unit := fun w => (Ok tt, set_session [] w).

(** [with Session(...) as session: body]: the session is closed on the way
    out, whether the body returned or raised. *)
Definition with_session {A : Type} (body : M A) : M A :=
  fun w =>
    let (r, w1) := (session_open ;;; body) w in
    (r, snd (session_close w1)).

Definition add_record (record : WeatherData) : M unit :=
  with_session
    (try_except
       (session_add record ;;;
        session_commit ;;;
        session_refresh record)
       (fun e =>
          logging (LogDatabaseError e) ;;;
          session_rollback)).

(** ** aws_lambda.py: the batch *)

(** [if data:] for the value [get_weather] returns. *)
Definition truthy (data : option pydict) : bool :=
  match data with
  | None => false
  | Some [] => false
  | Some (_ :: _) => true
  end.

Definition fetch_and_store_weather (c api_key : string) : M unit :=
  try_except
    (data <- get_weather api_key c ;;
     match data with
     | Some d =>
         if truthy data then
           try_except
             (weather_record <- lift (WeatherData_init d) ;;
              add_record weather_record)
             (fun e =>
                if is_ValidationError e then logging (LogValidationError c e)
                else raise e)
         else ret tt
     | None => ret tt
     end)
    (fun e => logging (LogProcessingError c e)).

Definition cities : list string :=
  ["Istanbul"; "London"; "Saint Petersburg"; "Berlin"; "Madrid"; "Kyiv"; "Rome";
   "Bucharest"; "Paris"; "Minsk"; "Vienna"; "Warsaw"; "Hamburg"; "Budapest";
   "Belgrade"; "Barcelona"; "Munich"; "Kharkiv"; "Milan"].

(** [DatabaseManager(database_url)] followed by [db.create_tables()] in
    [lambda_handler]: whether one of them raises. *)
Variable db_setup_raises : string -> option exn.

Definition db_setup (database_url : string) : M unit :=
  fun w =>
    match db_setup_raises database_url with
    | Some e => (Raise e, w)
    | None => (Ok tt, w)
    end.

Fixpoint for_each {A : Type} (l : list A) (body : A -> M unit) : M unit :=
  match l with
  | [] => ret tt
  | x :: rest => body x ;;; for_each rest body
  end.

(** A task given to [executor.submit] runs on a worker; what it returns or
    raises stays in a future nobody reads. *)
Definition executor_submit (task : M unit) : M unit :=
  fun w => (Ok tt, snd (task w)).

(** The order in which the worker pool of one invocation gets the tasks
    done that were submitted for a list of cities: some arrangement of that
    list.  Every invocation creates a pool of its own; another invocation
    is another instance of this parameter. *)
Variable pool_order : list string -> list string.

(** [with ThreadPoolExecutor() as executor: for city in submitted:
    executor.submit(task, city)].  The block returns when every submitted
    task has finished.  Each task is taken as a whole (its one database
    transaction, its log lines); the tasks take effect in the pool's
    order. *)
Definition thread_pool (submitted : list string) (task : string -> M unit)
  : M unit :=
  for_each (pool_order submitted) (fun c => executor_submit (task c)).

Record lambda_response : Type := mkResponse { statusCode : Z; body : string }.

Definition lambda_handler (api_key database_url : string) : M lambda_response :=
  try_except
    (db_setup database_url ;;;
     thread_pool cities (fun c => fetch_and_store_weather c api_key) ;;;
     ret {| statusCode := 200; body := "Weather data updated successfully" |})
    (fun e =>
       logging (LogLambdaError e) ;;;
       ret {| statusCode := 500; body := "Internal server error" |}).

(** ** db_utils.py: what the database computes for the reporting queries *)

Definition datetime_eqb (a b : datetime) : bool :=
  (dt_ordinal a =? dt_ordinal b) && (dt_hour a =? dt_hour b) &&
  (dt_minute a =? dt_minute b) && (dt_second a =? dt_second b) &&
  (dt_microsecond a =? dt_microsecond b).

Definition sqlval_eqb (a b : sqlval) : bool :=
  match a, b with
  | SqlInt x, SqlInt y => x =? y
  | SqlText x, SqlText y => String.eqb x y
  | SqlFloat x, SqlFloat y => float_eqb x y
  | SqlBool x, SqlBool y => Bool.eqb x y
  | SqlTimestamp x, SqlTimestamp y => datetime_eqb x y
  | SqlNull, SqlNull => true
  | _, _ => false
  end.

Definition column_value (c : column) (r : WeatherData) : sqlval :=
  match c with
  | col_id => match id r with Some n => SqlInt n | None => SqlNull end
  | col_country => SqlText (country r)
  | col_city => SqlText (city r)
  | col_temperature => SqlFloat (temperature r)
  | col_rain_presence => SqlBool (rain_presence r)
  | col_weather_description => SqlText (weather_description r)
  | col_weather_data_date => SqlTimestamp (weather_data_date r)
  end.

(** [WHERE weather_data_date >= start_date AND weather_data_date < end_date] *)
Definition in_window (start_date end_date : datetime) (r : WeatherData) : bool :=
  datetime_leb start_date (weather_data_date r) &&
  datetime_ltb (weather_data_date r) end_date.

(** The distinct values of a list, each at its first occurrence. *)
Fixpoint distinct (l : list sqlval) : list sqlval :=
  match l with
  | [] => []
  | x :: rest => x :: filter (fun y => negb (sqlval_eqb x y)) (distinct rest)
  end.

(** [GROUP BY key]: one group per distinct key, holding the rows with that
    key.  SQL leaves the order of the groups open; they are listed here in
    the order in which their keys first appear. *)
Definition group_by (key : WeatherData -> sqlval) (rows : list WeatherData)
  : list (sqlval * list WeatherData) :=
  map (fun k => (k, filter (fun r => sqlval_eqb (key r) k) rows))
      (distinct (map key rows)).

Definition float_max (a b : float) : float := if float_leb a b then b else a.
Definition float_min (a b : float) : float := if float_leb a b then a else b.

(** [max(temperature)] and [min(temperature)] over a group; NULL over no rows. *)
Definition sql_max (l : list float) : option float :=
  match l with
  | [] => None
  | x :: rest => Some (fold_left float_max rest x)
  end.

Definition sql_min (l : list float) : option float :=
  match l with
  | [] => None
  | x :: rest => Some (fold_left float_min rest x)
  end.

Definition select_stats (group_by_column : column) (start_date end_date : datetime)
           (table : list WeatherData) : list stats_row :=
  map (fun g =>
         let temps := map temperature (snd g) in
         (fst g, sql_max temps, sql_min temps, stddev temps))
      (group_by (column_value group_by_column)
                (filter (in_window start_date end_date) table)).

(** Ordering on aggregate values; NULL sorts after every value. *)
Definition opt_leb (a b : option float) : bool :=
  match a, b with
  | _, None => true
  | None, Some _ => false
  | Some x, Some y => float_leb x y
  end.

Fixpoint insert_sorted {A : Type} (le : A -> A -> bool) (x : A) (l : list A)
  : list A :=
  match l with
  | [] => [x]
  | y :: rest => if le x y then x :: l else y :: insert_sorted le x rest
  end.

(** [ORDER BY]: a stable sort. *)
Definition order_by {A : Type} (le : A -> A -> bool) (l : list A) : list A :=
  fold_right (insert_sorted le) [] l.

(** A list is ordered by [le]: every element is [le] all that follow it. *)
Fixpoint ordered {A : Type} (le : A -> A -> bool) (l : list A) : Prop :=
  match l with
  | [] => True
  | x :: rest => (forall y, In y rest -> le x y = true) /\ ordered le rest
  end.

Definition select_extreme (use_max : bool) (start_date end_date : datetime)
           (table : list WeatherData) : list extreme_row :=
  let rows :=
    map (fun g =>
           let temps := map temperature (snd g) in
           (fst g, if use_max then sql_max temps else sql_min temps))
        (group_by (column_value col_city)
                  (filter (in_window start_date end_date) table)) in
  if use_max then order_by (fun a b => opt_leb (snd b) (snd a)) rows
  else order_by (fun a b => opt_leb (snd a) (snd b)) rows.

Definition select_rain_count (start_date end_date : datetime)
           (table : list WeatherData) : Z :=
  Z.of_nat (List.length (filter (fun r => in_window start_date end_date r &&
                                     Bool.eqb (rain_presence r) true) table)).

(** [session.exec(query)]: the statement is sent and evaluated on the table. *)
Definition session_exec {A : Type} (stmt : statement)
           (eval : list WeatherData -> A) : M A :=
  fun w =>
    (Ok (eval (w_table w)),
     {| w_table := w_table w; w_next_id := w_next_id w; w_session := w_session w;
        w_log := w_log w; w_http := w_http w;
        w_statements := w_statements w ++ [stmt] |}).

(** ** db_utils.py: DatabaseManager, reporting methods *)

Variable clock : clock_env.

(** [getattr(model, name)] for the model class WeatherData and the name of
    one of its columns, which is what the callers in this repository pass
    ('city' and 'country'): the column of that name.  A name that is no
    attribute of the class raises AttributeError.  The attributes the class
    has besides its columns (those the library gives every model) are not
    modelled; what is proved of [query_stats] is proved for the names of
    columns. *)
Definition getattr_WeatherData (name : string) : result column :=
  if String.eqb name "id" then Ok col_id
  else if String.eqb name "country" then Ok col_country
  else if String.eqb name "city" then Ok col_city
  else if String.eqb name "temperature" then Ok col_temperature
  else if String.eqb name "rain_presence" then Ok col_rain_presence
  else if String.eqb name "weather_description" then Ok col_weather_description
  else if String.eqb name "weather_data_date" then Ok col_weather_data_date
  else Raise (mkExn AttributeError name).

Definition query_stats (group_by_field date_filter : string) : M (list stats_row) :=
  range <- lift (parse_date_filter clock date_filter) ;;
  let (start_date, end_date) := range in
  group_by_column <- lift (getattr_WeatherData group_by_field) ;;
  with_session
    (session_exec (SelectStats group_by_column start_date end_date)
                  (select_stats group_by_column start_date end_date)).

Definition get_cities_stats (date_filter : string) : M (list stats_row) :=
  query_stats "city" date_filter.

Definition get_countries_stats (date_filter : string) : M (list stats_row) :=
  query_stats "country" date_filter.

(** [temp_extreme] is a string or Python's [None] ([main.py] may pass its
    default). *)
Definition is_max (temp_extreme : option string) : bool :=
  match temp_extreme with
  | Some s => String.eqb s "max"
  | None => false
  end.

Definition get_temperature_extremes (date_filter : string)
           (temp_extreme : option string) : M (option extreme_row) :=
  range <- lift (parse_date_filter clock date_filter) ;;
  let (start_date, end_date) := range in
  with_session
    (session_exec (SelectExtreme (is_max temp_extreme) start_date end_date)
       (fun table =>
          hd_error (select_extreme (is_max temp_extreme) start_date end_date table))).

Definition count_rain_hours (date_filter : string) : M Z :=
  range <- lift (parse_date_filter clock date_filter) ;;
  let (start_date, end_date) := range in
  with_session
    (session_exec (SelectRainCount start_date end_date)
                  (select_rain_count start_date end_date)).

(** ** main.py *)

(** [database_url] is what [os.getenv('DATABASE_URL')] gave: a string, or
    Python's [None] when the variable is not set.  [DatabaseManager.__init__]
    hands it to [create_engine], which opens no connection yet and raises
    (sqlalchemy's ArgumentError) for what it cannot read as a database URL:
    whether it raises, and with what. *)
Variable create_engine_raises : option string -> option exn.

(** [DatabaseManager(database_url)] of db_utils.py. *)
Definition DatabaseManager_init (database_url : option string) : M unit :=
  fun w =>
    match create_engine_raises database_url with
    | Some e => (Raise e, w)
    | None => (Ok tt, w)
    end.

Definition fetch_weather_stats (data_type date_filter : string)
           (database_url : option string) (temp_extreme : option string)
  : M unit :=
  DatabaseManager_init database_url ;;;
  (if String.eqb data_type "countries" then
     stats <- get_countries_stats date_filter ;;
     for_each stats (fun stat => logging (LogInfo (InfoStats stat)))
   else if String.eqb data_type "cities" then
     stats <- get_cities_stats date_filter ;;
     for_each stats (fun stat => logging (LogInfo (InfoStats stat)))
   else if String.eqb data_type "extremes" then
     extremes <- get_temperature_extremes date_filter temp_extreme ;;
     logging (LogInfo (InfoExtremes extremes))
   else if String.eqb data_type "rain" then
     counted_rain <- count_rain_hours date_filter ;;
     logging (LogInfo (InfoRain counted_rain))
   else
     logging LogInvalidDataType).

(** ** main.py: the script

    The namespace [parser.parse_args()] returns, and the statements the
    module runs with it (lines 86 to 114) and with the [database_url] of
    line 15.  The function [main] has a docstring and no statement. *)

Record cli_args : Type := mkCliArgs {
  arg_countries : bool;
  arg_cities : bool;
  arg_extremes : bool;
  arg_rain : bool;
  arg_date_filter : string;
  arg_temp_extreme : string
}.

(** What the parser lets through: at most one of the four flags of the
    mutually exclusive group, and a date filter and a temperature extreme
    among the declared choices. *)
Definition argparse_accepts (args : cli_args) : Prop :=
  (List.length (filter (fun b : bool => b)
                       [arg_countries args; arg_cities args;
                        arg_extremes args; arg_rain args]) <= 1)%nat /\
  In (arg_date_filter args)
     ["selected_hour"; "today"; "yesterday"; "current_week"; "last_seven_days"] /\
  In (arg_temp_extreme args) ["max"; "min"].

(** The defaults the parser declares for --date_filter and --temp_extreme. *)
Definition default_date_filter : string := "last_seven_days".
Definition default_temp_extreme : string := "max".

Definition main : M unit := ret tt.

Definition main_script (args : cli_args) (database_url : option string)
  : M unit :=
  data_type <-
    lift (if arg_countries args then Ok "countries"
          else if arg_cities args then Ok "cities"
          else if arg_extremes args then Ok "extremes"
          else if arg_rain args then Ok "rain"
          else Raise (mkExn ValueError
                 "Use flags to get stats: --countries or --cities or --extremes.")) ;;
  fetch_weather_stats data_type (arg_date_filter args) database_url
                      (Some (arg_temp_extreme args)) ;;;
  main.

(** ** Words of the specification

    Definitions that follow the specification's wording; the theorems
    compare them with the definitions above. *)

(** [m] is the maximum (the minimum) of the values in [l]. *)
Definition is_maximum (l : list float) (m : float) : Prop :=
  In m l /\ forall x, In x l -> float_leb x m = true.

Definition is_minimum (l : list float) (m : float) : Prop :=
  In m l /\ forall x, In x l -> float_leb m x = true.

(** A record's date satisfies [start <= date < end]. *)
Definition date_within (start_date end_date : datetime) (r : WeatherData) : Prop :=
  to_us start_date <= to_us (weather_data_date r) < to_us end_date.

(** The records of the table that lie in the window and have the value [v]
    in the grouping column, in table order. *)
Definition group_records (c : column) (start_date end_date : datetime)
           (v : sqlval) (table : list WeatherData) : list WeatherData :=
  filter (fun r => in_window start_date end_date r &&
                   sqlval_eqb (column_value c r) v) table.

(** The group value of a statistics row. *)
Definition stats_key (row : stats_row) : sqlval := fst (fst (fst row)).

(** A row counts as a rain hour of the window. *)
Definition rain_hour (start_date end_date : datetime) (r : WeatherData) : Prop :=
  date_within start_date end_date r /\ rain_presence r = true.

Definition rain_hour_dec (start_date end_date : datetime) (r : WeatherData)
  : {rain_hour start_date end_date r} + {~ rain_hour start_date end_date r} :=
  match Z_le_dec (to_us start_date) (to_us (weather_data_date r)),
        Z_lt_dec (to_us (weather_data_date r)) (to_us end_date),
        bool_dec (rain_presence r) true with
  | left a, left b, left c => left (conj (conj a b) c)
  | right n, _, _ => right (fun H => n (proj1 (proj1 H)))
  | _, right n, _ => right (fun H => n (proj2 (proj1 H)))
  | _, _, right n => right (fun H => n (proj2 H))
  end.

(** The number of rows of a table that satisfy a decidable property. *)
Fixpoint number_of_rows {P : WeatherData -> Prop}
         (dec : forall r, {P r} + {~ P r}) (table : list WeatherData) : Z :=
  match table with
  | [] => 0
  | r :: rest => (if dec r then 1 else 0) + number_of_rows dec rest
  end.

(** Two records hold the same weather report: they agree in every column
    but the key. *)
Definition same_but_id (a b : WeatherData) : Prop :=
  country a = country b /\ city a = city b /\
  temperature a = temperature b /\ rain_presence a = rain_presence b /\
  weather_description a = weather_description b /\
  weather_data_date a = weather_data_date b.

(** The four canned queries: the statement each data type stands for. *)
Definition canned_statement (data_type : string) (temp_extreme : option string)
           (start_date end_date : datetime) : option statement :=
  if String.eqb data_type "countries" then
    Some (SelectStats col_country start_date end_date)
  else if String.eqb data_type "cities" then
    Some (SelectStats col_city start_date end_date)
  else if String.eqb data_type "extremes" then
    Some (SelectExtreme (is_max temp_extreme) start_date end_date)
  else if String.eqb data_type "rain" then
    Some (SelectRainCount start_date end_date)
  else None.

(** What one city of the batch leaves behind, read off the network and the
    database alone: the record it stores (if any) and what it logs. *)
Definition city_outcome (api_key c : string)
  : list WeatherData * list log_record :=
  let fetch_error e :=
    ([], [if is_RequestException e then LogRequestError e
          else LogProcessingError c e]) in
  match network (complete_url api_key c) with
  | HttpRaises e => fetch_error e
  | HttpResponse status_code json =>
      if status_code =? 200 then
        match normalized_record c json with
        | Raise e => fetch_error e
        | Ok d =>
            match WeatherData_init d with
            | Raise e =>
                ([], [if is_ValidationError e then LogValidationError c e
                      else LogProcessingError c e])
            | Ok r =>
                match session_add_raises r, session_commit_raises r,
                      session_refresh_raises r with
                | Some e, _, _ => ([], [LogDatabaseError e])
                | None, Some e, _ => ([], [LogDatabaseError e])
                | None, None, Some e => ([r], [LogDatabaseError e])
                | None, None, None => ([r], [])
                end
            end
        end
      else ([], [LogHttpError])
  end.

(** ** A worked setting for the database and the network

    Sample values, generic in the type of temperatures, on which the
    theorems below are run. *)

Definition sample_row (n : Z) (co c : string) (t : float) (rain : bool)
           (ordinal hour : Z) : WeatherData :=
  {| id := Some n; country := co; city := c; temperature := t;
     rain_presence := rain; weather_description := "";
     weather_data_date :=
       {| dt_ordinal := ordinal; dt_hour := hour; dt_minute := 0;
          dt_second := 0; dt_microsecond := 0 |} |}.

(** Paris twice and London once on 2024-03-13, Rome the day before. *)
Definition sample_table (t1 t2 t3 t4 : float) : list WeatherData :=
  [sample_row 1 "FR" "Paris" t1 true 738958 8;
   sample_row 2 "FR" "Paris" t2 false 738958 12;
   sample_row 3 "GB" "London" t3 true 738958 9;
   sample_row 4 "IT" "Rome" t4 false 738957 9].

Definition world_of (table : list WeatherData) : world :=
  {| w_table := table; w_next_id := 1 + Z.of_nat (List.length table);
     w_session := []; w_log := []; w_http := []; w_statements := [] |}.

(** A response body of the weather provider, with the given temperature. *)
Definition sample_json (co : string) (temp : pyval) : pyval :=
  PyDict [("main", PyDict [("temp", temp)]);
          ("weather", PyList [PyDict [("description", PyStr "light rain")]]);
          ("rain", PyDict [("1h", PyInt 1)]);
          ("dt", PyInt 1710343812);
          ("sys", PyDict [("country", PyStr co)])].

(** A constructor that checks the schema strictly. *)
Definition sample_init (d : pydict) : result WeatherData :=
  match dict_lookup d "country", dict_lookup d "city",
        dict_lookup d "temperature", dict_lookup d "rain_presence",
        dict_lookup d "weather_description",
        dict_lookup d "weather_data_date" with
  | Some (PyStr co), Some (PyStr c), Some (PyFloat t), Some (PyBool b),
    Some (PyStr descr), Some (PyDatetime dt) =>
      Ok {| id := None; country := co; city := c; temperature := t;
            rain_presence := b; weather_description := descr;
            weather_data_date := dt |}
  | _, _, _, _, _, _ =>
      Raise (mkExn ValidationError "validation error for WeatherData")
  end.

(** A network on which Paris and Rome answer well, London answers with a
    malformed temperature, Berlin cannot be reached and every other city
    gets a 404. *)
Definition sample_network (api_key : string) (t : float) (url : string)
  : http_outcome :=
  if String.eqb url (complete_url api_key "Paris") then
    HttpResponse 200 (Ok (sample_json "FR" (PyFloat t)))
  else if String.eqb url (complete_url api_key "Rome") then
    HttpResponse 200 (Ok (sample_json "IT" (PyFloat t)))
  else if String.eqb url (complete_url api_key "London") then
    HttpResponse 200 (Ok (sample_json "GB" (PyStr "warm")))
  else if String.eqb url (complete_url api_key "Berlin") then
    HttpRaises (mkExn RequestException "connection refused")
  else HttpResponse 404 (Ok PyNone).

(** A database that refuses to commit the records of Rome. *)
Definition sample_commit_raises (r : WeatherData) : option exn :=
  if String.eqb (city r) "Rome"
  then Some (mkExn DatabaseError "connection lost")
  else None.

(** A [create_engine] that reads the URLs of PostgreSQL and raises for
    everything else, Python's [None] included. *)
Definition sample_create_engine (database_url : option string) : option exn :=
  match database_url with
  | Some url =>
      if String.prefix "postgresql://" url then None
      else Some (mkExn ArgumentError "Could not parse SQLAlchemy URL from string")
  | None => Some (mkExn ArgumentError "Expected string or URL object, got None")
  end.

(** * Properties *)

(** Drops from the context the parameters of the development that the
    goal does not mention, so that automation cannot pick them up. *)
Ltac clear_oracles :=
  repeat match goal with
  | H : _ -> option exn |- _ => clear H
  | H : _ -> http_outcome |- _ => clear H
  | H : _ -> result _ |- _ => clear H
  | H : _ -> option _ |- _ => clear H
  | H : _ -> bool |- _ => clear H
  | H : clock_env |- _ => clear H
  end.

(** ** Date arithmetic *)

Lemma td_normalize_us (a b c : Z) :
  td_us (td_normalize a b c) =
  (a * SECONDS_PER_DAY + b) * US_PER_SECOND + c.
Proof.
  unfold td_us, td_normalize, SECONDS_PER_DAY, US_PER_SECOND; simpl.
  Z.div_mod_to_equations. lia.
Qed.

Lemma td_normalize_range (a b c : Z) :
  0 <= td_seconds (td_normalize a b c) < SECONDS_PER_DAY /\
  0 <= td_microseconds (td_normalize a b c) < US_PER_SECOND.
Proof.
  unfold td_normalize, SECONDS_PER_DAY, US_PER_SECOND; simpl.
  Z.div_mod_to_equations. lia.
Qed.

Lemma hms_of_seconds (s : Z) :
  0 <= s < 86400 ->
  (0 <= s / 3600 < 24 /\ 0 <= (s mod 3600) / 60 < 60 /\ 0 <= s mod 60 < 60) /\
  s / 3600 * 3600 + (s mod 3600) / 60 * 60 + s mod 60 = s.
Proof. intros H. Z.div_mod_to_equations. lia. Qed.

Lemma datetime_add_ok (d : datetime) (t : timedelta) (e : datetime) :
  datetime_add d t = Ok e ->
  datetime_valid e /\ to_us e = to_us d + td_us t.
Proof.
  unfold datetime_add; cbv zeta.
  pose proof (td_normalize_range (dt_ordinal d + td_days t)
                (seconds_of_day d + td_seconds t)
                (dt_microsecond d + td_microseconds t)) as [Hs Hu].
  pose proof (td_normalize_us (dt_ordinal d + td_days t)
                (seconds_of_day d + td_seconds t)
                (dt_microsecond d + td_microseconds t)) as Hus.
  remember (td_normalize (dt_ordinal d + td_days t)
                (seconds_of_day d + td_seconds t)
                (dt_microsecond d + td_microseconds t)) as delta eqn:Hd.
  clear Hd.
  destruct (((0 <? td_days delta) && (td_days delta <=? MAXORDINAL))%bool) eqn:Hr;
    [|discriminate].
  intros H; injection H as <-.
  apply andb_prop in Hr as [H0 H1].
  apply Z.ltb_lt in H0. apply Z.leb_le in H1.
  unfold SECONDS_PER_DAY in Hs.
  destruct (hms_of_seconds (td_seconds delta) Hs) as [(Hh & Hm & Hsec) Hsum].
  split.
  - unfold datetime_valid, US_PER_SECOND, MAXORDINAL in *; simpl. lia.
  - unfold to_us; simpl. unfold seconds_of_day at 1; simpl. rewrite Hsum.
    unfold td_us, SECONDS_PER_DAY, US_PER_SECOND in *. lia.
Qed.

Lemma datetime_add_returns (d : datetime) (t : timedelta) :
  US_PER_DAY <= to_us d + td_us t < (MAXORDINAL + 1) * US_PER_DAY ->
  exists e, datetime_add d t = Ok e.
Proof.
  intros Hrange.
  unfold datetime_add; cbv zeta.
  pose proof (td_normalize_range (dt_ordinal d + td_days t)
                (seconds_of_day d + td_seconds t)
                (dt_microsecond d + td_microseconds t)) as [Hs Hu].
  pose proof (td_normalize_us (dt_ordinal d + td_days t)
                (seconds_of_day d + td_seconds t)
                (dt_microsecond d + td_microseconds t)) as Hus.
  remember (td_normalize (dt_ordinal d + td_days t)
                (seconds_of_day d + td_seconds t)
                (dt_microsecond d + td_microseconds t)) as delta eqn:Hd.
  clear Hd.
  assert (Hin : 0 < td_days delta <= MAXORDINAL).
  { unfold to_us, td_us, US_PER_DAY, MAXORDINAL, SECONDS_PER_DAY,
      US_PER_SECOND in *. lia. }
  destruct Hin as [H0 H1].
  apply Z.ltb_lt in H0. apply Z.leb_le in H1.
  rewrite H0, H1. simpl. eexists; reflexivity.
Qed.

Lemma timedelta_of_us (days hours : Z) :
  td_us (timedelta_of days hours) = days * US_PER_DAY + hours * US_PER_HOUR.
Proof.
  unfold timedelta_of. rewrite td_normalize_us.
  unfold SECONDS_PER_DAY, US_PER_SECOND, US_PER_DAY, US_PER_HOUR. lia.
Qed.

Lemma td_neg_us (t : timedelta) : td_us (td_neg t) = - td_us t.
Proof.
  unfold td_neg. rewrite td_normalize_us. unfold td_us. lia.
Qed.

(** Two valid datetimes a whole number of days apart have the same time
    of day. *)
Lemma whole_days_apart (a b : datetime) (k : Z) :
  datetime_valid a -> datetime_valid b ->
  to_us b = to_us a + k * US_PER_DAY ->
  dt_ordinal b = dt_ordinal a + k.
Proof.
  unfold datetime_valid, to_us, seconds_of_day, US_PER_DAY, SECONDS_PER_DAY,
    US_PER_SECOND.
  intros Ha Hb H. lia.
Qed.

Lemma midnight_of_us (n : Z) : to_us (midnight_of n) = n * US_PER_DAY.
Proof. unfold to_us, midnight_of, seconds_of_day, US_PER_DAY,
         SECONDS_PER_DAY, US_PER_SECOND; simpl. lia. Qed.

Lemma midnight_of_valid (n : Z) :
  1 <= n <= MAXORDINAL -> datetime_valid (midnight_of n).
Proof. unfold datetime_valid, midnight_of, US_PER_SECOND; simpl. lia. Qed.

Lemma replace_midnight_of (d : datetime) :
  replace_midnight d = midnight_of (dt_ordinal d).
Proof. reflexivity. Qed.

Lemma date_range_ok (s : datetime) (days hours : Z) (p : datetime * datetime) :
  date_range s days hours = Ok p ->
  fst p = s /\ later_by s (snd p) (days * US_PER_DAY + hours * US_PER_HOUR).
Proof.
  unfold date_range, rbind.
  destruct (datetime_add s (timedelta_of days hours)) as [e|] eqn:He;
    [|discriminate].
  intros H; injection H as <-. simpl.
  apply datetime_add_ok in He as [Hv Hus].
  rewrite timedelta_of_us in Hus. split; [reflexivity|split; assumption].
Qed.

Lemma datetime_shift_days (d e : datetime) (k : Z) :
  datetime_valid d ->
  datetime_add d (timedelta_of k 0) = Ok e \/
  datetime_sub d (timedelta_of (- k) 0) = Ok e ->
  replace_midnight e = midnight_of (dt_ordinal d + k).
Proof.
  intros Hd H. rewrite replace_midnight_of. f_equal.
  assert (Hok : datetime_valid e /\ to_us e = to_us d + k * US_PER_DAY).
  { destruct H as [H|H].
    - apply datetime_add_ok in H. rewrite timedelta_of_us in H.
      destruct H; split; [assumption|lia].
    - unfold datetime_sub in H. apply datetime_add_ok in H.
      rewrite td_neg_us, timedelta_of_us in H.
      destruct H; split; [assumption|lia]. }
  destruct Hok. now apply whole_days_apart.
Qed.

(** ** Date filters *)

Lemma weekday_range (d : datetime) : 0 <= weekday d < 7.
Proof. unfold weekday. apply Z.mod_pos_bound. lia. Qed.

Lemma parse_date_filter_window_ok (env : clock_env) (f : string)
      (s e : datetime) :
  datetime_valid (env_now env) ->
  parse_date_filter env f = Ok (s, e) ->
  named_window env f s e.
Proof. clear_oracles.
  intros Hnow.
  unfold parse_date_filter, named_window; cbv zeta.
  destruct (String.eqb f "selected_hour"); cbv beta iota.
  { destruct (env_strptime env (env_input env)) as [d|]; [|discriminate].
    intros H. apply date_range_ok in H as [Hs Hl]. cbn [fst snd] in Hs, Hl.
    subst d. split; [reflexivity|].
    replace (US_PER_HOUR) with (0 * US_PER_DAY + 1 * US_PER_HOUR) by lia.
    exact Hl. }
  destruct (String.eqb f "today"); cbv beta iota.
  { intros H. apply date_range_ok in H as [Hs Hl]. cbn [fst snd] in Hs, Hl.
    subst s. split; [reflexivity|].
    replace (US_PER_DAY) with (1 * US_PER_DAY + 0 * US_PER_HOUR) by lia.
    exact Hl. }
  destruct (String.eqb f "yesterday"); cbv beta iota.
  { unfold rbind at 1.
    destruct (datetime_sub (env_now env) (timedelta_of 1 0)) as [d|] eqn:Hd;
      [|discriminate].
    intros H. apply date_range_ok in H as [Hs Hl]. cbn [fst snd] in Hs, Hl.
    rewrite (datetime_shift_days (env_now env) d (-1)) in Hs, Hl
      by (assumption || (right; exact Hd)).
    subst s. split; [f_equal; lia|].
    replace (US_PER_DAY) with (1 * US_PER_DAY + 0 * US_PER_HOUR) by lia.
    replace (dt_ordinal (env_now env) - 1) with (dt_ordinal (env_now env) + -1)
      by lia.
    exact Hl. }
  destruct (String.eqb f "current_week"); cbv beta iota.
  { unfold rbind at 1.
    destruct (datetime_sub (env_now env) (timedelta_of (weekday (env_now env)) 0))
      as [d|] eqn:Hd; [|discriminate].
    intros H. apply date_range_ok in H as [Hs Hl]. cbn [fst snd] in Hs, Hl.
    rewrite (datetime_shift_days (env_now env) d (- weekday (env_now env)))
      in Hs, Hl
      by (assumption || (right; rewrite Z.opp_involutive; exact Hd)).
    subst s. split.
    - exists (dt_ordinal (env_now env) + - weekday (env_now env)).
      pose proof (weekday_range (env_now env)) as Hw.
      split; [|split; [lia|reflexivity]].
      unfold weekday in *; simpl. Z.div_mod_to_equations. lia.
    - replace (7 * US_PER_DAY) with (7 * US_PER_DAY + 0 * US_PER_HOUR) by lia.
      exact Hl. }
  destruct (String.eqb f "last_seven_days"); cbv beta iota.
  { unfold rbind at 1.
    destruct (datetime_add (env_now env) (timedelta_of 1 0)) as [d|] eqn:Hd;
      [|discriminate].
    rewrite (datetime_shift_days (env_now env) d 1)
      by (assumption || (left; exact Hd)).
    unfold rbind at 1.
    destruct (datetime_sub (midnight_of (dt_ordinal (env_now env) + 1))
                           (timedelta_of 7 0)) as [s0|] eqn:Hs0;
      [|discriminate].
    intros H. apply date_range_ok in H as [Hs Hl]. cbn [fst snd] in Hs, Hl. subst s0.
    unfold datetime_sub in Hs0. apply datetime_add_ok in Hs0 as [Hvs Hus].
    rewrite td_neg_us, timedelta_of_us, midnight_of_us in Hus.
    destruct Hl as [Hve Hue].
    assert (He : to_us e = (dt_ordinal (env_now env) + 1) * US_PER_DAY) by lia.
    assert (Hse : s = midnight_of (dt_ordinal (env_now env) + 1 - 7)).
    { destruct s as [so sh sm ss su].
      unfold datetime_valid, to_us, seconds_of_day, midnight_of, US_PER_DAY,
        US_PER_HOUR, SECONDS_PER_DAY, US_PER_SECOND in *; simpl in *.
      f_equal; lia. }
    assert (Hee : e = midnight_of (dt_ordinal (env_now env) + 1)).
    { destruct e as [eo eh em es eu].
      unfold datetime_valid, to_us, seconds_of_day, midnight_of, US_PER_DAY,
        US_PER_HOUR, SECONDS_PER_DAY, US_PER_SECOND in *; simpl in *.
      f_equal; lia. }
    split; [exact Hee|split; [exact Hse|]].
    split; [exact Hve|lia]. }
  discriminate.
Qed.

Lemma to_us_day_bounds (d : datetime) :
  datetime_valid d ->
  dt_ordinal d * US_PER_DAY <= to_us d < (dt_ordinal d + 1) * US_PER_DAY.
Proof.
  unfold datetime_valid, to_us, seconds_of_day, US_PER_DAY, SECONDS_PER_DAY,
    US_PER_SECOND.
  intros H. lia.
Qed.

Lemma datetime_add_days_returns (d : datetime) (k : Z) :
  datetime_valid d -> 1 <= dt_ordinal d + k <= MAXORDINAL ->
  exists e, datetime_add d (timedelta_of k 0) = Ok e.
Proof.
  intros Hd Hk. apply datetime_add_returns.
  rewrite timedelta_of_us. apply to_us_day_bounds in Hd.
  unfold US_PER_DAY, US_PER_HOUR, MAXORDINAL in *. lia.
Qed.

Lemma datetime_sub_days_returns (d : datetime) (k : Z) :
  datetime_valid d -> 1 <= dt_ordinal d - k <= MAXORDINAL ->
  exists e, datetime_sub d (timedelta_of k 0) = Ok e.
Proof.
  intros Hd Hk. apply datetime_add_returns.
  rewrite td_neg_us, timedelta_of_us. apply to_us_day_bounds in Hd.
  unfold US_PER_DAY, US_PER_HOUR, MAXORDINAL in *. lia.
Qed.

Lemma date_range_returns (s : datetime) (days hours : Z) :
  US_PER_DAY <= to_us s + (days * US_PER_DAY + hours * US_PER_HOUR)
    < (MAXORDINAL + 1) * US_PER_DAY ->
  exists e, date_range s days hours = Ok (s, e).
Proof.
  intros H. unfold date_range.
  destruct (datetime_add_returns s (timedelta_of days hours)) as [e He].
  - rewrite timedelta_of_us. exact H.
  - exists e. rewrite He. reflexivity.
Qed.

Lemma date_range_midnight_returns (n days : Z) :
  1 <= n + days <= MAXORDINAL ->
  exists e, date_range (midnight_of n) days 0 = Ok (midnight_of n, e).
Proof.
  intros H. apply date_range_returns. rewrite midnight_of_us.
  unfold US_PER_DAY, US_PER_HOUR, MAXORDINAL in *. lia.
Qed.

Lemma parse_date_filter_returns (env : clock_env) (f : string) :
  datetime_valid (env_now env) ->
  7 < dt_ordinal (env_now env) < MAXORDINAL - 7 ->
  In f ["today"; "yesterday"; "current_week"; "last_seven_days"] ->
  exists s e, parse_date_filter env f = Ok (s, e).
Proof.
  intros Hnow Hord Hf.
  pose proof (weekday_range (env_now env)) as Hw.
  simpl in Hf. destruct Hf as [<-|[<-|[<-|[<-|[]]]]].
  - change (parse_date_filter env "today")
      with (date_range (replace_midnight (env_now env)) 1 0).
    rewrite replace_midnight_of.
    destruct (date_range_midnight_returns (dt_ordinal (env_now env)) 1) as [e He];
      [lia|]. eauto.
  - change (parse_date_filter env "yesterday")
      with (let? d := datetime_sub (env_now env) (timedelta_of 1 0) in
            date_range (replace_midnight d) 1 0).
    destruct (datetime_sub_days_returns (env_now env) 1 Hnow) as [d Hd]; [lia|].
    rewrite Hd. unfold rbind.
    rewrite (datetime_shift_days (env_now env) d (-1)) by (auto).
    destruct (date_range_midnight_returns (dt_ordinal (env_now env) + -1) 1)
      as [e He]; [lia|]. eauto.
  - change (parse_date_filter env "current_week")
      with (let? d := datetime_sub (env_now env)
                        (timedelta_of (weekday (env_now env)) 0) in
            date_range (replace_midnight d) 7 0).
    destruct (datetime_sub_days_returns (env_now env) (weekday (env_now env)) Hnow)
      as [d Hd]; [lia|].
    rewrite Hd. unfold rbind.
    rewrite (datetime_shift_days (env_now env) d (- weekday (env_now env)))
      by (try assumption; right; rewrite Z.opp_involutive; exact Hd).
    destruct (date_range_midnight_returns
                (dt_ordinal (env_now env) + - weekday (env_now env)) 7)
      as [e He]; [lia|]. eauto.
  - change (parse_date_filter env "last_seven_days")
      with (let? d := datetime_add (env_now env) (timedelta_of 1 0) in
            let? start_date := datetime_sub (replace_midnight d) (timedelta_of 7 0) in
            date_range start_date 7 0).
    destruct (datetime_add_days_returns (env_now env) 1 Hnow) as [d Hd]; [lia|].
    rewrite Hd. unfold rbind at 1.
    rewrite (datetime_shift_days (env_now env) d 1) by auto.
    destruct (datetime_sub_days_returns (midnight_of (dt_ordinal (env_now env) + 1)) 7)
      as [s0 Hs0]; [apply midnight_of_valid; lia|simpl; lia|].
    rewrite Hs0. unfold rbind.
    destruct (date_range_returns s0 7 0) as [e He]; [|eauto].
    unfold datetime_sub in Hs0. apply datetime_add_ok in Hs0 as [_ Hus].
    rewrite td_neg_us, timedelta_of_us, midnight_of_us in Hus.
    unfold US_PER_DAY, US_PER_HOUR, MAXORDINAL in *. lia.
Qed.

(** C1: each named filter yields the window the specification names, and
    its end is its start plus the named duration.  Whenever
    [parse_date_filter] returns a pair, the pair is [named_window]'s: for
    'today' the start is today at 00:00:00 and the end one day later; for
    'yesterday' the start is yesterday at 00:00:00 and the end one day
    later; for 'current_week' the start is the most recent Monday at
    00:00:00 and the end seven days later; for 'last_seven_days' the end is
    the upcoming midnight and the start seven days before it; for
    'selected_hour' the start is the hour parsed from the typed line and the
    end one hour later.  The function does return: for the four clock
    filters whenever the clock is more than a week away from both ends of
    the calendar, and for 'selected_hour' whenever the typed line parses and
    the hour after it is still on the calendar. *)
Theorem parse_date_filter_named_windows (env : clock_env) :
  datetime_valid (env_now env) ->
  (forall f s e,
      parse_date_filter env f = Ok (s, e) -> named_window env f s e) /\
  (7 < dt_ordinal (env_now env) < MAXORDINAL - 7 ->
   forall f, In f ["today"; "yesterday"; "current_week"; "last_seven_days"] ->
             exists s e, parse_date_filter env f = Ok (s, e)) /\
  (forall d,
      env_strptime env (env_input env) = Some d ->
      datetime_valid d ->
      to_us d + US_PER_HOUR < (MAXORDINAL + 1) * US_PER_DAY ->
      exists e, parse_date_filter env "selected_hour" = Ok (d, e)).
Proof.
  intros Hnow. split; [|split].
  - intros f s e H. now apply parse_date_filter_window_ok.
  - intros Hord f Hf. now apply parse_date_filter_returns.
  - intros d Hd Hv Hfit.
    change (parse_date_filter env "selected_hour")
      with (match env_strptime env (env_input env) with
            | Some start_date => date_range start_date 0 1
            | None => Raise (mkExn ValueError "time data does not match format")
            end).
    rewrite Hd. apply date_range_returns.
    pose proof (to_us_day_bounds d Hv) as Hb.
    unfold datetime_valid, US_PER_DAY, US_PER_HOUR, MAXORDINAL in *. lia.
Qed.

Lemma parse_date_filter_invalid (env : clock_env) (f : string) :
  ~ In f named_filters ->
  parse_date_filter env f = Raise (mkExn ValueError "Invalid date filter").
Proof.
  intros Hf. unfold parse_date_filter, named_filters in *; cbv zeta.
  simpl in Hf.
  repeat match goal with
  | |- context [String.eqb f ?s] =>
      destruct (String.eqb_spec f s) as [->|_]; [exfalso; tauto|]
  end.
  reflexivity.
Qed.

(** C10: a filter outside the five named ones makes [parse_date_filter]
    raise ValueError, and with it [query_stats] (whatever the grouping
    field), [get_temperature_extremes] and [count_rain_hours]: each raises
    that ValueError instead of returning a result, and leaves the world as
    it found it (no statement reaches the database). *)
Theorem unrecognized_filter_raises (f : string) :
  ~ In f named_filters ->
  let invalid := mkExn ValueError "Invalid date filter" in
  parse_date_filter clock f = Raise invalid /\
  (forall group_by_field w, query_stats group_by_field f w = (Raise invalid, w)) /\
  (forall temp_extreme w,
      get_temperature_extremes f temp_extreme w = (Raise invalid, w)) /\
  (forall w, count_rain_hours f w = (Raise invalid, w)).
Proof.
  intros Hf invalid.
  pose proof (parse_date_filter_invalid clock f Hf) as Hp. fold invalid in Hp.
  split; [exact Hp|].
  unfold query_stats, get_temperature_extremes, count_rain_hours, bind, lift.
  rewrite Hp. repeat split.
Qed.

(** ** The reporting queries *)

(** What the development assumes of the database's ordering and equality
    of double precision values: a total preorder, and an equality test. *)
Hypothesis float_leb_total :
  forall x y, float_leb x y = true \/ float_leb y x = true.
Hypothesis float_leb_trans :
  forall x y z, float_leb x y = true -> float_leb y z = true ->
                float_leb x z = true.
Hypothesis float_eqb_eq : forall x y, float_eqb x y = true <-> x = y.

Lemma float_leb_refl (x : float) : float_leb x x = true.
Proof using float_leb_total. destruct (float_leb_total x x); assumption. Qed.

Lemma datetime_eqb_eq (a b : datetime) : datetime_eqb a b = true <-> a = b.
Proof.
  unfold datetime_eqb. destruct a, b; simpl.
  rewrite !andb_true_iff, !Z.eqb_eq. split.
  - intros [[[[-> ->] ->] ->] ->]. reflexivity.
  - intros H; injection H; intros; subst; auto.
Qed.

Lemma sqlval_eqb_eq (a b : sqlval) : sqlval_eqb a b = true <-> a = b.
Proof using float_eqb_eq.
  destruct a, b; simpl; split; intros H; try discriminate; try reflexivity.
  - apply Z.eqb_eq in H. now subst.
  - injection H as ->. apply Z.eqb_refl.
  - apply String.eqb_eq in H. now subst.
  - injection H as ->. apply String.eqb_refl.
  - apply float_eqb_eq in H. now subst.
  - injection H as ->. now apply float_eqb_eq.
  - apply Bool.eqb_prop in H. now subst.
  - injection H as ->. apply Bool.eqb_reflx.
  - apply datetime_eqb_eq in H. now subst.
  - injection H as ->. now apply datetime_eqb_eq.
Qed.

Lemma in_window_spec (s e : datetime) (r : WeatherData) :
  in_window s e r = true <-> date_within s e r.
Proof. clear_oracles.
  unfold in_window, date_within, datetime_leb, datetime_ltb.
  rewrite andb_true_iff, Z.leb_le, Z.ltb_lt. tauto.
Qed.

Lemma distinct_In (l : list sqlval) (x : sqlval) :
  In x (distinct l) <-> In x l.
Proof using float_eqb_eq.
  induction l as [|y l IH]; simpl; [tauto|].
  rewrite filter_In, IH. split.
  - intros [H|[H _]]; auto.
  - intros [H|H]; auto.
    destruct (sqlval_eqb y x) eqn:E.
    + left. now apply sqlval_eqb_eq.
    + right. split; [assumption|reflexivity].
Qed.

Lemma distinct_NoDup (l : list sqlval) : NoDup (distinct l).
Proof using float_eqb_eq.
  induction l as [|y l IH]; simpl; constructor.
  - rewrite filter_In. intros [_ H].
    assert (sqlval_eqb y y = true) by now apply sqlval_eqb_eq.
    rewrite H0 in H. discriminate.
  - now apply NoDup_filter.
Qed.

Lemma group_by_keys (key : WeatherData -> sqlval) (rows : list WeatherData) :
  map fst (group_by key rows) = distinct (map key rows).
Proof.
  unfold group_by. rewrite map_map. simpl. apply map_id.
Qed.

Lemma group_by_In (key : WeatherData -> sqlval) (rows : list WeatherData)
      (k : sqlval) (g : list WeatherData) :
  In (k, g) (group_by key rows) ->
  g = filter (fun r => sqlval_eqb (key r) k) rows /\
  exists r, In r rows /\ key r = k.
Proof using float_eqb_eq.
  unfold group_by. rewrite in_map_iff. intros (k' & Heq & Hin).
  injection Heq as -> <-. split; [reflexivity|].
  apply (proj1 (distinct_In _ _)) in Hin.
  apply in_map_iff in Hin as (r & Hr & Hin).
  eauto.
Qed.

Lemma fold_float_max (l : list float) (x : float) :
  is_maximum (x :: l) (fold_left float_max l x).
Proof using float_leb_trans float_leb_total.
  revert x. induction l as [|y l IH]; intros x; simpl.
  - split; [now left|]. intros z [<-|[]]. apply float_leb_refl.
  - destruct (IH (float_max x y)) as [Hin Hub]. split.
    + destruct Hin as [Hin|Hin]; [|right; right; exact Hin].
      rewrite <- Hin. unfold float_max.
      destruct (float_leb x y); [right; left|left]; reflexivity.
    + intros z Hz.
      assert (Hxy : float_leb x (float_max x y) = true /\
                    float_leb y (float_max x y) = true).
      { unfold float_max. destruct (float_leb x y) eqn:E.
        - split; [assumption|apply float_leb_refl].
        - split; [apply float_leb_refl|].
          destruct (float_leb_total x y) as [H|H]; [congruence|assumption]. }
      destruct Hxy as [Hx Hy].
      destruct Hz as [<-|[<-|Hz]].
      * apply float_leb_trans with (float_max x y); [assumption|].
        apply Hub. now left.
      * apply float_leb_trans with (float_max x y); [assumption|].
        apply Hub. now left.
      * apply Hub. now right.
Qed.

Lemma fold_float_min (l : list float) (x : float) :
  is_minimum (x :: l) (fold_left float_min l x).
Proof using float_leb_trans float_leb_total.
  revert x. induction l as [|y l IH]; intros x; simpl.
  - split; [now left|]. intros z [<-|[]]. apply float_leb_refl.
  - destruct (IH (float_min x y)) as [Hin Hlb]. split.
    + destruct Hin as [Hin|Hin]; [|right; right; exact Hin].
      rewrite <- Hin. unfold float_min.
      destruct (float_leb x y); [left|right; left]; reflexivity.
    + intros z Hz.
      assert (Hxy : float_leb (float_min x y) x = true /\
                    float_leb (float_min x y) y = true).
      { unfold float_min. destruct (float_leb x y) eqn:E.
        - split; [apply float_leb_refl|assumption].
        - split; [|apply float_leb_refl].
          destruct (float_leb_total x y) as [H|H]; [congruence|assumption]. }
      destruct Hxy as [Hx Hy].
      destruct Hz as [<-|[<-|Hz]].
      * apply float_leb_trans with (float_min x y); [|assumption].
        apply Hlb. now left.
      * apply float_leb_trans with (float_min x y); [|assumption].
        apply Hlb. now left.
      * apply Hlb. now right.
Qed.

Lemma sql_max_spec (l : list float) :
  l <> [] -> exists m, sql_max l = Some m /\ is_maximum l m.
Proof using float_leb_trans float_leb_total.
  destruct l as [|x l]; [congruence|]. intros _.
  eexists; split; [reflexivity|]. apply fold_float_max.
Qed.

Lemma sql_min_spec (l : list float) :
  l <> [] -> exists m, sql_min l = Some m /\ is_minimum l m.
Proof using float_leb_trans float_leb_total.
  destruct l as [|x l]; [congruence|]. intros _.
  eexists; split; [reflexivity|]. apply fold_float_min.
Qed.

Lemma filter_filter {A : Type} (p q : A -> bool) (l : list A) :
  filter q (filter p l) = filter (fun x => p x && q x) l.
Proof.
  induction l as [|x l IH]; simpl; [reflexivity|].
  destruct (p x); simpl; [destruct (q x)|]; now rewrite IH.
Qed.

(** A group of the windowed table is the specification's group of records. *)
Lemma group_by_window (c : column) (s e : datetime) (table : list WeatherData)
      (k : sqlval) (g : list WeatherData) :
  In (k, g) (group_by (column_value c) (filter (in_window s e) table)) ->
  g = group_records c s e k table /\ g <> [].
Proof using float_eqb_eq.
  intros H. apply group_by_In in H as [-> (r & Hr & Hk)].
  rewrite filter_filter. split; [reflexivity|].
  intros Hnil.
  assert (Hin : In r (filter (fun x => in_window s e x &&
                                       sqlval_eqb (column_value c x) k) table)).
  { apply filter_In in Hr as [Hr Hw]. apply filter_In. split; [assumption|].
    rewrite Hw. simpl. now apply sqlval_eqb_eq. }
  rewrite Hnil in Hin. destruct Hin.
Qed.

Lemma select_stats_keys (c : column) (s e : datetime) (table : list WeatherData) :
  map stats_key (select_stats c s e table) =
  distinct (map (column_value c) (filter (in_window s e) table)).
Proof.
  unfold select_stats. rewrite map_map. unfold stats_key; simpl.
  rewrite <- group_by_keys. reflexivity.
Qed.

Lemma select_stats_row (c : column) (s e : datetime) (table : list WeatherData)
      (v : sqlval) (mx mn sd : option float) :
  In (v, mx, mn, sd) (select_stats c s e table) ->
  let temps := map temperature (group_records c s e v table) in
  (exists m, mx = Some m /\ is_maximum temps m) /\
  (exists m, mn = Some m /\ is_minimum temps m) /\
  sd = stddev temps.
Proof using float_leb_trans float_leb_total float_eqb_eq.
  unfold select_stats. rewrite in_map_iff. intros ([k g] & Heq & Hin).
  simpl in Heq. injection Heq as -> <- <- <-.
  apply group_by_window in Hin as [-> Hne]. cbv zeta.
  assert (Ht : map temperature (group_records c s e v table) <> []).
  { intros H. apply map_eq_nil in H. contradiction. }
  destruct (sql_max_spec _ Ht) as (m1 & -> & H1).
  destruct (sql_min_spec _ Ht) as (m2 & -> & H2).
  repeat split; eauto.
Qed.

(** C2: [query_stats] returns exactly one tuple per distinct value of the
    grouping field among the records with [start <= date < end], the window
    being [parse_date_filter]'s; each tuple holds the group value with the
    maximum, the minimum and the standard deviation of the temperatures of
    that group's records in the window; the table is left as it was.
    [get_cities_stats] and [get_countries_stats] are this query with the
    grouping fields 'city' and 'country'. *)
Theorem query_stats_grouped (group_by_field date_filter : string)
        (c : column) (start_date end_date : datetime) (w : world) :
  getattr_WeatherData group_by_field = Ok c ->
  parse_date_filter clock date_filter = Ok (start_date, end_date) ->
  (exists rows,
      fst (query_stats group_by_field date_filter w) = Ok rows /\
      w_table (snd (query_stats group_by_field date_filter w)) = w_table w /\
      NoDup (map stats_key rows) /\
      (forall v,
          In v (map stats_key rows) <->
          exists r, In r (w_table w) /\ date_within start_date end_date r /\
                    column_value c r = v) /\
      (forall v mx mn sd,
          In (v, mx, mn, sd) rows ->
          let temps :=
            map temperature
                (group_records c start_date end_date v (w_table w)) in
          (exists m, mx = Some m /\ is_maximum temps m) /\
          (exists m, mn = Some m /\ is_minimum temps m) /\
          sd = stddev temps)) /\
  get_cities_stats date_filter = query_stats "city" date_filter /\
  get_countries_stats date_filter = query_stats "country" date_filter.
Proof using float_leb_trans float_leb_total float_eqb_eq.
  intros Hc Hp. split; [|split; reflexivity].
  exists (select_stats c start_date end_date (w_table w)).
  unfold query_stats, bind, lift. rewrite Hp, Hc.
  split; [reflexivity|]. split; [reflexivity|].
  rewrite select_stats_keys. split; [apply distinct_NoDup|]. split.
  - intros v. rewrite distinct_In, in_map_iff. split.
    + intros (r & Hv & Hr). apply filter_In in Hr as [Hr Hw].
      exists r. rewrite <- in_window_spec. auto.
    + intros (r & Hr & Hw & Hv). exists r. split; [assumption|].
      apply filter_In. rewrite in_window_spec. auto.
  - intros v mx mn sd. apply select_stats_row.
Qed.

Lemma select_rain_count_number (s e : datetime) (table : list WeatherData) :
  select_rain_count s e table = number_of_rows (rain_hour_dec s e) table.
Proof.
  unfold select_rain_count.
  induction table as [|r table IH]; [reflexivity|].
  cbn [filter number_of_rows]. rewrite <- IH.
  destruct (rain_hour_dec s e r) as [[Hw Hr]|Hn].
  - apply in_window_spec in Hw. rewrite Hw, Hr. cbn [andb Bool.eqb List.length].
    lia.
  - destruct (in_window s e r && Bool.eqb (rain_presence r) true)%bool eqn:E;
      [|lia].
    apply andb_prop in E as [Hw Hr]. exfalso. apply Hn. split.
    + now apply in_window_spec.
    + now apply Bool.eqb_prop.
Qed.

(** C6: with the window [(start, end)] of [parse_date_filter],
    [count_rain_hours] returns the number of stored rows whose date
    satisfies [start <= date < end] and whose [rain_presence] is true; the
    table is left as it was. *)
Theorem count_rain_hours_counts (date_filter : string)
        (start_date end_date : datetime) (w : world) :
  parse_date_filter clock date_filter = Ok (start_date, end_date) ->
  fst (count_rain_hours date_filter w) =
    Ok (number_of_rows (rain_hour_dec start_date end_date) (w_table w)) /\
  w_table (snd (count_rain_hours date_filter w)) = w_table w.
Proof.
  intros Hp. unfold count_rain_hours, bind, lift. rewrite Hp.
  split; [|reflexivity].
  cbn. now rewrite select_rain_count_number.
Qed.

(** *** ORDER BY *)

Section OrderBy.
Context {A : Type} (le : A -> A -> bool).
Hypothesis le_total : forall x y, le x y = true \/ le y x = true.
Hypothesis le_trans :
  forall x y z, le x y = true -> le y z = true -> le x z = true.

Lemma insert_sorted_In (x y : A) (l : list A) :
  In y (insert_sorted le x l) <-> y = x \/ In y l.
Proof.
  induction l as [|z l IH]; simpl.
  - intuition congruence.
  - destruct (le x z); simpl; [intuition congruence|].
    rewrite IH. intuition congruence.
Qed.

Lemma order_by_In (y : A) (l : list A) : In y (order_by le l) <-> In y l.
Proof.
  induction l as [|x l IH]; simpl; [tauto|].
  rewrite insert_sorted_In, IH. intuition congruence.
Qed.

Lemma insert_sorted_ordered (x : A) (l : list A) :
  ordered le l -> ordered le (insert_sorted le x l).
Proof using le_trans le_total.
  induction l as [|z l IH]; simpl.
  - intros _. split; [intros y []|exact I].
  - intros [Hz Hl]. destruct (le x z) eqn:E; simpl.
    + split; [|split; assumption].
      intros y [<-|Hy]; [assumption|].
      apply le_trans with z; auto.
    + split; [|auto].
      intros y Hy. apply insert_sorted_In in Hy as [->|Hy]; [|auto].
      destruct (le_total x z); [congruence|assumption].
Qed.

Lemma order_by_ordered (l : list A) : ordered le (order_by le l).
Proof using le_trans le_total.
  induction l as [|x l IH]; simpl; [exact I|].
  now apply insert_sorted_ordered.
Qed.

(** The first row of an ordered result precedes every row. *)
Lemma order_by_first (l : list A) (h : A) :
  hd_error (order_by le l) = Some h ->
  In h l /\ forall x, In x l -> le h x = true.
Proof using le_trans le_total.
  intros H. pose proof (order_by_ordered l) as Ho.
  destruct (order_by le l) as [|h' t] eqn:E; [discriminate|].
  injection H as ->. split.
  - apply order_by_In. rewrite E. now left.
  - intros x Hx. apply order_by_In in Hx. rewrite E in Hx.
    destruct Ho as [Hh _]. destruct Hx as [<-|Hx]; [|auto].
    destruct (le_total h h); assumption.
Qed.

Lemma order_by_none (l : list A) : hd_error (order_by le l) = None -> l = [].
Proof.
  intros H. destruct l as [|x l]; [reflexivity|].
  assert (Hx : In x (order_by le (x :: l))) by (apply order_by_In; now left).
  destruct (order_by le (x :: l)); [destruct Hx|discriminate].
Qed.
End OrderBy.

Lemma opt_leb_total (a b : option float) :
  opt_leb a b = true \/ opt_leb b a = true.
Proof using float_leb_total.
  destruct a as [x|], b as [y|]; simpl; auto.
Qed.

Lemma opt_leb_trans (a b c : option float) :
  opt_leb a b = true -> opt_leb b c = true -> opt_leb a c = true.
Proof using float_leb_trans.
  destruct a as [x|], b as [y|], c as [z|]; simpl; try congruence.
  apply float_leb_trans.
Qed.

(** The rows [select_extreme] ranks: one per city with records in the
    window, holding the city's aggregate. *)
Lemma select_extreme_In (use_max : bool) (s e : datetime)
      (table : list WeatherData) (v : sqlval) (t : option float) :
  In (v, t) (select_extreme use_max s e table) ->
  exists c m,
    v = SqlText c /\ t = Some m /\
    let temps := map temperature (group_records col_city s e v table) in
    if use_max then is_maximum temps m else is_minimum temps m.
Proof using float_leb_trans float_leb_total float_eqb_eq.
  unfold select_extreme.
  intros H.
  assert (Hin : In (v, t)
            (map (fun g : sqlval * list WeatherData =>
                    let temps := map temperature (snd g) in
                    (fst g, if use_max then sql_max temps else sql_min temps))
                 (group_by (column_value col_city)
                           (filter (in_window s e) table)))).
  { destruct use_max; apply order_by_In in H; exact H. }
  clear H. apply in_map_iff in Hin as ([k g] & Heq & Hin).
  simpl in Heq. injection Heq as -> <-.
  pose proof (group_by_In _ _ _ _ Hin) as [_ (r & _ & Hk)].
  apply group_by_window in Hin as [-> Hne].
  assert (Ht : map temperature (group_records col_city s e v table) <> []).
  { intros H. apply map_eq_nil in H. contradiction. }
  exists (city r). simpl in Hk.
  destruct use_max.
  - destruct (sql_max_spec _ Ht) as (m & -> & Hm). eauto.
  - destruct (sql_min_spec _ Ht) as (m & -> & Hm). eauto.
Qed.

(** Every record of the window is covered by the row of its city. *)
Lemma select_extreme_covers (use_max : bool) (s e : datetime)
      (table : list WeatherData) (r : WeatherData) :
  In r table -> date_within s e r ->
  exists m,
    In (SqlText (city r), Some m) (select_extreme use_max s e table) /\
    if use_max then float_leb (temperature r) m = true
    else float_leb m (temperature r) = true.
Proof using float_leb_trans float_leb_total float_eqb_eq.
  intros Hr Hw. apply in_window_spec in Hw.
  set (rows := filter (in_window s e) table).
  assert (Hrow : In r rows) by (apply filter_In; auto).
  set (k := SqlText (city r)).
  set (g := filter (fun x => sqlval_eqb (column_value col_city x) k) rows).
  assert (Hg : In (k, g) (group_by (column_value col_city) rows)).
  { unfold group_by. apply in_map_iff. exists k. split; [reflexivity|].
    apply distinct_In. apply in_map_iff. exists r. auto. }
  assert (Hrg : In (temperature r) (map temperature g)).
  { apply in_map. apply filter_In. split; [assumption|].
    now apply sqlval_eqb_eq. }
  assert (Ht : map temperature g <> []).
  { intros H. rewrite H in Hrg. destruct Hrg. }
  unfold select_extreme. fold rows.
  destruct use_max.
  - destruct (sql_max_spec _ Ht) as (m & Hm & _ & Hub).
    exists m. split; [|auto].
    apply order_by_In. apply in_map_iff. exists (k, g). simpl.
    rewrite Hm. auto.
  - destruct (sql_min_spec _ Ht) as (m & Hm & _ & Hlb).
    exists m. split; [|auto].
    apply order_by_In. apply in_map_iff. exists (k, g). simpl.
    rewrite Hm. auto.
Qed.

Lemma select_extreme_first (use_max : bool) (s e : datetime)
      (table : list WeatherData) (v : sqlval) (t : option float) :
  hd_error (select_extreme use_max s e table) = Some (v, t) ->
  exists c m,
    v = SqlText c /\ t = Some m /\
    (let temps := map temperature (group_records col_city s e v table) in
     if use_max then is_maximum temps m else is_minimum temps m) /\
    forall r, In r table -> date_within s e r ->
              if use_max then float_leb (temperature r) m = true
              else float_leb m (temperature r) = true.
Proof using float_leb_trans float_leb_total float_eqb_eq.
  intros H.
  assert (Hfirst : In (v, t) (select_extreme use_max s e table) /\
                   forall x, In x (select_extreme use_max s e table) ->
                     if use_max then opt_leb (snd x) t = true
                     else opt_leb t (snd x) = true).
  { unfold select_extreme in *. destruct use_max.
    - apply order_by_first in H as [Hin Hle].
      + split; [apply order_by_In; exact Hin|].
        intros x Hx. apply order_by_In in Hx. apply (Hle x Hx).
      + intros x y. apply opt_leb_total.
      + intros x y z H1 H2. eapply opt_leb_trans; eassumption.
    - apply order_by_first in H as [Hin Hle].
      + split; [apply order_by_In; exact Hin|].
        intros x Hx. apply order_by_In in Hx. apply (Hle x Hx).
      + intros x y. apply opt_leb_total.
      + intros x y z H1 H2. eapply opt_leb_trans; eassumption. }
  destruct Hfirst as [Hin Hle].
  destruct (select_extreme_In _ _ _ _ _ _ Hin) as (c & m & -> & -> & Hm).
  exists c, m. repeat split; [exact Hm|].
  intros r Hr Hw.
  destruct (select_extreme_covers use_max s e table r Hr Hw) as (m' & Hin' & Hr').
  specialize (Hle _ Hin'). simpl in Hle.
  destruct use_max.
  - eapply float_leb_trans; eassumption.
  - eapply float_leb_trans; eassumption.
Qed.

Lemma select_extreme_none (use_max : bool) (s e : datetime)
      (table : list WeatherData) :
  hd_error (select_extreme use_max s e table) = None ->
  forall r, In r table -> ~ date_within s e r.
Proof using float_leb_trans float_leb_total float_eqb_eq.
  intros H r Hr Hw.
  destruct (select_extreme_covers use_max s e table r Hr Hw) as (m & Hin & _).
  unfold select_extreme in *.
  destruct use_max; apply order_by_none in H; apply order_by_In in Hin;
    rewrite H in Hin; destruct Hin.
Qed.

Lemma is_max_false (temp_extreme : option string) :
  temp_extreme <> Some "max" -> is_max temp_extreme = false.
Proof.
  destruct temp_extreme as [s|]; [|reflexivity]. simpl. intros H.
  destruct (String.eqb_spec s "max") as [->|_]; [congruence|reflexivity].
Qed.

Lemma get_temperature_extremes_run (date_filter : string)
      (temp_extreme : option string) (s e : datetime) (w : world) :
  parse_date_filter clock date_filter = Ok (s, e) ->
  fst (get_temperature_extremes date_filter temp_extreme w) =
    Ok (hd_error (select_extreme (is_max temp_extreme) s e (w_table w))) /\
  w_statements (snd (get_temperature_extremes date_filter temp_extreme w)) =
    w_statements w ++ [SelectExtreme (is_max temp_extreme) s e].
Proof.
  intros Hp. unfold get_temperature_extremes, bind, lift. rewrite Hp.
  split; reflexivity.
Qed.

(** C9: any [temp_extreme] other than the exact string 'max' ('MAX', a
    misspelling, any other string, or None) is treated as 'min': the
    call is the call with 'min'; the statement sent aggregates with
    min(temperature) per city in ascending order, and the answer is a city
    with its minimum in the window, a minimum no record of the window goes
    below (or nothing when the window holds no record).  With the exact
    string 'max' the answer is a city with its maximum, which no record of
    the window exceeds. *)
Theorem temperature_extremes_min_unless_max (date_filter : string)
        (temp_extreme : option string) (start_date end_date : datetime)
        (w : world) :
  parse_date_filter clock date_filter = Ok (start_date, end_date) ->
  temp_extreme <> Some "max" ->
  get_temperature_extremes date_filter temp_extreme =
    get_temperature_extremes date_filter (Some "min") /\
  w_statements (snd (get_temperature_extremes date_filter temp_extreme w)) =
    w_statements w ++ [SelectExtreme false start_date end_date] /\
  match fst (get_temperature_extremes date_filter temp_extreme w) with
  | Ok (Some (v, t)) =>
      exists c m,
        v = SqlText c /\ t = Some m /\
        is_minimum (map temperature
                      (group_records col_city start_date end_date (SqlText c)
                                     (w_table w))) m /\
        forall r, In r (w_table w) -> date_within start_date end_date r ->
                  float_leb m (temperature r) = true
  | Ok None =>
      forall r, In r (w_table w) -> ~ date_within start_date end_date r
  | Raise _ => False
  end /\
  match fst (get_temperature_extremes date_filter (Some "max") w) with
  | Ok (Some (v, t)) =>
      exists c m,
        v = SqlText c /\ t = Some m /\
        is_maximum (map temperature
                      (group_records col_city start_date end_date (SqlText c)
                                     (w_table w))) m /\
        forall r, In r (w_table w) -> date_within start_date end_date r ->
                  float_leb (temperature r) m = true
  | Ok None =>
      forall r, In r (w_table w) -> ~ date_within start_date end_date r
  | Raise _ => False
  end.
Proof using float_leb_trans float_leb_total float_eqb_eq.
  intros Hp Hne. pose proof (is_max_false _ Hne) as Hf.
  split; [|split; [|split]].
  - unfold get_temperature_extremes. rewrite Hf. reflexivity.
  - destruct (get_temperature_extremes_run date_filter temp_extreme _ _ w Hp)
      as [_ ->]. now rewrite Hf.
  - destruct (get_temperature_extremes_run date_filter temp_extreme _ _ w Hp)
      as [-> _]. rewrite Hf.
    destruct (hd_error _) as [[v t]|] eqn:E.
    + apply select_extreme_first in E as (c & m & -> & -> & Hm & Hall).
      exists c, m. auto.
    + now apply select_extreme_none with (use_max := false).
  - destruct (get_temperature_extremes_run date_filter (Some "max") _ _ w Hp)
      as [-> _]. change (is_max (Some "max")) with true.
    destruct (hd_error _) as [[v t]|] eqn:E.
    + apply select_extreme_first in E as (c & m & -> & -> & Hm & Hall).
      exists c, m. auto.
    + now apply select_extreme_none with (use_max := true).
Qed.

(** ** main.py *)

Lemma for_each_logging {A : Type} (f : A -> log_record) (l : list A) (w : world) :
  for_each l (fun x => logging (f x)) w =
  (Ok tt,
   {| w_table := w_table w; w_next_id := w_next_id w; w_session := w_session w;
      w_log := w_log w ++ map f l; w_http := w_http w;
      w_statements := w_statements w |}).
Proof.
  revert w. induction l as [|x l IH]; intros w.
  - simpl. unfold ret. rewrite app_nil_r. destruct w; reflexivity.
  - simpl. unfold bind, logging, add_log. rewrite IH. simpl.
    rewrite <- app_assoc. reflexivity.
Qed.

(** [fetch_weather_stats] builds its [DatabaseManager] first: what
    [create_engine] raises for the URL the caller raises, whatever the data
    type, with nothing sent and nothing logged. *)
Lemma fetch_weather_stats_engine_raises (data_type date_filter : string)
      (database_url : option string) (temp_extreme : option string)
      (e : exn) (w : world) :
  create_engine_raises database_url = Some e ->
  fetch_weather_stats data_type date_filter database_url temp_extreme w =
  (Raise e, w).
Proof. clear_oracles.
  intros He. unfold fetch_weather_stats, bind, DatabaseManager_init.
  rewrite He. reflexivity.
Qed.

(** C7: with a database URL that [create_engine] accepts,
    [fetch_weather_stats] sends exactly one of four canned statements: for
    'countries' the grouped statistics by country, for 'cities' the grouped
    statistics by city, for 'extremes' the temperature extreme with the
    given [temp_extreme], for 'rain' the rain-hour count, each over the
    window of the date filter, and logs what the statement returns: a line
    for every row of the statistics (in the order the database gave them,
    which SQL leaves open), one line for the extreme the method returned,
    one line for the count.  For every other [data_type] it sends no
    statement and logs the error 'Invalid data type specified.'. *)
Theorem fetch_weather_stats_dispatch (data_type date_filter : string)
        (database_url : option string) (temp_extreme : option string)
        (w : world) :
  create_engine_raises database_url = None ->
  let run := fetch_weather_stats data_type date_filter database_url temp_extreme w in
  (~ In data_type ["countries"; "cities"; "extremes"; "rain"] ->
   fst run = Ok tt /\
   w_statements (snd run) = w_statements w /\
   w_log (snd run) = w_log w ++ [LogInvalidDataType]) /\
  (forall start_date end_date,
      parse_date_filter clock date_filter = Ok (start_date, end_date) ->
      fst run = Ok tt /\
      match canned_statement data_type temp_extreme start_date end_date with
      | Some stmt =>
          In data_type ["countries"; "cities"; "extremes"; "rain"] /\
          w_statements (snd run) = w_statements w ++ [stmt] /\
          exists lines,
            w_log (snd run) = w_log w ++ lines /\
            match stmt with
            | SelectStats c s e =>
                Permutation lines
                  (map (fun row => LogInfo (InfoStats row))
                       (select_stats c s e (w_table w)))
            | SelectExtreme use_max s e =>
                exists extremes,
                  fst (get_temperature_extremes date_filter temp_extreme w) =
                    Ok extremes /\
                  lines = [LogInfo (InfoExtremes extremes)]
            | SelectRainCount s e =>
                lines = [LogInfo (InfoRain (select_rain_count s e (w_table w)))]
            end
      | None =>
          ~ In data_type ["countries"; "cities"; "extremes"; "rain"] /\
          w_statements (snd run) = w_statements w /\
          w_log (snd run) = w_log w ++ [LogInvalidDataType]
      end).
Proof. clear_oracles.
  intros Hengine run. subst run.
  unfold fetch_weather_stats, canned_statement.
  unfold bind at 1, DatabaseManager_init. rewrite Hengine.
  split.
  - intros Hn. simpl in Hn.
    repeat match goal with
    | |- context [String.eqb data_type ?s] =>
        destruct (String.eqb_spec data_type s) as [->|_]; [exfalso; tauto|]
    end.
    repeat split.
  - intros s e Hp.
    destruct (String.eqb_spec data_type "countries") as [->|N1].
    { unfold get_countries_stats, query_stats, bind, lift. rewrite Hp.
      cbn [getattr_WeatherData String.eqb Ascii.eqb Bool.eqb].
      cbv beta iota. unfold with_session, session_exec, session_open,
        session_close, bind. cbn [fst snd set_session w_table w_next_id w_session
        w_log w_http w_statements].
      rewrite for_each_logging. cbn.
      split; [reflexivity|]. split; [auto|]. split; [reflexivity|].
      eexists. split; [reflexivity|]. apply Permutation_refl. }
    destruct (String.eqb_spec data_type "cities") as [->|N2].
    { unfold get_cities_stats, query_stats, bind, lift. rewrite Hp.
      cbn [getattr_WeatherData String.eqb Ascii.eqb Bool.eqb].
      cbv beta iota. unfold with_session, session_exec, session_open,
        session_close, bind. cbn [fst snd set_session w_table w_next_id w_session
        w_log w_http w_statements].
      rewrite for_each_logging. cbn.
      split; [reflexivity|]. split; [auto|]. split; [reflexivity|].
      eexists. split; [reflexivity|]. apply Permutation_refl. }
    destruct (String.eqb_spec data_type "extremes") as [->|N3].
    { unfold get_temperature_extremes, bind, lift. rewrite Hp.
      cbn. split; [reflexivity|]. split; [auto|]. split; [reflexivity|].
      eexists. split; [reflexivity|]. eexists. split; reflexivity. }
    destruct (String.eqb_spec data_type "rain") as [->|N4].
    { unfold count_rain_hours, bind, lift. rewrite Hp.
      cbn. split; [reflexivity|]. split; [auto 6|]. split; [reflexivity|].
      eexists. split; reflexivity. }
    cbn. repeat split; auto. intuition congruence.
Qed.

(** ** aws_lambda.py *)

Lemma normalized_record_keys (c : string) (json : result pyval) (d : pydict) :
  normalized_record c json = Ok d ->
  map fst d = ["country"; "city"; "temperature"; "rain_presence";
               "weather_description"; "weather_data_date"] /\
  dict_lookup d "city" = Some (PyStr c).
Proof.
  unfold normalized_record, rbind.
  repeat match goal with
  | |- context [match ?r with Ok _ => _ | Raise _ => _ end] =>
      destruct r; [|discriminate]
  end.
  intros H; injection H as <-. split; reflexivity.
Qed.

(** The outcome of [get_weather] read off the network. *)
Lemma get_weather_run (api_key c : string) (w : world) :
  fst (get_weather api_key c w) =
  match network (complete_url api_key c) with
  | HttpRaises e => if is_RequestException e then Ok None else Raise e
  | HttpResponse status_code json =>
      if status_code =? 200 then
        match normalized_record c json with
        | Ok d => Ok (Some d)
        | Raise e => if is_RequestException e then Ok None else Raise e
        end
      else Ok None
  end.
Proof.
  unfold get_weather, try_except, bind, requests_get, lift, ret, raise, logging.
  destruct (network (complete_url api_key c)) as [e|status_code json].
  - destruct (is_RequestException e); reflexivity.
  - cbn [fst snd]. destruct (status_code =? 200); [|reflexivity].
    destruct (normalized_record c json) as [d|e]; [reflexivity|].
    destruct (is_RequestException e); reflexivity.
Qed.

(** C4: [get_weather] returns None, and raises nothing, whenever the
    response status is not 200 and whenever [requests.get] raises a
    [requests.RequestException]; a dictionary is returned only on a 200
    response, and it then holds the six fields country, city, temperature,
    rain_presence, weather_description and weather_data_date, the city
    being the one asked for. *)
Theorem get_weather_none_on_failure (api_key c : string) (w : world) :
  (forall e,
      network (complete_url api_key c) = HttpRaises e ->
      is_RequestException e = true ->
      fst (get_weather api_key c w) = Ok None) /\
  (forall status_code json,
      network (complete_url api_key c) = HttpResponse status_code json ->
      status_code <> 200 ->
      fst (get_weather api_key c w) = Ok None) /\
  (forall d,
      fst (get_weather api_key c w) = Ok (Some d) ->
      (exists json, network (complete_url api_key c) = HttpResponse 200 json) /\
      map fst d = ["country"; "city"; "temperature"; "rain_presence";
                   "weather_description"; "weather_data_date"] /\
      dict_lookup d "city" = Some (PyStr c)).
Proof.
  rewrite get_weather_run. split; [|split].
  - intros e -> ->. reflexivity.
  - intros status_code json -> Hs.
    apply Z.eqb_neq in Hs. rewrite Hs. reflexivity.
  - intros d.
    destruct (network (complete_url api_key c)) as [e|status_code json].
    + destruct (is_RequestException e); discriminate.
    + destruct (Z.eqb_spec status_code 200) as [->|_]; [|discriminate].
      destruct (normalized_record c json) as [d'|e] eqn:E.
      * intros H; injection H as ->. split; [eauto|].
        now apply normalized_record_keys with json.
      * destruct (is_RequestException e); discriminate.
Qed.

(** *** add_record *)

(** The row the database stores for a record: the key is drawn from the
    sequence when the record has none. *)
Lemma insert_row_table (r : WeatherData) (t : list WeatherData) (n : Z) :
  fst (insert_row r (t, n)) =
  t ++ [match id r with Some _ => r | None => with_id n r end].
Proof. unfold insert_row. destruct (id r); reflexivity. Qed.

Lemma add_record_run (r : WeatherData) (w : world) :
  fst (add_record r w) = Ok tt /\
  w_http (snd (add_record r w)) = w_http w /\
  w_statements (snd (add_record r w)) = w_statements w /\
  match session_add_raises r, session_commit_raises r with
  | None, None =>
      (w_table (snd (add_record r w)), w_next_id (snd (add_record r w))) =
        insert_row r (w_table w, w_next_id w) /\
      w_log (snd (add_record r w)) =
        w_log w ++ match session_refresh_raises r with
                   | Some e => [LogDatabaseError e]
                   | None => []
                   end
  | Some e, _ | None, Some e =>
      w_table (snd (add_record r w)) = w_table w /\
      w_next_id (snd (add_record r w)) = w_next_id w /\
      w_log (snd (add_record r w)) = w_log w ++ [LogDatabaseError e]
  end.
Proof.
  unfold add_record, with_session, try_except, bind, session_open,
    session_add, session_commit, session_refresh, session_rollback,
    session_close, logging.
  cbn [fst snd set_session w_table w_next_id w_session w_log w_http
       w_statements].
  destruct (session_add_raises r) as [e|]; [cbn; repeat split|].
  cbn [fst snd set_session set_table w_table w_next_id w_session w_log w_http
       w_statements app first_raise insert_rows].
  destruct (session_commit_raises r) as [e|]; [cbn; repeat split|].
  destruct (insert_row r (w_table w, w_next_id w)) as [t n] eqn:E.
  cbn [fst snd set_session set_table w_table w_next_id w_session w_log w_http
       w_statements].
  destruct (session_refresh_raises r) as [e|]; cbn.
  - repeat split.
  - rewrite app_nil_r. repeat split.
Qed.

(** C5, as amended: [add_record] never lets an exception reach its caller.
    When neither [session.add] nor [session.commit] raises, exactly the one
    record is stored, and an error is logged only if the following
    [session.refresh] raises.  When [session.add] or [session.commit]
    raises, the error is logged, the session is rolled back and the table
    is left as it was. *)
Theorem add_record_commits_or_rolls_back (r : WeatherData) (w : world) :
  let w' := snd (add_record r w) in
  fst (add_record r w) = Ok tt /\
  match session_add_raises r, session_commit_raises r with
  | None, None =>
      w_table w' =
        w_table w ++
        [match id r with Some _ => r | None => with_id (w_next_id w) r end] /\
      w_log w' = w_log w ++ match session_refresh_raises r with
                            | Some e => [LogDatabaseError e]
                            | None => []
                            end
  | Some e, _ | None, Some e =>
      w_table w' = w_table w /\
      w_log w' = w_log w ++ [LogDatabaseError e]
  end.
Proof.
  intros w'. subst w'.
  destruct (add_record_run r w) as (Hr & _ & _ & H).
  split; [exact Hr|].
  destruct (session_add_raises r) as [e|]; [tauto|].
  destruct (session_commit_raises r) as [e|]; [tauto|].
  destruct H as [Ht Hl]. split; [|exact Hl].
  rewrite <- insert_row_table. rewrite <- Ht. reflexivity.
Qed.

(** *** One task of the batch *)

Lemma insert_rows_app (a b : list WeatherData) (tn : list WeatherData * Z) :
  insert_rows (a ++ b) tn = insert_rows b (insert_rows a tn).
Proof.
  revert tn. induction a as [|r a IH]; intros tn; simpl; [reflexivity|].
  apply IH.
Qed.

(** [get_weather] asks the network once; result and log follow from the
    answer. *)
Lemma get_weather_world (api_key c : string) (w : world) :
  let url := complete_url api_key c in
  let failed e :=
    if is_RequestException e
    then (Ok None, add_log [LogRequestError e] (add_http url w))
    else (Raise e, add_http url w) in
  get_weather api_key c w =
  match network url with
  | HttpRaises e => failed e
  | HttpResponse status_code json =>
      if status_code =? 200 then
        match normalized_record c json with
        | Ok d => (Ok (Some d), add_http url w)
        | Raise e => failed e
        end
      else (Ok None, add_log [LogHttpError] (add_http url w))
  end.
Proof.
  intros url failed. subst failed. fold url.
  unfold get_weather, try_except, bind, requests_get, lift, ret, raise, logging.
  fold url. clearbody url.
  destruct (network url) as [e|status_code json].
  - destruct (is_RequestException e); reflexivity.
  - cbn [fst snd]. destruct (status_code =? 200); [|reflexivity].
    destruct (normalized_record c json) as [d|e]; [reflexivity|].
    destruct (is_RequestException e); reflexivity.
Qed.

(** A task returns normally, asks the network once, sends no SELECT, and
    changes the table and the log by its city's outcome alone. *)
Lemma fetch_and_store_weather_run (c api_key : string) (w : world) :
  let w' := snd (fetch_and_store_weather c api_key w) in
  fst (fetch_and_store_weather c api_key w) = Ok tt /\
  w_http w' = w_http w ++ [complete_url api_key c] /\
  w_statements w' = w_statements w /\
  (w_table w', w_next_id w') =
    insert_rows (fst (city_outcome api_key c)) (w_table w, w_next_id w) /\
  w_log w' = w_log w ++ snd (city_outcome api_key c).
Proof.
  intros w'. subst w'.
  destruct (fetch_and_store_weather c api_key w) as [res w'] eqn:E.
  cbn [fst snd].
  unfold fetch_and_store_weather, try_except at 1, bind at 1 in E.
  rewrite get_weather_world in E. cbv zeta in E.
  unfold city_outcome.
  set (url := complete_url api_key c) in *. clearbody url.
  destruct (network url) as [e|status_code json].
  { destruct (is_RequestException e); injection E as <- <-; cbn; repeat split. }
  destruct (status_code =? 200);
    [|injection E as <- <-; cbn; repeat split].
  destruct (normalized_record c json) as [d|e] eqn:Hd.
  2:{ destruct (is_RequestException e); injection E as <- <-; cbn;
      repeat split. }
  assert (Htruthy : truthy (Some d) = true).
  { apply normalized_record_keys in Hd as [Hk _].
    destruct d; [discriminate|reflexivity]. }
  rewrite Htruthy in E.
  unfold try_except, bind, lift in E.
  destruct (WeatherData_init d) as [r|e].
  2:{ destruct (is_ValidationError e); injection E as <- <-; cbn;
      repeat split. }
  destruct (add_record_run r (add_http url w)) as (Hr & Hh & Hst & H).
  destruct (add_record r (add_http url w)) as [res2 w2].
  cbn [fst snd] in *. subst res2. injection E as <- <-. rewrite Hh, Hst.
  split; [reflexivity|]. split; [reflexivity|]. split; [reflexivity|].
  cbn [add_http w_table w_next_id w_log] in H.
  destruct (session_add_raises r) as [e|].
  { destruct H as (-> & -> & ->). split; reflexivity. }
  destruct (session_commit_raises r) as [e|].
  { destruct H as (-> & -> & ->). split; reflexivity. }
  destruct H as [-> ->].
  destruct (session_refresh_raises r); split; reflexivity.
Qed.

(** *** The whole batch *)

Lemma batch_run (api_key : string) (l : list string) (w : world) :
  let run :=
    for_each l (fun c => executor_submit (fetch_and_store_weather c api_key)) w in
  fst run = Ok tt /\
  w_http (snd run) = w_http w ++ map (complete_url api_key) l /\
  w_statements (snd run) = w_statements w /\
  (w_table (snd run), w_next_id (snd run)) =
    insert_rows (flat_map (fun c => fst (city_outcome api_key c)) l)
                (w_table w, w_next_id w) /\
  w_log (snd run) =
    w_log w ++ flat_map (fun c => snd (city_outcome api_key c)) l.
Proof.
  cbv zeta. revert w. induction l as [|c l IH]; intros w.
  - simpl. rewrite !app_nil_r. repeat split.
  - change (for_each (c :: l)
              (fun c0 => executor_submit (fetch_and_store_weather c0 api_key)) w)
      with (for_each l
              (fun c0 => executor_submit (fetch_and_store_weather c0 api_key))
              (snd (fetch_and_store_weather c api_key w))).
    destruct (fetch_and_store_weather_run c api_key w)
      as (_ & Hh & Hst & Ht & Hl).
    destruct (IH (snd (fetch_and_store_weather c api_key w)))
      as (Hr' & Hh' & Hst' & Ht' & Hl').
    split; [exact Hr'|].
    split; [rewrite Hh', Hh; simpl; now rewrite <- app_assoc|].
    split; [rewrite Hst', Hst; reflexivity|].
    split.
    + rewrite Ht', Ht. cbn [flat_map]. now rewrite insert_rows_app.
    + rewrite Hl', Hl. cbn [flat_map]. now rewrite app_assoc.
Qed.

Lemma lambda_handler_run (api_key database_url : string) (w : world) :
  lambda_handler api_key database_url w =
  match db_setup_raises database_url with
  | Some e =>
      (Ok {| statusCode := 500; body := "Internal server error" |},
       add_log [LogLambdaError e] w)
  | None =>
      (Ok {| statusCode := 200; body := "Weather data updated successfully" |},
       snd (for_each (pool_order cities)
              (fun c => executor_submit (fetch_and_store_weather c api_key)) w))
  end.
Proof.
  unfold lambda_handler, try_except, bind at 1, db_setup, thread_pool.
  destruct (db_setup_raises database_url) as [e|]; [reflexivity|].
  unfold bind.
  destruct (batch_run api_key (pool_order cities) w) as (Hr & _).
  destruct (for_each (pool_order cities) _ w) as [res w']. cbn [fst snd] in *.
  subst res. reflexivity.
Qed.

(** The pool gets done exactly the tasks that were submitted. *)
Hypothesis pool_order_perm : forall l, Permutation (pool_order l) l.

Lemma insert_rows_keeps (l : list WeatherData) (t : list WeatherData) (n : Z)
      (x : WeatherData) :
  In x t -> In x (fst (insert_rows l (t, n))).
Proof.
  revert t n. induction l as [|r l IH]; intros t n Hx; [exact Hx|].
  cbn [insert_rows]. unfold insert_row.
  destruct (id r); apply IH; apply in_or_app; now left.
Qed.

(** A record among those inserted is in the table afterwards, as it is or
    with the key the sequence gave it. *)
Lemma insert_rows_In (l : list WeatherData) (t : list WeatherData) (n : Z)
      (r : WeatherData) :
  In r l ->
  exists r', In r' (fst (insert_rows l (t, n))) /\
             (r' = r \/ exists k, r' = with_id k r).
Proof.
  revert t n. induction l as [|x l IH]; intros t n Hr; [destruct Hr|].
  destruct Hr as [->|Hr].
  - cbn [insert_rows]. unfold insert_row. destruct (id r).
    + exists r. split; [|now left].
      apply insert_rows_keeps. apply in_or_app. right. now left.
    + exists (with_id n r). split; [|right; now exists n].
      apply insert_rows_keeps. apply in_or_app. right. now left.
  - cbn [insert_rows]. unfold insert_row. destruct (id x); now apply IH.
Qed.

(** C3: a city whose record fails validation or whose insert fails does
    not stop the batch.  [fetch_and_store_weather] always returns normally.
    Once the database is set up, [lambda_handler] returns statusCode 200,
    in whatever order the pool gets the tasks done; every city of the list
    is fetched; the table grows by the records of exactly those cities
    whose own fetch, validation and insert succeed, and the log by each
    city's own errors.  A failed validation stores nothing for that city
    and logs the error; a failed insert stores nothing for that city and
    logs the database error; a city whose own steps succeed has its record
    in the table afterwards, whatever happens to the others. *)
Theorem batch_survives_city_failures (api_key database_url : string) (w : world) :
  db_setup_raises database_url = None ->
  let w' := snd (lambda_handler api_key database_url w) in
  (forall c w0, fst (fetch_and_store_weather c api_key w0) = Ok tt) /\
  fst (lambda_handler api_key database_url w) =
    Ok {| statusCode := 200; body := "Weather data updated successfully" |} /\
  w_http w' = w_http w ++ map (complete_url api_key) (pool_order cities) /\
  (forall c, In c cities -> In (complete_url api_key c) (w_http w')) /\
  (w_table w', w_next_id w') =
    insert_rows
      (flat_map (fun c => fst (city_outcome api_key c)) (pool_order cities))
      (w_table w, w_next_id w) /\
  w_log w' =
    w_log w ++
    flat_map (fun c => snd (city_outcome api_key c)) (pool_order cities) /\
  (forall c json d,
      network (complete_url api_key c) = HttpResponse 200 json ->
      normalized_record c json = Ok d ->
      (forall e,
          WeatherData_init d = Raise e ->
          city_outcome api_key c =
            ([], [if is_ValidationError e then LogValidationError c e
                  else LogProcessingError c e])) /\
      (forall r e,
          WeatherData_init d = Ok r ->
          session_add_raises r = Some e \/
          (session_add_raises r = None /\ session_commit_raises r = Some e) ->
          city_outcome api_key c = ([], [LogDatabaseError e])) /\
      (forall r,
          WeatherData_init d = Ok r ->
          session_add_raises r = None -> session_commit_raises r = None ->
          In c cities ->
          exists r', In r' (w_table w') /\
                     (r' = r \/ exists k, r' = with_id k r))).
Proof using pool_order_perm.
  intros Hsetup w'. subst w'.
  split; [intros c w0; apply fetch_and_store_weather_run|].
  rewrite lambda_handler_run, Hsetup. cbn [fst snd].
  destruct (batch_run api_key (pool_order cities) w) as (_ & Hh & _ & Ht & Hl).
  split; [reflexivity|]. split; [exact Hh|].
  split.
  { intros c Hc. rewrite Hh. apply in_or_app. right. apply in_map.
    apply Permutation_in with cities; [|exact Hc].
    apply Permutation_sym, pool_order_perm. }
  split; [exact Ht|]. split; [exact Hl|].
  intros c json d Hn Hd.
  assert (Hout : forall r, WeatherData_init d = Ok r ->
                   session_add_raises r = None ->
                   session_commit_raises r = None ->
                   fst (city_outcome api_key c) = [r]).
  { intros r Hi Ha Hc. unfold city_outcome. rewrite Hn, Hd, Hi, Ha, Hc.
    change (200 =? 200) with true. cbv iota.
    destruct (session_refresh_raises r); reflexivity. }
  unfold city_outcome. rewrite Hn, Hd.
  change (200 =? 200) with true. cbv iota.
  split; [|split].
  - intros e ->. reflexivity.
  - intros r e -> [Ha|[Ha Hc]].
    + rewrite Ha. reflexivity.
    + rewrite Ha, Hc. reflexivity.
  - intros r Hi Ha Hc Hin.
    apply (f_equal fst) in Ht. cbn [fst] in Ht. rewrite Ht.
    apply insert_rows_In. apply in_flat_map. exists c. split.
    + apply Permutation_in with cities; [|exact Hin].
      apply Permutation_sym, pool_order_perm.
    + rewrite (Hout r Hi Ha Hc). now left.
Qed.

(** *** One request per city *)

Lemma string_length_append (a b : string) :
  String.length (a ++ b)%string = (String.length a + String.length b)%nat.
Proof. induction a as [|x a IH]; simpl; [reflexivity|now rewrite IH]. Qed.

Lemma string_app_inv_head (p a b : string) :
  (p ++ a)%string = (p ++ b)%string -> a = b.
Proof.
  induction p as [|x p IH]; simpl; [trivial|].
  intros H. injection H as H. auto.
Qed.

Lemma string_app_inv_tail (a b t : string) :
  (a ++ t)%string = (b ++ t)%string -> a = b.
Proof.
  revert b. induction a as [|x a IH]; intros [|y b] H; simpl in H.
  - reflexivity.
  - apply (f_equal String.length) in H. simpl in H.
    rewrite string_length_append in H. lia.
  - apply (f_equal String.length) in H. simpl in H.
    rewrite string_length_append in H. lia.
  - injection H as -> H. f_equal. auto.
Qed.

Lemma complete_url_injective (api_key c1 c2 : string) :
  complete_url api_key c1 = complete_url api_key c2 -> c1 = c2.
Proof.
  unfold complete_url. intros H.
  apply string_app_inv_head in H. apply string_app_inv_head in H.
  now apply string_app_inv_tail in H.
Qed.

Lemma map_injective_NoDup {A B : Type} (f : A -> B) (l : list A) :
  (forall x y, f x = f y -> x = y) -> NoDup l -> NoDup (map f l).
Proof.
  intros Hf. induction 1 as [|x l Hx Hl IH]; simpl; constructor; [|exact IH].
  intros H. apply in_map_iff in H as (y & Hy & Hin).
  apply Hf in Hy. subst y. contradiction.
Qed.

Lemma cities_NoDup : NoDup cities.
Proof.
  unfold cities.
  repeat (constructor;
          [simpl; intros H;
           repeat (destruct H as [H|H]; [discriminate H|]); exact H|]).
  constructor.
Qed.

(** C8: one invocation of [lambda_handler] submits one task per city of
    its fixed list of 19 cities.  When the database is set up, the GETs it
    issues are the URLs of the 19 cities, one each, in the order in which
    the pool gets the tasks done; when the setup raises, it issues none.
    In both cases no URL is requested twice and no more than 19 requests
    (fewer than 20) go out. *)
Theorem lambda_handler_one_request_per_city (api_key database_url : string)
        (w : world) :
  List.length cities = 19%nat /\ NoDup cities /\
  exists sent,
    w_http (snd (lambda_handler api_key database_url w)) = w_http w ++ sent /\
    match db_setup_raises database_url with
    | None => Permutation sent (map (complete_url api_key) cities)
    | Some _ => sent = []
    end /\
    (List.length sent <= 19)%nat /\
    NoDup sent /\
    forall c, (count_occ string_dec sent (complete_url api_key c) <= 1)%nat.
Proof using pool_order_perm.
  split; [reflexivity|]. split; [exact cities_NoDup|].
  assert (Hnd : NoDup (map (complete_url api_key) cities)).
  { apply map_injective_NoDup; [|exact cities_NoDup].
    intros c1 c2. apply complete_url_injective. }
  rewrite lambda_handler_run.
  destruct (db_setup_raises database_url) as [e|].
  - exists []. cbn [snd add_log w_http]. rewrite app_nil_r.
    repeat split; [simpl; lia|constructor|intros c; simpl; lia].
  - exists (map (complete_url api_key) (pool_order cities)). cbn [snd].
    destruct (batch_run api_key (pool_order cities) w) as (_ & Hh & _).
    assert (Hp : Permutation (map (complete_url api_key) (pool_order cities))
                             (map (complete_url api_key) cities)).
    { apply Permutation_map, pool_order_perm. }
    split; [exact Hh|]. split; [exact Hp|].
    assert (Hnd' : NoDup (map (complete_url api_key) (pool_order cities))).
    { apply Permutation_NoDup with (map (complete_url api_key) cities);
        [apply Permutation_sym; exact Hp|exact Hnd]. }
    split.
    + rewrite (Permutation_length Hp), length_map. simpl. lia.
    + split; [exact Hnd'|]. intros c. now apply NoDup_count_occ.
Qed.

(** * Further properties *)

(** Clears whatever the goal does not depend on. *)
Ltac clear_context :=
  repeat match goal with
  | H : _ |- _ => clear H
  end.

(** ** The date windows *)

Lemma to_us_injective (a b : datetime) :
  datetime_valid a -> datetime_valid b -> to_us a = to_us b -> a = b.
Proof. clear_context.
  destruct a as [ao ah am asec au], b as [bo bh bm bsec bu].
  unfold datetime_valid, to_us, seconds_of_day, SECONDS_PER_DAY, US_PER_SECOND,
    MAXORDINAL; simpl.
  intros Ha Hb H.
  assert (au = bu) by lia. assert (asec = bsec) by lia.
  assert (am = bm) by lia. assert (ah = bh) by lia. assert (ao = bo) by lia.
  subst. reflexivity.
Qed.

(** Shifting a valid datetime by whole days changes the date only; it
    overflows exactly when the new date is off the calendar. *)
Lemma datetime_add_days (d : datetime) (k : Z) :
  datetime_valid d ->
  datetime_add d (timedelta_of k 0) =
  if (0 <? dt_ordinal d + k) && (dt_ordinal d + k <=? MAXORDINAL)
  then Ok {| dt_ordinal := dt_ordinal d + k; dt_hour := dt_hour d;
             dt_minute := dt_minute d; dt_second := dt_second d;
             dt_microsecond := dt_microsecond d |}
  else Raise (mkExn OverflowError "date value out of range").
Proof. clear_context.
  intros Hd.
  destruct ((0 <? dt_ordinal d + k) && (dt_ordinal d + k <=? MAXORDINAL))%bool
    eqn:Hr.
  - apply andb_prop in Hr as [H0 H1].
    apply Z.ltb_lt in H0. apply Z.leb_le in H1.
    destruct (datetime_add_days_returns d k Hd) as [e He]; [lia|].
    rewrite He. f_equal.
    pose proof (datetime_add_ok d _ e He) as [Hv Hus].
    rewrite timedelta_of_us in Hus.
    apply to_us_injective; [assumption| |].
    + unfold datetime_valid in *; simpl. unfold MAXORDINAL in *. lia.
    + rewrite Hus. unfold to_us, seconds_of_day, US_PER_DAY, US_PER_HOUR,
        SECONDS_PER_DAY, US_PER_SECOND; simpl. lia.
  - destruct (datetime_add d (timedelta_of k 0)) as [e|ex] eqn:He.
    + exfalso. pose proof (datetime_add_ok d _ e He) as [Hv Hus].
      rewrite timedelta_of_us in Hus.
      assert (Ho : dt_ordinal e = dt_ordinal d + k).
      { apply whole_days_apart; [assumption|assumption|lia]. }
      apply andb_false_iff in Hr.
      rewrite Z.ltb_ge, Z.leb_gt in Hr.
      unfold datetime_valid in Hv. lia.
    + unfold datetime_add in He.
      destruct ((0 <? _) && _)%bool in He; [discriminate|].
      symmetry. exact He.
Qed.

Lemma datetime_sub_days (d : datetime) (k : Z) :
  datetime_valid d ->
  datetime_sub d (timedelta_of k 0) = datetime_add d (timedelta_of (- k) 0).
Proof. clear_context.
  intros Hd. unfold datetime_sub. f_equal.
  unfold td_neg, timedelta_of, td_normalize, SECONDS_PER_DAY, US_PER_SECOND.
  cbn [td_days td_seconds td_microseconds].
  f_equal; Z.div_mod_to_equations; lia.
Qed.
Lemma midnight_add_days (n k : Z) :
  1 <= n <= MAXORDINAL ->
  datetime_add (midnight_of n) (timedelta_of k 0) =
  if (0 <? n + k) && (n + k <=? MAXORDINAL)
  then Ok (midnight_of (n + k)) else overflow.
Proof. clear_context.
  intros Hn. rewrite datetime_add_days by now apply midnight_of_valid.
  reflexivity.
Qed.

Lemma date_range_midnight (n k : Z) :
  1 <= n <= MAXORDINAL ->
  date_range (midnight_of n) k 0 =
  if (0 <? n + k) && (n + k <=? MAXORDINAL)
  then Ok (midnight_of n, midnight_of (n + k)) else overflow.
Proof. clear_context.
  intros Hn. unfold date_range. rewrite midnight_add_days by assumption.
  destruct ((0 <? n + k) && (n + k <=? MAXORDINAL))%bool; reflexivity.
Qed.

Lemma shift_then_midnight (d : datetime) (k : Z) :
  datetime_valid d ->
  rbind (datetime_add d (timedelta_of k 0))
        (fun x => Ok (replace_midnight x)) =
  if (0 <? dt_ordinal d + k) && (dt_ordinal d + k <=? MAXORDINAL)
  then Ok (midnight_of (dt_ordinal d + k)) else overflow.
Proof. clear_context.
  intros Hd. rewrite datetime_add_days by assumption.
  destruct ((0 <? dt_ordinal d + k) && (dt_ordinal d + k <=? MAXORDINAL))%bool;
    reflexivity.
Qed.

(** The closed form of [parse_date_filter] on the clock filters. *)
Lemma parse_date_filter_clock_window (env : clock_env) (f : string) :
  datetime_valid (env_now env) ->
  In f clock_filters ->
  parse_date_filter env f = clock_window (dt_ordinal (env_now env)) f.
Proof. clear_context.
  intros Hnow Hf.
  assert (Ho : 1 <= dt_ordinal (env_now env) <= MAXORDINAL)
    by (destruct Hnow; assumption).
  pose proof (weekday_range (env_now env)) as Hw.
  set (o := dt_ordinal (env_now env)) in *.
  simpl in Hf. destruct Hf as [<-|[<-|[<-|[<-|[]]]]].
  - change (parse_date_filter env "today")
      with (date_range (replace_midnight (env_now env)) 1 0).
    change (clock_window o "today")
      with (if o + 1 <=? MAXORDINAL
            then Ok (midnight_of o, midnight_of (o + 1)) else @overflow _).
    rewrite replace_midnight_of. fold o. rewrite date_range_midnight by assumption.
    replace (0 <? o + 1) with true by (symmetry; apply Z.ltb_lt; lia).
    reflexivity.
  - change (parse_date_filter env "yesterday")
      with (let? d := datetime_sub (env_now env) (timedelta_of 1 0) in
            date_range (replace_midnight d) 1 0).
    change (clock_window o "yesterday")
      with (if 1 <? o
            then Ok (midnight_of (o - 1), midnight_of o) else @overflow _).
    rewrite datetime_sub_days, datetime_add_days by assumption. fold o.
    replace (o + - (1)) with (o - 1) by lia.
    replace (o - 1 <=? MAXORDINAL) with true by (symmetry; apply Z.leb_le; lia).
    rewrite andb_true_r.
    destruct (Z.ltb_spec 1 o) as [H1|H1].
    + replace (0 <? o - 1) with true by (symmetry; apply Z.ltb_lt; lia).
      unfold rbind. rewrite replace_midnight_of. cbn [dt_ordinal].
      rewrite date_range_midnight by lia.
      replace (o - 1 + 1) with o by lia.
      replace (0 <? o) with true by (symmetry; apply Z.ltb_lt; lia).
      replace (o <=? MAXORDINAL) with true by (symmetry; apply Z.leb_le; lia).
      reflexivity.
    + replace (0 <? o - 1) with false by (symmetry; apply Z.ltb_ge; lia).
      reflexivity.
  - change (parse_date_filter env "current_week")
      with (let? d := datetime_sub (env_now env)
                        (timedelta_of (weekday (env_now env)) 0) in
            date_range (replace_midnight d) 7 0).
    change (clock_window o "current_week")
      with (if o - (o + 6) mod 7 + 7 <=? MAXORDINAL
            then Ok (midnight_of (o - (o + 6) mod 7),
                     midnight_of (o - (o + 6) mod 7 + 7))
            else @overflow _).
    rewrite datetime_sub_days, datetime_add_days by assumption.
    unfold weekday in *. fold o in Hw |- *.
    assert (Hm : 1 <= o - (o + 6) mod 7 <= MAXORDINAL).
    { Z.div_mod_to_equations. lia. }
    replace (o + - ((o + 6) mod 7)) with (o - (o + 6) mod 7) by lia.
    replace (0 <? o - (o + 6) mod 7) with true by (symmetry; apply Z.ltb_lt; lia).
    replace (o - (o + 6) mod 7 <=? MAXORDINAL) with true
      by (symmetry; apply Z.leb_le; lia).
    unfold rbind. cbn [andb]. rewrite replace_midnight_of. cbn [dt_ordinal].
    rewrite date_range_midnight by assumption.
    replace (0 <? o - (o + 6) mod 7 + 7) with true
      by (symmetry; apply Z.ltb_lt; lia).
    reflexivity.
  - change (parse_date_filter env "last_seven_days")
      with (let? d := datetime_add (env_now env) (timedelta_of 1 0) in
            let? start_date :=
              datetime_sub (replace_midnight d) (timedelta_of 7 0) in
            date_range start_date 7 0).
    change (clock_window o "last_seven_days")
      with (if (o + 1 <=? MAXORDINAL) && (7 <=? o)
            then Ok (midnight_of (o - 6), midnight_of (o + 1))
            else @overflow _).
    rewrite datetime_add_days by assumption. fold o.
    replace (0 <? o + 1) with true by (symmetry; apply Z.ltb_lt; lia).
    cbn [andb].
    destruct (Z.leb_spec (o + 1) MAXORDINAL) as [H1|H1]; [|reflexivity].
    unfold rbind at 1. rewrite replace_midnight_of. cbn [dt_ordinal].
    rewrite datetime_sub_days by (apply midnight_of_valid; lia).
    rewrite midnight_add_days by lia.
    replace (o + 1 + - (7)) with (o - 6) by lia.
    replace (o - 6 <=? MAXORDINAL) with true
      by (symmetry; apply Z.leb_le; lia).
    rewrite andb_true_r.
    destruct (Z.leb_spec 7 o) as [H7|H7].
    + replace (0 <? o - 6) with true by (symmetry; apply Z.ltb_lt; lia).
      unfold rbind. rewrite date_range_midnight by lia.
      replace (o - 6 + 7) with (o + 1) by lia.
      replace (0 <? o + 1) with true by (symmetry; apply Z.ltb_lt; lia).
      replace (o + 1 <=? MAXORDINAL) with true
        by (symmetry; apply Z.leb_le; lia).
      reflexivity.
    + replace (0 <? o - 6) with false by (symmetry; apply Z.ltb_ge; lia).
      reflexivity.
Qed.
(** X1: the window of a clock filter depends on the current date only:
    two clocks that show the same day give the same result, whatever the
    time of day, the line typed at the prompt or the parser. *)
Theorem clock_filters_depend_on_date_only (env1 env2 : clock_env) (f : string) :
  datetime_valid (env_now env1) -> datetime_valid (env_now env2) ->
  dt_ordinal (env_now env1) = dt_ordinal (env_now env2) ->
  In f clock_filters ->
  parse_date_filter env1 f = parse_date_filter env2 f.
Proof. clear_context.
  intros H1 H2 Ho Hf.
  rewrite !parse_date_filter_clock_window by assumption.
  now rewrite Ho.
Qed.

(** X2: where the clock filters fail.  'today' returns on every day but
    the last of the calendar, 'yesterday' on every day but the first,
    'current_week' as long as the Monday after this week's is on the
    calendar, 'last_seven_days' from the seventh day on and not on the
    last; in every other case the filter raises OverflowError, never
    anything else. *)
Theorem clock_filters_fail_at_calendar_ends (env : clock_env) :
  datetime_valid (env_now env) ->
  let today := dt_ordinal (env_now env) in
  ((exists p, parse_date_filter env "today" = Ok p) <-> today < MAXORDINAL) /\
  ((exists p, parse_date_filter env "yesterday" = Ok p) <-> 1 < today) /\
  ((exists p, parse_date_filter env "current_week" = Ok p) <->
   today - weekday (env_now env) + 7 <= MAXORDINAL) /\
  ((exists p, parse_date_filter env "last_seven_days" = Ok p) <->
   7 <= today < MAXORDINAL) /\
  (forall f e, In f clock_filters -> parse_date_filter env f = Raise e ->
               e = mkExn OverflowError "date value out of range").
Proof. clear_context.
  intros Hnow today.
  assert (Hcw : forall f, In f clock_filters ->
                  parse_date_filter env f = clock_window today f).
  { intros f Hf. now apply parse_date_filter_clock_window. }
  rewrite (Hcw "today"), (Hcw "yesterday"), (Hcw "current_week"),
    (Hcw "last_seven_days") by (simpl; tauto).
  unfold weekday. fold today.
  change (clock_window today "today")
    with (if today + 1 <=? MAXORDINAL
          then Ok (midnight_of today, midnight_of (today + 1))
          else @overflow _).
  change (clock_window today "yesterday")
    with (if 1 <? today
          then Ok (midnight_of (today - 1), midnight_of today)
          else @overflow _).
  change (clock_window today "current_week")
    with (if today - (today + 6) mod 7 + 7 <=? MAXORDINAL
          then Ok (midnight_of (today - (today + 6) mod 7),
                   midnight_of (today - (today + 6) mod 7 + 7))
          else @overflow _).
  change (clock_window today "last_seven_days")
    with (if (today + 1 <=? MAXORDINAL) && (7 <=? today)
          then Ok (midnight_of (today - 6), midnight_of (today + 1))
          else @overflow _).
  split; [|split; [|split; [|split]]].
  - destruct (Z.leb_spec (today + 1) MAXORDINAL); split;
      try lia; try (intros [p Hp]; discriminate Hp); eauto.
  - destruct (Z.ltb_spec 1 today); split;
      try lia; try (intros [p Hp]; discriminate Hp); eauto.
  - destruct (Z.leb_spec (today - (today + 6) mod 7 + 7) MAXORDINAL); split;
      try lia; try (intros [p Hp]; discriminate Hp); eauto.
  - destruct (Z.leb_spec (today + 1) MAXORDINAL), (Z.leb_spec 7 today);
      cbn [andb]; split;
      try lia; try (intros [p Hp]; discriminate Hp); eauto.
  - intros f e Hf. rewrite (Hcw f Hf). clear Hcw.
    simpl in Hf. destruct Hf as [<-|[<-|[<-|[<-|[]]]]].
    + change (clock_window today "today")
        with (if today + 1 <=? MAXORDINAL
              then Ok (midnight_of today, midnight_of (today + 1))
              else @overflow _).
      destruct (today + 1 <=? MAXORDINAL); [discriminate|].
      intros H; injection H as <-. reflexivity.
    + change (clock_window today "yesterday")
        with (if 1 <? today
              then Ok (midnight_of (today - 1), midnight_of today)
              else @overflow _).
      destruct (1 <? today); [discriminate|].
      intros H; injection H as <-. reflexivity.
    + change (clock_window today "current_week")
        with (if today - (today + 6) mod 7 + 7 <=? MAXORDINAL
              then Ok (midnight_of (today - (today + 6) mod 7),
                       midnight_of (today - (today + 6) mod 7 + 7))
              else @overflow _).
      destruct (today - (today + 6) mod 7 + 7 <=? MAXORDINAL); [discriminate|].
      intros H; injection H as <-. reflexivity.
    + change (clock_window today "last_seven_days")
        with (if (today + 1 <=? MAXORDINAL) && (7 <=? today)
              then Ok (midnight_of (today - 6), midnight_of (today + 1))
              else @overflow _).
      destruct ((today + 1 <=? MAXORDINAL) && (7 <=? today))%bool;
        [discriminate|].
      intros H; injection H as <-. reflexivity.
Qed.
(** Unfolds the closed form of a clock filter that returned. *)
Lemma clock_window_ok (today : Z) (f : string) (s e : datetime) :
  clock_window today f = Ok (s, e) ->
  exists a b, s = midnight_of a /\ e = midnight_of b /\
    ((f = "today" /\ a = today /\ b = today + 1) \/
     (f = "yesterday" /\ a = today - 1 /\ b = today) \/
     (f = "current_week" /\ a = today - (today + 6) mod 7 /\ b = a + 7) \/
     (f = "last_seven_days" /\ a = today - 6 /\ b = today + 1)).
Proof. clear_context.
  unfold clock_window.
  destruct (String.eqb_spec f "today") as [->|_].
  { destruct (today + 1 <=? MAXORDINAL); [|discriminate].
    intros H; injection H as <- <-. eexists _, _. eauto 10. }
  destruct (String.eqb_spec f "yesterday") as [->|_].
  { destruct (1 <? today); [|discriminate].
    intros H; injection H as <- <-. eexists _, _. eauto 10. }
  destruct (String.eqb_spec f "current_week") as [->|_].
  { cbv zeta. destruct (_ <=? MAXORDINAL); [|discriminate].
    intros H; injection H as <- <-. eexists _, _. eauto 10. }
  destruct (String.eqb_spec f "last_seven_days") as [->|_].
  { destruct (_ && _)%bool; [|discriminate].
    intros H; injection H as <- <-. eexists _, _. eauto 10. }
  discriminate.
Qed.

(** X3: where the clock stands in the windows.  The windows of 'today',
    'current_week' and 'last_seven_days' contain the present moment; the
    window of 'yesterday' ends at the midnight that opened today, and so
    lies wholly in the past. *)
Theorem clock_windows_around_now (env : clock_env) :
  datetime_valid (env_now env) ->
  (forall f s e,
      In f ["today"; "current_week"; "last_seven_days"] ->
      parse_date_filter env f = Ok (s, e) ->
      to_us s <= to_us (env_now env) < to_us e) /\
  (forall s e,
      parse_date_filter env "yesterday" = Ok (s, e) ->
      e = midnight_of (dt_ordinal (env_now env)) /\
      to_us e <= to_us (env_now env)).
Proof. clear_context.
  intros Hnow.
  pose proof (to_us_day_bounds _ Hnow) as Hb.
  set (o := dt_ordinal (env_now env)) in *.
  assert (Hm : 0 <= (o + 6) mod 7 < 7) by (apply Z.mod_pos_bound; lia).
  split.
  - intros f s e Hf.
    rewrite parse_date_filter_clock_window
      by (assumption || (simpl in *; tauto)).
    fold o. intros H.
    apply clock_window_ok in H as (a & b & -> & -> & Hc).
    rewrite !midnight_of_us. unfold US_PER_DAY in *.
    simpl in Hf.
    destruct Hc as [(-> & -> & ->)|[(-> & -> & ->)|[(-> & -> & ->)|(-> & -> & ->)]]];
      try lia.
    destruct Hf as [Hf|[Hf|[Hf|[]]]]; discriminate Hf.
  - intros s e.
    rewrite parse_date_filter_clock_window by (assumption || (simpl; tauto)).
    fold o. intros H.
    apply clock_window_ok in H as (a & b & -> & -> & Hc).
    destruct Hc as [(Hf & _)|[(_ & -> & ->)|[(Hf & _)|(Hf & _)]]];
      try discriminate Hf.
    split; [reflexivity|]. rewrite midnight_of_us. lia.
Qed.

(** X4: how the windows lie in each other.  'yesterday' ends where 'today'
    begins; 'last_seven_days' ends where 'today' ends and begins six days
    before today; 'today' lies within 'current_week' and within
    'last_seven_days', 'yesterday' within 'last_seven_days'.  'yesterday'
    lies within 'current_week' except on a Monday, when it ends where the
    week begins. *)
Theorem clock_windows_nest (env : clock_env)
        (ts te ys ye ws we ls le : datetime) :
  datetime_valid (env_now env) ->
  parse_date_filter env "today" = Ok (ts, te) ->
  parse_date_filter env "yesterday" = Ok (ys, ye) ->
  parse_date_filter env "current_week" = Ok (ws, we) ->
  parse_date_filter env "last_seven_days" = Ok (ls, le) ->
  ye = ts /\ le = te /\
  to_us ts = to_us ls + 6 * US_PER_DAY /\
  (to_us ws <= to_us ts /\ to_us te <= to_us we) /\
  (to_us ls <= to_us ys /\ to_us ye <= to_us le) /\
  (weekday (env_now env) = 0 -> ye = ws) /\
  (weekday (env_now env) <> 0 -> to_us ws <= to_us ys /\ to_us ye <= to_us we).
Proof. clear_context.
  intros Hnow.
  rewrite !parse_date_filter_clock_window by (assumption || (simpl; tauto)).
  unfold weekday.
  set (o := dt_ordinal (env_now env)) in *.
  assert (Hm : 0 <= (o + 6) mod 7 < 7) by (apply Z.mod_pos_bound; lia).
  intros Ht Hy Hw Hl.
  apply clock_window_ok in Ht as (a1 & b1 & -> & -> & Hc1).
  apply clock_window_ok in Hy as (a2 & b2 & -> & -> & Hc2).
  apply clock_window_ok in Hw as (a3 & b3 & -> & -> & Hc3).
  apply clock_window_ok in Hl as (a4 & b4 & -> & -> & Hc4).
  destruct Hc1 as [(_ & -> & ->)|[(Hf & _)|[(Hf & _)|(Hf & _)]]];
    try discriminate Hf.
  destruct Hc2 as [(Hf & _)|[(_ & -> & ->)|[(Hf & _)|(Hf & _)]]];
    try discriminate Hf.
  destruct Hc3 as [(Hf & _)|[(Hf & _)|[(_ & -> & ->)|(Hf & _)]]];
    try discriminate Hf.
  destruct Hc4 as [(Hf & _)|[(Hf & _)|[(Hf & _)|(_ & -> & ->)]]];
    try discriminate Hf.
  rewrite !midnight_of_us. unfold US_PER_DAY.
  split; [reflexivity|]. split; [reflexivity|].
  split; [lia|]. split; [lia|]. split; [lia|]. split.
  - intros H0. rewrite H0. f_equal. lia.
  - intros H0. lia.
Qed.

Lemma timedelta_of_hours (days hours : Z) :
  timedelta_of days hours = timedelta_of 0 (24 * days + hours).
Proof. clear_context.
  unfold timedelta_of, td_normalize, SECONDS_PER_DAY, US_PER_SECOND.
  f_equal; Z.div_mod_to_equations; lia.
Qed.

(** X5: [date_range] for any start and any shift.  The start comes back
    unchanged and the end lies exactly [days] days and [hours] hours after
    it; a day counts as 24 hours; the call returns exactly when that end is
    on the calendar and raises OverflowError otherwise; with the default
    arguments the end is the start; and a window whose shift is not
    positive holds no record. *)
Theorem date_range_shifts (s : datetime) (days hours : Z) :
  datetime_valid s ->
  let shift := days * US_PER_DAY + hours * US_PER_HOUR in
  (forall p, date_range s days hours = Ok p ->
             fst p = s /\ datetime_valid (snd p) /\
             to_us (snd p) = to_us s + shift) /\
  date_range s days hours = date_range s 0 (24 * days + hours) /\
  ((exists p, date_range s days hours = Ok p) <->
   US_PER_DAY <= to_us s + shift < (MAXORDINAL + 1) * US_PER_DAY) /\
  (forall ex, date_range s days hours = Raise ex ->
              ex = mkExn OverflowError "date value out of range") /\
  date_range s 0 0 = Ok (s, s) /\
  (forall e r, date_range s days hours = Ok (s, e) -> shift <= 0 ->
               in_window s e r = false).
Proof. clear_context.
  intros Hs shift.
  assert (Hok : forall p, date_range s days hours = Ok p ->
             fst p = s /\ datetime_valid (snd p) /\
             to_us (snd p) = to_us s + shift).
  { intros p Hp. apply date_range_ok in Hp as (H1 & H2 & H3). auto. }
  split; [exact Hok|]. split; [|split; [|split; [|split]]].
  - unfold date_range. now rewrite timedelta_of_hours.
  - split.
    + intros [p Hp]. destruct (Hok p Hp) as (_ & Hv & Hus).
      pose proof (to_us_day_bounds _ Hv) as Hb.
      destruct Hv as [Ho _]. unfold US_PER_DAY, MAXORDINAL in *. nia.
    + intros Hr. destruct (date_range_returns s days hours Hr) as [e He]. eauto.
  - intros ex. unfold date_range, rbind, datetime_add.
    destruct ((0 <? _) && _)%bool; [discriminate|].
    intros H; injection H as <-. reflexivity.
  - destruct (date_range_returns s 0 0) as [e He].
    { pose proof (to_us_day_bounds _ Hs) as Hb. destruct Hs as [Ho _].
      unfold US_PER_DAY, US_PER_HOUR, MAXORDINAL in *. lia. }
    rewrite He. pose proof (date_range_ok _ _ _ _ He) as (_ & Hv & Hus).
    cbn [snd] in Hv, Hus.
    replace e with s; [reflexivity|].
    apply to_us_injective; [assumption|assumption|lia].
  - intros e r He Hsh. destruct (Hok _ He) as (_ & _ & Hus). cbn [snd] in Hus.
    unfold in_window, datetime_leb, datetime_ltb.
    apply andb_false_iff.
    destruct (Z.leb_spec (to_us s) (to_us (weather_data_date r))); [|now left].
    right. apply Z.ltb_ge. lia.
Qed.

(** ** The reporting queries, further *)

Lemma distinct_length (l : list sqlval) :
  (List.length (distinct l) <= List.length l)%nat.
Proof. clear_context.
  induction l as [|x l IH]; simpl; [lia|].
  pose proof (filter_length_le (fun y => negb (sqlval_eqb x y)) (distinct l)).
  lia.
Qed.

Lemma query_stats_run (group_by_field date_filter : string) (c : column)
      (s e : datetime) (w : world) :
  getattr_WeatherData group_by_field = Ok c ->
  parse_date_filter clock date_filter = Ok (s, e) ->
  fst (query_stats group_by_field date_filter w) =
    Ok (select_stats c s e (w_table w)).
Proof. clear_context.
  intros Hc Hp. unfold query_stats, bind, lift. rewrite Hp, Hc. reflexivity.
Qed.

(** X6: in every row [query_stats] returns, the minimum is not above the
    maximum; a group of a single record has that record's temperature as
    both; and there are no more rows than records in the window. *)
Theorem stats_rows_min_le_max (group_by_field date_filter : string)
        (c : column) (start_date end_date : datetime) (w : world)
        (rows : list stats_row) :
  getattr_WeatherData group_by_field = Ok c ->
  parse_date_filter clock date_filter = Ok (start_date, end_date) ->
  fst (query_stats group_by_field date_filter w) = Ok rows ->
  (forall v mx mn sd,
      In (v, mx, mn, sd) rows ->
      exists hi lo,
        mx = Some hi /\ mn = Some lo /\ float_leb lo hi = true /\
        forall r,
          group_records c start_date end_date v (w_table w) = [r] ->
          hi = temperature r /\ lo = temperature r) /\
  (List.length rows <=
   List.length (filter (in_window start_date end_date) (w_table w)))%nat.
Proof using float_leb_total float_leb_trans float_eqb_eq.
  intros Hc Hp.
  rewrite (query_stats_run _ _ _ _ _ _ Hc Hp).
  intros H; injection H as <-. split.
  - intros v mx mn sd Hin.
    assert (Hrow := Hin).
    apply select_stats_row in Hrow as ((hi & -> & Hhi) & (lo & -> & Hlo) & _).
    exists hi, lo. split; [reflexivity|]. split; [reflexivity|]. split.
    + destruct Hhi as [Hin_hi _]. destruct Hlo as [_ Hlb]. now apply Hlb.
    + intros r Hr.
      unfold select_stats in Hin. apply in_map_iff in Hin as ([k g] & Heq & Hg).
      cbn [fst snd] in Heq. injection Heq as -> Hmax Hmin _.
      apply group_by_window in Hg as [-> _]. rewrite Hr in Hmax, Hmin.
      cbn in Hmax, Hmin. injection Hmax as <-. injection Hmin as <-.
      split; reflexivity.
  - unfold select_stats. rewrite length_map. unfold group_by.
    rewrite length_map.
    etransitivity; [apply distinct_length|]. now rewrite length_map.
Qed.

(** The rows [select_extreme] ranks are the city statistics, cut down to
    the city and the aggregate asked for. *)
Lemma select_extreme_from_stats (use_max : bool) (s e : datetime)
      (table : list WeatherData) (v : sqlval) (t : option float) :
  In (v, t) (select_extreme use_max s e table) <->
  exists mx mn sd,
    In (v, mx, mn, sd) (select_stats col_city s e table) /\
    t = if use_max then mx else mn.
Proof. clear_context.
  unfold select_extreme, select_stats.
  set (groups := group_by (column_value col_city) (filter (in_window s e) table)).
  assert (Hin : In (v, t) (select_extreme use_max s e table) <->
                In (v, t)
                   (map (fun g : sqlval * list WeatherData =>
                           let temps := map temperature (snd g) in
                           (fst g, if use_max then sql_max temps
                                   else sql_min temps)) groups)).
  { unfold select_extreme. fold groups.
    destruct use_max; apply order_by_In. }
  unfold select_extreme in Hin. fold groups in Hin. rewrite Hin.
  rewrite in_map_iff. split.
  - intros ([k g] & Heq & Hg). cbn [fst snd] in Heq. injection Heq as -> <-.
    exists (sql_max (map temperature g)), (sql_min (map temperature g)),
           (stddev (map temperature g)).
    split; [|reflexivity].
    apply in_map_iff. exists (v, g). split; [reflexivity|assumption].
  - intros (mx & mn & sd & Hrow & ->).
    apply in_map_iff in Hrow as ([k g] & Heq & Hg).
    cbn [fst snd] in Heq. injection Heq as -> <- <- _.
    exists (v, g). split; [reflexivity|assumption].
Qed.

(** X7: the extremes agree with the city statistics.  With 'max', the
    city and temperature [get_temperature_extremes] returns are a row of
    [get_cities_stats] for the same filter, and no row of it has a higher
    max_temp; with any other [temp_extreme], they are a row's city and
    min_temp, and no row has a lower min_temp.  The extreme for 'min' is
    not above the extreme for 'max'. *)
Theorem extremes_agree_with_cities_stats (date_filter : string)
        (start_date end_date : datetime) (w : world) (rows : list stats_row) :
  parse_date_filter clock date_filter = Ok (start_date, end_date) ->
  fst (get_cities_stats date_filter w) = Ok rows ->
  (forall v t,
      fst (get_temperature_extremes date_filter (Some "max") w) =
        Ok (Some (v, t)) ->
      (exists mn sd, In (v, t, mn, sd) rows) /\
      (forall v' mx mn sd, In (v', mx, mn, sd) rows -> opt_leb mx t = true)) /\
  (forall temp_extreme v t,
      temp_extreme <> Some "max" ->
      fst (get_temperature_extremes date_filter temp_extreme w) =
        Ok (Some (v, t)) ->
      (exists mx sd, In (v, mx, t, sd) rows) /\
      (forall v' mx mn sd, In (v', mx, mn, sd) rows -> opt_leb t mn = true)) /\
  (forall v1 lo v2 hi,
      fst (get_temperature_extremes date_filter (Some "min") w) =
        Ok (Some (v1, Some lo)) ->
      fst (get_temperature_extremes date_filter (Some "max") w) =
        Ok (Some (v2, Some hi)) ->
      float_leb lo hi = true).
Proof using float_leb_total float_leb_trans float_eqb_eq.
  intros Hp Hrows.
  unfold get_cities_stats in Hrows.
  rewrite (query_stats_run "city" _ col_city _ _ _ eq_refl Hp) in Hrows.
  injection Hrows as <-.
  assert (Hfirst : forall use_max v t,
            hd_error (select_extreme use_max start_date end_date (w_table w)) =
              Some (v, t) ->
            In (v, t) (select_extreme use_max start_date end_date (w_table w)) /\
            forall x, In x (select_extreme use_max start_date end_date (w_table w)) ->
                      if use_max then opt_leb (snd x) t = true
                      else opt_leb t (snd x) = true).
  { intros use_max v t H. unfold select_extreme in *. destruct use_max.
    - apply order_by_first in H as [Hin Hle].
      + split; [apply order_by_In; exact Hin|].
        intros x Hx. apply order_by_In in Hx. apply (Hle x Hx).
      + intros x y. apply opt_leb_total.
      + intros x y z H1 H2. eapply opt_leb_trans; eassumption.
    - apply order_by_first in H as [Hin Hle].
      + split; [apply order_by_In; exact Hin|].
        intros x Hx. apply order_by_In in Hx. apply (Hle x Hx).
      + intros x y. apply opt_leb_total.
      + intros x y z H1 H2. eapply opt_leb_trans; eassumption. }
  assert (Hmaxcase : forall v t,
      fst (get_temperature_extremes date_filter (Some "max") w) =
        Ok (Some (v, t)) ->
      (exists mn sd, In (v, t, mn, sd)
                        (select_stats col_city start_date end_date (w_table w))) /\
      (forall v' mx mn sd,
          In (v', mx, mn, sd)
             (select_stats col_city start_date end_date (w_table w)) ->
          opt_leb mx t = true)).
  { intros v t.
    destruct (get_temperature_extremes_run date_filter (Some "max") _ _ w Hp)
      as [-> _]. change (is_max (Some "max")) with true.
    intros H; injection H as H. apply (Hfirst true) in H as [Hin Hle]. split.
    - apply select_extreme_from_stats in Hin as (mx & mn & sd & Hrow & ->).
      eauto.
    - intros v' mx mn sd Hrow.
      apply (Hle (v', mx)). apply select_extreme_from_stats. eauto. }
  assert (Hmincase : forall temp_extreme v t,
      temp_extreme <> Some "max" ->
      fst (get_temperature_extremes date_filter temp_extreme w) =
        Ok (Some (v, t)) ->
      (exists mx sd, In (v, mx, t, sd)
                        (select_stats col_city start_date end_date (w_table w))) /\
      (forall v' mx mn sd,
          In (v', mx, mn, sd)
             (select_stats col_city start_date end_date (w_table w)) ->
          opt_leb t mn = true)).
  { intros te v t Hne.
    destruct (get_temperature_extremes_run date_filter te _ _ w Hp) as [-> _].
    rewrite (is_max_false _ Hne).
    intros H; injection H as H. apply (Hfirst false) in H as [Hin Hle]. split.
    - apply select_extreme_from_stats in Hin as (mx & mn & sd & Hrow & ->).
      eauto.
    - intros v' mx mn sd Hrow.
      apply (Hle (v', mn)). apply select_extreme_from_stats. eauto. }
  split; [exact Hmaxcase|]. split; [exact Hmincase|].
  intros v1 lo v2 hi Hmin Hmax.
  apply Hmincase in Hmin as [(mx & sd & Hrow) _]; [|discriminate].
  apply Hmaxcase in Hmax as [_ Hub].
  specialize (Hub _ _ _ _ Hrow).
  apply select_stats_row in Hrow as ((m1 & -> & Hm1) & (m2 & Heq & Hm2) & _).
  injection Heq as <-. cbn [opt_leb] in Hub.
  apply float_leb_trans with m1; [|exact Hub].
  destruct Hm1 as [Hin _]. destruct Hm2 as [_ Hlb]. now apply Hlb.
Qed.

Lemma count_rain_hours_run (date_filter : string) (w : world) (n : Z) :
  fst (count_rain_hours date_filter w) = Ok n ->
  exists s e,
    parse_date_filter clock date_filter = Ok (s, e) /\
    n = number_of_rows (rain_hour_dec s e) (w_table w).
Proof. clear_context.
  unfold count_rain_hours, bind, lift.
  destruct (parse_date_filter clock date_filter) as [[s e]|ex] eqn:Hp;
    [|discriminate].
  cbn. intros H; injection H as <-. exists s, e. split; [reflexivity|].
  apply select_rain_count_number.
Qed.

Lemma number_of_rows_nonneg {P : WeatherData -> Prop}
      (dec : forall r, {P r} + {~ P r}) (table : list WeatherData) :
  0 <= number_of_rows dec table <= Z.of_nat (List.length table).
Proof. clear_context.
  induction table as [|r table IH]; [simpl; lia|].
  cbn [number_of_rows List.length]. destruct (dec r); lia.
Qed.

(** Rows counted under two properties that exclude each other are counted
    under any property both imply. *)
Lemma number_of_rows_disjoint {P Q R : WeatherData -> Prop}
      (decP : forall r, {P r} + {~ P r}) (decQ : forall r, {Q r} + {~ Q r})
      (decR : forall r, {R r} + {~ R r}) (table : list WeatherData) :
  (forall r, P r -> R r) -> (forall r, Q r -> R r) ->
  (forall r, P r -> Q r -> False) ->
  number_of_rows decP table + number_of_rows decQ table <=
  number_of_rows decR table.
Proof. clear_context.
  intros HP HQ HPQ.
  induction table as [|r table IH]; [simpl; lia|].
  cbn [number_of_rows].
  destruct (decP r) as [p|np], (decQ r) as [q|nq], (decR r) as [x|nx];
    try lia.
  - destruct (HPQ r p q).
  - destruct (HPQ r p q).
  - destruct (nx (HP r p)).
  - destruct (nx (HQ r q)).
Qed.

Lemma number_of_rows_mono {P R : WeatherData -> Prop}
      (decP : forall r, {P r} + {~ P r})
      (decR : forall r, {R r} + {~ R r}) (table : list WeatherData) :
  (forall r, P r -> R r) ->
  number_of_rows decP table <= number_of_rows decR table.
Proof. clear_context.
  intros HP.
  induction table as [|r table IH]; [simpl; lia|].
  cbn [number_of_rows].
  destruct (decP r) as [p|np], (decR r) as [x|nx]; try lia.
  destruct (nx (HP r p)).
Qed.

(** X8: the rain counts of the windows fit together.  On the same table
    and with the same clock, the rain hours of today and of yesterday
    together are no more than those of the last seven days; those of today
    are no more than those of the current week; and except on a Monday
    today's and yesterday's together are no more than the current
    week's. *)
Theorem rain_hours_add_up (w : world) (n_today n_yesterday n_seven n_week : Z) :
  datetime_valid (env_now clock) ->
  fst (count_rain_hours "today" w) = Ok n_today ->
  fst (count_rain_hours "yesterday" w) = Ok n_yesterday ->
  fst (count_rain_hours "last_seven_days" w) = Ok n_seven ->
  fst (count_rain_hours "current_week" w) = Ok n_week ->
  0 <= n_today /\ 0 <= n_yesterday /\
  n_today + n_yesterday <= n_seven /\
  n_today <= n_week /\
  (weekday (env_now clock) <> 0 -> n_today + n_yesterday <= n_week).
Proof. clear_oracles.
  intros Hnow Ht Hy Hs Hw.
  apply count_rain_hours_run in Ht as (ts & te & Pt & ->).
  apply count_rain_hours_run in Hy as (ys & ye & Py & ->).
  apply count_rain_hours_run in Hs as (ls & le & Pl & ->).
  apply count_rain_hours_run in Hw as (ws & we & Pw & ->).
  rewrite parse_date_filter_clock_window in Pt, Py, Pl, Pw
    by (assumption || (simpl; tauto)).
  unfold weekday.
  set (o := dt_ordinal (env_now clock)) in *.
  assert (Hm : 0 <= (o + 6) mod 7 < 7) by (apply Z.mod_pos_bound; lia).
  apply clock_window_ok in Pt as (a1 & b1 & -> & -> & Hc1).
  apply clock_window_ok in Py as (a2 & b2 & -> & -> & Hc2).
  apply clock_window_ok in Pw as (a3 & b3 & -> & -> & Hc3).
  apply clock_window_ok in Pl as (a4 & b4 & -> & -> & Hc4).
  destruct Hc1 as [(_ & -> & ->)|[(Hf & _)|[(Hf & _)|(Hf & _)]]];
    try discriminate Hf.
  destruct Hc2 as [(Hf & _)|[(_ & -> & ->)|[(Hf & _)|(Hf & _)]]];
    try discriminate Hf.
  destruct Hc3 as [(Hf & _)|[(Hf & _)|[(_ & -> & ->)|(Hf & _)]]];
    try discriminate Hf.
  destruct Hc4 as [(Hf & _)|[(Hf & _)|[(Hf & _)|(_ & -> & ->)]]];
    try discriminate Hf.
  split; [apply number_of_rows_nonneg|]. split; [apply number_of_rows_nonneg|].
  assert (Hwin : forall a b a' b' : Z,
            a' <= a -> b <= b' ->
            forall r, rain_hour (midnight_of a) (midnight_of b) r ->
                      rain_hour (midnight_of a') (midnight_of b') r).
  { intros a b a' b' Ha Hb r. unfold rain_hour, date_within.
    rewrite !midnight_of_us. unfold US_PER_DAY. intros [Hd Hr].
    split; [lia|exact Hr]. }
  assert (Hdis : forall a b c : Z,
            forall r, rain_hour (midnight_of b) (midnight_of c) r ->
                      rain_hour (midnight_of a) (midnight_of b) r -> False).
  { intros a b c r. unfold rain_hour, date_within.
    rewrite !midnight_of_us. unfold US_PER_DAY. intros [Hd _] [Hd' _]. lia. }
  split; [|split].
  - apply number_of_rows_disjoint;
      [apply Hwin; lia|apply Hwin; lia|apply Hdis].
  - apply number_of_rows_mono. apply Hwin; lia.
  - intros Hnz.
    apply number_of_rows_disjoint;
      [apply Hwin; lia|apply Hwin; lia|apply Hdis].
Qed.

Lemma number_of_rows_positive {P : WeatherData -> Prop}
      (dec : forall r, {P r} + {~ P r}) (table : list WeatherData) :
  0 < number_of_rows dec table <-> exists r, In r table /\ P r.
Proof. clear_context.
  induction table as [|r table IH]; cbn [number_of_rows].
  - split; [lia|]. intros (r & [] & _).
  - pose proof (number_of_rows_nonneg dec table) as Hn.
    destruct (dec r) as [p|np].
    + split; [|lia]. intros _. exists r. split; [now left|assumption].
    + split.
      * intros H. assert (H' : 0 < number_of_rows dec table) by lia.
        apply IH in H' as (x & Hx & Px). exists x. split; [now right|assumption].
      * intros (x & [<-|Hx] & Px); [contradiction|].
        assert (0 < number_of_rows dec table) by (apply IH; eauto). lia.
Qed.

(** X9: what a rain count tells.  The count lies between 0 and the number
    of stored rows, and is positive exactly when some stored row lies in
    the window and reports rain.  When it is positive, the same filter
    finds something in the other reports too: [get_temperature_extremes]
    returns a city, whatever [temp_extreme], and [query_stats] returns at
    least one row, whatever column it groups by. *)
Theorem rain_hours_witnessed (date_filter : string)
        (start_date end_date : datetime) (w : world) (n : Z) :
  parse_date_filter clock date_filter = Ok (start_date, end_date) ->
  fst (count_rain_hours date_filter w) = Ok n ->
  0 <= n <= Z.of_nat (List.length (w_table w)) /\
  (0 < n <-> exists r, In r (w_table w) /\
                       date_within start_date end_date r /\
                       rain_presence r = true) /\
  (0 < n ->
   (forall temp_extreme,
       exists row,
         fst (get_temperature_extremes date_filter temp_extreme w) =
           Ok (Some row)) /\
   (forall group_by_field c,
       getattr_WeatherData group_by_field = Ok c ->
       exists row rows,
         fst (query_stats group_by_field date_filter w) = Ok (row :: rows))).
Proof using float_leb_total float_leb_trans float_eqb_eq.
  intros Hp Hn.
  apply count_rain_hours_run in Hn as (s & e & Hp' & ->).
  rewrite Hp in Hp'. injection Hp' as <- <-.
  split; [apply number_of_rows_nonneg|].
  assert (Hpos : 0 < number_of_rows (rain_hour_dec start_date end_date) (w_table w)
                 <-> exists r, In r (w_table w) /\
                               date_within start_date end_date r /\
                               rain_presence r = true).
  { rewrite number_of_rows_positive. unfold rain_hour. reflexivity. }
  split; [exact Hpos|].
  intros H. apply Hpos in H as (r & Hr & Hw & _).
  split.
  - intros te.
    destruct (get_temperature_extremes_run date_filter te _ _ w Hp) as [-> _].
    destruct (hd_error _) as [row|] eqn:E; [eauto|].
    exfalso. exact (select_extreme_none _ _ _ _ E r Hr Hw).
  - intros g c Hc. rewrite (query_stats_run g _ c _ _ _ Hc Hp).
    destruct (select_stats c start_date end_date (w_table w)) as [|row rows] eqn:E;
      [|eauto].
    exfalso.
    assert (Hk : In (column_value c r)
                    (map stats_key (select_stats c start_date end_date (w_table w)))).
    { rewrite select_stats_keys. apply distinct_In. apply in_map.
      apply filter_In. split; [assumption|]. now apply in_window_spec. }
    rewrite E in Hk. destruct Hk.
Qed.

(** X10: the reporting methods only read.  For every date filter and
    [temp_extreme], and for [group_by_field] the name of a column, each of
    [query_stats], [get_temperature_extremes] and [count_rain_hours]
    leaves the table, the key sequence, the log and the network untouched
    and leaves no open session work behind; a call that returns has sent
    exactly one statement, and a call that raises has sent none and leaves
    the world as it found it. *)
Theorem reporting_only_reads (group_by_field date_filter : string)
        (c : column) (temp_extreme : option string) (w : world) :
  getattr_WeatherData group_by_field = Ok c ->
  let read_only {A : Type} (run : result A * world) :=
    w_table (snd run) = w_table w /\ w_next_id (snd run) = w_next_id w /\
    w_log (snd run) = w_log w /\ w_http (snd run) = w_http w /\
    ((exists x stmt, fst run = Ok x /\
                     w_statements (snd run) = w_statements w ++ [stmt] /\
                     w_session (snd run) = []) \/
     (exists e, fst run = Raise e /\ snd run = w)) in
  read_only (query_stats group_by_field date_filter w) /\
  read_only (get_temperature_extremes date_filter temp_extreme w) /\
  read_only (count_rain_hours date_filter w).
Proof. clear_oracles.
  intros Hc. cbv zeta.
  unfold query_stats, get_temperature_extremes, count_rain_hours, bind, lift.
  rewrite Hc.
  destruct (parse_date_filter clock date_filter) as [[s e]|ex].
  - split; [|split].
    + cbn. repeat split. left. eexists _, _. repeat split.
    + cbn. repeat split. left. eexists _, _. repeat split.
    + cbn. repeat split. left. eexists _, _. repeat split.
  - cbn. repeat split; right; eexists; split; reflexivity.
Qed.

(** ** The ingestion, further *)

(** X11: [lambda_handler] always answers.  It never raises: it returns
    statusCode 200 when the database could be set up, and otherwise
    statusCode 500 with the body 'Internal server error', in which case it
    has logged the error and done nothing else: no request was sent and
    the table is as it was. *)
Theorem lambda_handler_always_answers (api_key database_url : string)
        (w : world) :
  let run := lambda_handler api_key database_url w in
  match db_setup_raises database_url with
  | None =>
      fst run =
        Ok {| statusCode := 200; body := "Weather data updated successfully" |}
  | Some e =>
      fst run = Ok {| statusCode := 500; body := "Internal server error" |} /\
      w_log (snd run) = w_log w ++ [LogLambdaError e] /\
      w_http (snd run) = w_http w /\
      w_table (snd run) = w_table w /\
      w_next_id (snd run) = w_next_id w
  end.
Proof.
  cbv zeta. rewrite lambda_handler_run.
  destruct (db_setup_raises database_url) as [e|]; [|reflexivity].
  repeat split.
Qed.

(** X12: a 200 response with an unexpected body is not turned into None.
    When reading the body raises anything but a RequestException (a
    missing key, a value of the wrong type, an empty 'weather' list),
    [get_weather] lets the exception through and logs nothing;
    [fetch_and_store_weather] catches it, logs it as an error of
    processing the city, stores nothing and returns normally.  A body
    without 'main' raises KeyError, a body that is a list raises
    TypeError. *)
Theorem unexpected_body_is_processing_error (api_key c : string)
        (json : result pyval) (e : exn) (w : world) :
  network (complete_url api_key c) = HttpResponse 200 json ->
  normalized_record c json = Raise e ->
  is_RequestException e = false ->
  get_weather api_key c w = (Raise e, add_http (complete_url api_key c) w) /\
  fst (fetch_and_store_weather c api_key w) = Ok tt /\
  w_log (snd (fetch_and_store_weather c api_key w)) =
    w_log w ++ [LogProcessingError c e] /\
  w_table (snd (fetch_and_store_weather c api_key w)) = w_table w /\
  (forall d, dict_lookup d "main" = None ->
             normalized_record c (Ok (PyDict d)) = Raise (mkExn KeyError "main")) /\
  (forall l, exists msg,
      normalized_record c (Ok (PyList l)) = Raise (mkExn TypeError msg)).
Proof.
  intros Hn Hd He. split; [|split; [|split; [|split; [|split]]]].
  - rewrite get_weather_world. cbv zeta. rewrite Hn, Hd, He. reflexivity.
  - apply fetch_and_store_weather_run.
  - destruct (fetch_and_store_weather_run c api_key w) as (_ & _ & _ & _ & Hl).
    rewrite Hl. unfold city_outcome. rewrite Hn, Hd, He. reflexivity.
  - destruct (fetch_and_store_weather_run c api_key w) as (_ & _ & _ & Ht & _).
    apply (f_equal fst) in Ht. cbn [fst] in Ht. rewrite Ht.
    unfold city_outcome. rewrite Hn, Hd, He. reflexivity.
  - intros d Hm. unfold normalized_record, rbind, getitem. rewrite Hm.
    reflexivity.
  - intros l. eexists. reflexivity.
Qed.

(** X13: where the fields of a fetched record come from.  When reading a
    response body succeeds, the record holds the city that was asked for
    (not a name from the response), the response's main.temp and
    sys.country and the description of its first weather entry, each as it
    came, and the UTC datetime of its dt.  rain_presence is false when the
    body has no 'rain' object or that object has no '1h' amount, and
    otherwise says whether the amount is above zero. *)
Theorem normalized_record_fields (c : string) (d rec : pydict) :
  normalized_record c (Ok (PyDict d)) = Ok rec ->
  dict_lookup rec "city" = Some (PyStr c) /\
  (exists main temp,
      dict_lookup d "main" = Some main /\ getitem main "temp" = Ok temp /\
      dict_lookup rec "temperature" = Some temp) /\
  (exists sys co,
      dict_lookup d "sys" = Some sys /\ getitem sys "country" = Ok co /\
      dict_lookup rec "country" = Some co) /\
  (exists weather first descr,
      dict_lookup d "weather" = Some weather /\ getitem0 weather = Ok first /\
      getitem first "description" = Ok descr /\
      dict_lookup rec "weather_description" = Some descr) /\
  (exists ts date,
      dict_lookup d "dt" = Some ts /\ utcfromtimestamp ts = Ok date /\
      dict_lookup rec "weather_data_date" = Some (PyDatetime date)) /\
  (exists rain,
      dict_lookup rec "rain_presence" = Some (PyBool rain) /\
      (dict_lookup d "rain" = None -> rain = false) /\
      (forall rd, dict_lookup d "rain" = Some (PyDict rd) ->
                  dict_lookup rd "1h" = None -> rain = false) /\
      (forall rd n, dict_lookup d "rain" = Some (PyDict rd) ->
                    dict_lookup rd "1h" = Some (PyInt n) -> rain = (0 <? n)) /\
      (forall rd x, dict_lookup d "rain" = Some (PyDict rd) ->
                    dict_lookup rd "1h" = Some (PyFloat x) ->
                    rain = float_gt0 x)).
Proof.
  unfold normalized_record, rbind.
  cbn [getitem dict_get].
  destruct (dict_lookup d "main") as [main|] eqn:Hmain; [|discriminate].
  destruct (getitem main "temp") as [temp|] eqn:Htemp; [|discriminate].
  destruct (dict_lookup d "weather") as [weather|] eqn:Hweather; [|discriminate].
  destruct (getitem0 weather) as [first|] eqn:Hfirst; [|discriminate].
  destruct (getitem first "description") as [descr|] eqn:Hdescr; [|discriminate].
  destruct (dict_lookup d "rain") as [rain_data|] eqn:Hrain.
  - destruct (dict_get rain_data "1h" (PyInt 0)) as [amount|] eqn:Hamount;
      [|discriminate].
    destruct (py_gt0 amount) as [rain|] eqn:Hgt; [|discriminate].
    destruct (dict_lookup d "dt") as [ts|] eqn:Hdt; [|discriminate].
    destruct (utcfromtimestamp ts) as [date|] eqn:Hdate; [|discriminate].
    destruct (dict_lookup d "sys") as [sys|] eqn:Hsys; [|discriminate].
    destruct (getitem sys "country") as [co|] eqn:Hco; [|discriminate].
    intros H; injection H as <-.
    split; [reflexivity|]. split; [eauto 6|]. split; [eauto 6|].
    split; [eauto 8|]. split; [eauto 6|].
    exists rain. split; [reflexivity|]. split; [discriminate|].
    split; [|split].
    + intros rd Hrd Hone. injection Hrd as ->. cbn in Hamount.
      rewrite Hone in Hamount. injection Hamount as <-.
      cbn in Hgt. now injection Hgt as <-.
    + intros rd n Hrd Hone. injection Hrd as ->. cbn in Hamount.
      rewrite Hone in Hamount. injection Hamount as <-.
      cbn in Hgt. now injection Hgt as <-.
    + intros rd x Hrd Hone. injection Hrd as ->. cbn in Hamount.
      rewrite Hone in Hamount. injection Hamount as <-.
      cbn in Hgt. now injection Hgt as <-.
  - cbn [dict_get dict_lookup py_gt0].
    destruct (dict_lookup d "dt") as [ts|] eqn:Hdt; [|discriminate].
    destruct (utcfromtimestamp ts) as [date|] eqn:Hdate; [|discriminate].
    destruct (dict_lookup d "sys") as [sys|] eqn:Hsys; [|discriminate].
    destruct (getitem sys "country") as [co|] eqn:Hco; [|discriminate].
    intros H; injection H as <-.
    split; [reflexivity|]. split; [eauto 6|]. split; [eauto 6|].
    split; [eauto 8|]. split; [eauto 6|].
    exists false. split; [reflexivity|]. split; [reflexivity|].
    repeat split; intros; discriminate.
Qed.

(** X14: what [get_weather] does to the world.  Every call sends exactly
    one GET, to the URL of the city, and touches neither the table nor the
    session nor the statements.  It logs exactly one error when it returns
    None and nothing when it returns a record or raises. *)
Theorem get_weather_effects (api_key c : string) (w : world) :
  let run := get_weather api_key c w in
  w_http (snd run) = w_http w ++ [complete_url api_key c] /\
  w_table (snd run) = w_table w /\ w_next_id (snd run) = w_next_id w /\
  w_session (snd run) = w_session w /\
  w_statements (snd run) = w_statements w /\
  match fst run with
  | Ok None => exists entry, w_log (snd run) = w_log w ++ [entry]
  | Ok (Some _) => w_log (snd run) = w_log w
  | Raise _ => w_log (snd run) = w_log w
  end.
Proof.
  cbv zeta. rewrite get_weather_world. cbv zeta.
  destruct (network (complete_url api_key c)) as [e|status_code json].
  - destruct (is_RequestException e); cbn; repeat split. eauto.
  - destruct (status_code =? 200); [|cbn; repeat split; eauto].
    destruct (normalized_record c json) as [d|e]; [cbn; repeat split|].
    destruct (is_RequestException e); cbn; repeat split. eauto.
Qed.

Lemma insert_rows_appends (l : list WeatherData) (t : list WeatherData) (n : Z) :
  exists added,
    fst (insert_rows l (t, n)) = t ++ added /\
    List.length added = List.length l.
Proof. clear_context.
  revert t n. induction l as [|r l IH]; intros t n.
  - exists []. cbn. now rewrite app_nil_r.
  - cbn [insert_rows]. unfold insert_row.
    destruct (id r).
    + destruct (IH (t ++ [r]) n) as (added & -> & Hlen).
      exists (r :: added). rewrite <- app_assoc. split; [reflexivity|].
      simpl. now rewrite Hlen.
    + destruct (IH (t ++ [with_id n r]) (n + 1)) as (added & -> & Hlen).
      exists (with_id n r :: added). rewrite <- app_assoc.
      split; [reflexivity|]. simpl. now rewrite Hlen.
Qed.

Lemma city_outcome_small (api_key c : string) :
  (List.length (fst (city_outcome api_key c)) <= 1)%nat /\
  (List.length (snd (city_outcome api_key c)) <= 1)%nat.
Proof. clear_context.
  unfold city_outcome.
  destruct (network (complete_url api_key c)) as [e|status_code json];
    [simpl; lia|].
  destruct (status_code =? 200); [|simpl; lia].
  destruct (normalized_record c json) as [d|e]; [|simpl; lia].
  destruct (WeatherData_init d) as [r|e]; [|simpl; lia].
  destruct (session_add_raises r), (session_commit_raises r),
    (session_refresh_raises r); simpl; lia.
Qed.

Lemma flat_map_length_le {A B : Type} (f : A -> list B) (l : list A) (k : nat) :
  (forall x, (List.length (f x) <= k)%nat) ->
  (List.length (flat_map f l) <= k * List.length l)%nat.
Proof. clear_context.
  intros Hf. induction l as [|x l IH]; simpl; [lia|].
  rewrite length_app. specialize (Hf x). nia.
Qed.

(** X15: the ingestion only appends, and little.  One task adds at most
    one row to the table and at most one line to the log, and what was in
    the table stays, unchanged and in place; a response whose status is
    not 200 adds no row.  One invocation of [lambda_handler] keeps the old
    table as a prefix of the new one and adds at most 19 rows. *)
Theorem ingestion_only_appends (api_key database_url c : string) (w : world) :
  (exists added logged,
      w_table (snd (fetch_and_store_weather c api_key w)) = w_table w ++ added /\
      w_log (snd (fetch_and_store_weather c api_key w)) = w_log w ++ logged /\
      (List.length added <= 1)%nat /\ (List.length logged <= 1)%nat /\
      (forall status_code json,
          network (complete_url api_key c) = HttpResponse status_code json ->
          status_code <> 200 -> added = [])) /\
  (exists added,
      w_table (snd (lambda_handler api_key database_url w)) = w_table w ++ added /\
      (List.length added <= 19)%nat).
Proof using pool_order_perm.
  split.
  - destruct (fetch_and_store_weather_run c api_key w) as (_ & _ & _ & Ht & Hl).
    apply (f_equal fst) in Ht. cbn [fst] in Ht.
    destruct (insert_rows_appends (fst (city_outcome api_key c))
                (w_table w) (w_next_id w)) as (added & Ha & Hlen).
    destruct (city_outcome_small api_key c) as [H1 H2].
    exists added, (snd (city_outcome api_key c)).
    split; [now rewrite Ht|]. split; [exact Hl|].
    split; [lia|]. split; [exact H2|].
    intros status_code json Hn Hs.
    assert (Hnil : fst (city_outcome api_key c) = []).
    { unfold city_outcome. rewrite Hn.
      apply Z.eqb_neq in Hs. rewrite Hs. reflexivity. }
    rewrite Hnil in Hlen. destruct added; [reflexivity|discriminate].
  - rewrite lambda_handler_run.
    destruct (db_setup_raises database_url) as [e|].
    + exists []. cbn. rewrite app_nil_r. split; [reflexivity|lia].
    + cbn [snd].
      destruct (batch_run api_key (pool_order cities) w) as (_ & _ & _ & Ht & _).
      apply (f_equal fst) in Ht. cbn [fst] in Ht.
      destruct (insert_rows_appends
                  (flat_map (fun c0 => fst (city_outcome api_key c0))
                            (pool_order cities))
                  (w_table w) (w_next_id w)) as (added & Ha & Hlen).
      exists added. split; [now rewrite Ht|].
      rewrite Hlen.
      pose proof (flat_map_length_le
                    (fun c0 => fst (city_outcome api_key c0))
                    (pool_order cities) 1
                    (fun x => proj1 (city_outcome_small api_key x))) as Hle.
      rewrite (Permutation_length (pool_order_perm cities)) in Hle.
      change (List.length cities) with 19%nat in Hle. lia.
Qed.

(** What one invocation stores: the records of its batch, after the rows
    that were there, each with its columns as fetched. *)
Lemma insert_rows_same_but_id (l : list WeatherData) (t : list WeatherData)
      (n : Z) :
  exists added,
    fst (insert_rows l (t, n)) = t ++ added /\ Forall2 same_but_id l added.
Proof. clear_context.
  revert t n. induction l as [|r l IH]; intros t n.
  - exists []. cbn. rewrite app_nil_r. split; [reflexivity|constructor].
  - cbn [insert_rows]. unfold insert_row.
    destruct (id r).
    + destruct (IH (t ++ [r]) n) as (added & -> & Hall).
      exists (r :: added). rewrite <- app_assoc. split; [reflexivity|].
      constructor; [|exact Hall]. unfold same_but_id. repeat split.
    + destruct (IH (t ++ [with_id n r]) (n + 1)) as (added & -> & Hall).
      exists (with_id n r :: added). rewrite <- app_assoc.
      split; [reflexivity|].
      constructor; [|exact Hall]. unfold same_but_id. repeat split.
Qed.

Lemma lambda_handler_stores (api_key database_url : string) (w : world) :
  db_setup_raises database_url = None ->
  exists added,
    w_table (snd (lambda_handler api_key database_url w)) = w_table w ++ added /\
    Forall2 same_but_id
      (flat_map (fun c => fst (city_outcome api_key c)) (pool_order cities))
      added.
Proof.
  intros Hsetup. rewrite lambda_handler_run, Hsetup. cbn [snd].
  destruct (batch_run api_key (pool_order cities) w) as (_ & _ & _ & Ht & _).
  apply (f_equal fst) in Ht. cbn [fst] in Ht.
  destruct (insert_rows_same_but_id
              (flat_map (fun c => fst (city_outcome api_key c)) (pool_order cities))
              (w_table w) (w_next_id w)) as (added & Ha & Hall).
  exists added. split; [now rewrite Ht|exact Hall].
Qed.

(** ** main.py, further *)

Lemma date_range_raises (s : datetime) (days hours : Z) (e : exn) :
  date_range s days hours = Raise e ->
  e = mkExn OverflowError "date value out of range".
Proof. clear_context.
  unfold date_range, rbind, datetime_add.
  destruct ((0 <? _) && _)%bool; [discriminate|].
  intros H; injection H as <-. reflexivity.
Qed.

Lemma datetime_add_raises (d : datetime) (t : timedelta) (e : exn) :
  datetime_add d t = Raise e ->
  e = mkExn OverflowError "date value out of range".
Proof. clear_context.
  unfold datetime_add.
  destruct ((0 <? _) && _)%bool; [discriminate|].
  intros H; injection H as <-. reflexivity.
Qed.

(** With a named filter, [parse_date_filter] raises nothing but the
    overflow of the date arithmetic and the parser's ValueError. *)
Lemma parse_date_filter_named_raises (env : clock_env) (f : string) (e : exn) :
  In f named_filters ->
  parse_date_filter env f = Raise e ->
  e = mkExn OverflowError "date value out of range" \/
  (f = "selected_hour" /\
   e = mkExn ValueError "time data does not match format").
Proof. clear_context.
  intros Hf. simpl in Hf.
  destruct Hf as [<-|[<-|[<-|[<-|[<-|[]]]]]].
  - change (parse_date_filter env "selected_hour")
      with (match env_strptime env (env_input env) with
            | Some start_date => date_range start_date 0 1
            | None => Raise (mkExn ValueError "time data does not match format")
            end).
    destruct (env_strptime env (env_input env)) as [d|].
    + intros H. left. now apply date_range_raises in H.
    + intros H; injection H as <-. right. split; reflexivity.
  - change (parse_date_filter env "today")
      with (date_range (replace_midnight (env_now env)) 1 0).
    intros H. left. now apply date_range_raises in H.
  - change (parse_date_filter env "yesterday")
      with (let? d := datetime_sub (env_now env) (timedelta_of 1 0) in
            date_range (replace_midnight d) 1 0).
    unfold rbind, datetime_sub.
    destruct (datetime_add _ _) as [d|ex] eqn:Hd.
    + intros H. left. now apply date_range_raises in H.
    + intros H; injection H as <-. left. now apply datetime_add_raises in Hd.
  - change (parse_date_filter env "current_week")
      with (let? d := datetime_sub (env_now env)
                        (timedelta_of (weekday (env_now env)) 0) in
            date_range (replace_midnight d) 7 0).
    unfold rbind, datetime_sub.
    destruct (datetime_add _ _) as [d|ex] eqn:Hd.
    + intros H. left. now apply date_range_raises in H.
    + intros H; injection H as <-. left. now apply datetime_add_raises in Hd.
  - change (parse_date_filter env "last_seven_days")
      with (let? d := datetime_add (env_now env) (timedelta_of 1 0) in
            let? start_date :=
              datetime_sub (replace_midnight d) (timedelta_of 7 0) in
            date_range start_date 7 0).
    unfold rbind, datetime_sub.
    destruct (datetime_add (env_now env) _) as [d|ex] eqn:Hd.
    + destruct (datetime_add (replace_midnight d) _) as [d'|ex] eqn:Hd'.
      * intros H. left. now apply date_range_raises in H.
      * intros H; injection H as <-. left. now apply datetime_add_raises in Hd'.
    + intros H; injection H as <-. left. now apply datetime_add_raises in Hd.
Qed.

(** What [fetch_weather_stats] does for one of its four data types, once
    its [DatabaseManager] is built. *)
Lemma fetch_weather_stats_known (data_type date_filter : string)
      (database_url : option string) (temp_extreme : option string)
      (w : world) :
  In data_type ["countries"; "cities"; "extremes"; "rain"] ->
  create_engine_raises database_url = None ->
  let run := fetch_weather_stats data_type date_filter database_url temp_extreme w in
  match parse_date_filter clock date_filter with
  | Ok _ =>
      fst run = Ok tt /\ w_table (snd run) = w_table w /\
      (exists stmt, w_statements (snd run) = w_statements w ++ [stmt]) /\
      exists added, w_log (snd run) = w_log w ++ added /\
                    forall x, In x added -> exists p, x = LogInfo p
  | Raise e => run = (Raise e, w)
  end.
Proof. clear_oracles.
  intros Hd Hengine. cbv zeta.
  unfold fetch_weather_stats, bind at 1, DatabaseManager_init.
  rewrite Hengine. simpl in Hd.
  destruct Hd as [<-|[<-|[<-|[<-|[]]]]].
  - change ((if String.eqb "countries" "countries" then _ else _) w)
      with ((stats <- get_countries_stats date_filter ;;
             for_each stats (fun stat => logging (LogInfo (InfoStats stat)))) w).
    unfold get_countries_stats, query_stats, bind, lift.
    destruct (parse_date_filter clock date_filter) as [[s e]|ex]; [|reflexivity].
    cbn [getattr_WeatherData String.eqb Ascii.eqb Bool.eqb].
    cbv beta iota. unfold with_session, session_exec, session_open,
      session_close, bind. cbn [fst snd set_session w_table w_next_id w_session
      w_log w_http w_statements].
    rewrite for_each_logging. cbn.
    repeat split; [eauto|]. eexists. split; [reflexivity|].
    intros x Hx. apply in_map_iff in Hx as (row & <- & _). eauto.
  - change ((if String.eqb "cities" "countries" then _ else _) w)
      with ((stats <- get_cities_stats date_filter ;;
             for_each stats (fun stat => logging (LogInfo (InfoStats stat)))) w).
    unfold get_cities_stats, query_stats, bind, lift.
    destruct (parse_date_filter clock date_filter) as [[s e]|ex]; [|reflexivity].
    cbn [getattr_WeatherData String.eqb Ascii.eqb Bool.eqb].
    cbv beta iota. unfold with_session, session_exec, session_open,
      session_close, bind. cbn [fst snd set_session w_table w_next_id w_session
      w_log w_http w_statements].
    rewrite for_each_logging. cbn.
    repeat split; [eauto|]. eexists. split; [reflexivity|].
    intros x Hx. apply in_map_iff in Hx as (row & <- & _). eauto.
  - change ((if String.eqb "extremes" "countries" then _ else _) w)
      with ((extremes <- get_temperature_extremes date_filter temp_extreme ;;
             logging (LogInfo (InfoExtremes extremes))) w).
    unfold get_temperature_extremes, bind, lift.
    destruct (parse_date_filter clock date_filter) as [[s e]|ex]; [|reflexivity].
    cbn. repeat split; [eauto|]. eexists. split; [reflexivity|].
    intros x [<-|[]]. eauto.
  - change ((if String.eqb "rain" "countries" then _ else _) w)
      with ((counted_rain <- count_rain_hours date_filter ;;
             logging (LogInfo (InfoRain counted_rain))) w).
    unfold count_rain_hours, bind, lift.
    destruct (parse_date_filter clock date_filter) as [[s e]|ex]; [|reflexivity].
    cbn. repeat split; [eauto|]. eexists. split; [reflexivity|].
    intros x [<-|[]]. eauto.
Qed.

(** X17: the command line cannot reach the error branches behind it.
    Without any of the four flags the script raises ValueError before it
    builds the [DatabaseManager] or touches the log.  With a flag, and a
    namespace the parser lets through, [fetch_weather_stats] is called
    with one of its four data types: the 'Invalid data type specified.'
    error is never logged, every line logged is a result, and the table is
    not changed.  When [create_engine] raises for the database URL, the
    script raises that, having sent and logged nothing.  Otherwise it
    either returns, having sent exactly one statement, or raises what
    [parse_date_filter] raised for the filter, which is not the 'Invalid
    date filter' error, having sent and logged nothing. *)
Theorem cli_script_behaviour (args : cli_args) (database_url : option string)
        (w : world) :
  argparse_accepts args ->
  let run := main_script args database_url w in
  let flagged := (arg_countries args || arg_cities args ||
                  arg_extremes args || arg_rain args)%bool in
  (flagged = false ->
   run = (Raise (mkExn ValueError
            "Use flags to get stats: --countries or --cities or --extremes."),
          w)) /\
  (flagged = true ->
   w_table (snd run) = w_table w /\
   (exists added, w_log (snd run) = w_log w ++ added /\
                  forall x, In x added -> exists p, x = LogInfo p) /\
   match create_engine_raises database_url with
   | Some e => run = (Raise e, w)
   | None =>
       (fst run = Ok tt /\
        exists stmt, w_statements (snd run) = w_statements w ++ [stmt]) \/
       (exists e, run = (Raise e, w) /\
                  parse_date_filter clock (arg_date_filter args) = Raise e /\
                  e <> mkExn ValueError "Invalid date filter")
   end).
Proof. clear_oracles.
  intros (_ & Hfilter & _) run flagged. subst run flagged.
  unfold main_script, main, bind at 1, lift.
  split.
  - intros Hf. apply orb_false_iff in Hf as [Hf Hr].
    apply orb_false_iff in Hf as [Hf He].
    apply orb_false_iff in Hf as [Hc Hci].
    rewrite Hc, Hci, He, Hr. reflexivity.
  - intros Hf.
    set (data_type :=
           if arg_countries args then "countries"
           else if arg_cities args then "cities"
           else if arg_extremes args then "extremes" else "rain").
    assert (Hsel : (if arg_countries args then Ok "countries"
                    else if arg_cities args then Ok "cities"
                    else if arg_extremes args then Ok "extremes"
                    else if arg_rain args then Ok "rain"
                    else Raise (mkExn ValueError
                      "Use flags to get stats: --countries or --cities or --extremes."))
                   = Ok data_type).
    { subst data_type.
      destruct (arg_countries args), (arg_cities args), (arg_extremes args),
        (arg_rain args); try reflexivity. discriminate Hf. }
    rewrite Hsel.
    assert (Hin : In data_type ["countries"; "cities"; "extremes"; "rain"]).
    { subst data_type.
      destruct (arg_countries args), (arg_cities args), (arg_extremes args);
        simpl; tauto. }
    unfold bind.
    destruct (create_engine_raises database_url) as [ex|] eqn:Hengine.
    { rewrite (fetch_weather_stats_engine_raises data_type _ _ _ ex w Hengine).
      cbn [fst snd]. split; [reflexivity|]. split; [|reflexivity].
      exists []. rewrite app_nil_r. split; [reflexivity|intros x []]. }
    pose proof (fetch_weather_stats_known data_type (arg_date_filter args)
                  database_url (Some (arg_temp_extreme args)) w Hin Hengine)
      as Hrun.
    cbv zeta in Hrun.
    destruct (parse_date_filter clock (arg_date_filter args)) as [p|e] eqn:Hp.
    + destruct Hrun as (Hr & Ht & Hs & Hl).
      destruct (fetch_weather_stats data_type _ _ _ w) as [res w'].
      cbn [fst snd] in *. subst res. unfold ret. cbn [fst snd].
      split; [exact Ht|]. split; [exact Hl|]. left. split; [reflexivity|exact Hs].
    + rewrite Hrun. cbn [fst snd].
      split; [reflexivity|]. split.
      * exists []. rewrite app_nil_r. split; [reflexivity|intros x []].
      * right. exists e. split; [reflexivity|]. split; [reflexivity|].
        destruct (parse_date_filter_named_raises clock _ e Hfilter Hp)
          as [->|[_ ->]]; discriminate.
Qed.

(** ** The date of a fetched record *)

Lemma Ok_inj {A : Type} (a b : A) : Ok a = Ok b -> a = b.
Proof. clear_context. congruence. Qed.

(** X18: the datetime stored for an integer 'dt'.  The conversion returns
    exactly for the timestamps of the years 1 to 9999; the result is a
    valid datetime at a whole second, as many seconds after 1970-01-01
    00:00:00 as the timestamp says; so later timestamps give later
    datetimes and different timestamps different ones. *)
Theorem utcfromtimestamp_keeps_seconds (z : Z) :
  ((exists d, utcfromtimestamp (PyInt z) = Ok d) <->
   -62135596800 <= z <= 253402300799) /\
  (forall d, utcfromtimestamp (PyInt z) = Ok d ->
             datetime_valid d /\
             to_us d = (EPOCH_ORDINAL * SECONDS_PER_DAY + z) * US_PER_SECOND) /\
  (forall z' d d',
      utcfromtimestamp (PyInt z) = Ok d ->
      utcfromtimestamp (PyInt z') = Ok d' ->
      (z <= z' <-> datetime_leb d d' = true) /\ (d = d' -> z = z')).
Proof.
  assert (Hok : forall x d, utcfromtimestamp (PyInt x) = Ok d ->
            datetime_valid d /\
            to_us d = (EPOCH_ORDINAL * SECONDS_PER_DAY + x) * US_PER_SECOND).
  { intros x d. cbn [utcfromtimestamp]. unfold utcfromtimestamp_int. cbv zeta.
    destruct ((1 <=? _) && _)%bool eqn:Hr; [|discriminate].
    intros H. apply Ok_inj in H. subst d.
    apply andb_prop in Hr as [H1 H2].
    apply Z.leb_le in H1. apply Z.leb_le in H2.
    assert (Hs : 0 <= x mod SECONDS_PER_DAY < 86400)
      by (apply Z.mod_pos_bound; reflexivity).
    destruct (hms_of_seconds _ Hs) as [(Hh & Hm & Hsec) Hsum].
    split.
    - unfold datetime_valid, US_PER_SECOND.
      cbn [dt_ordinal dt_hour dt_minute dt_second dt_microsecond]. lia.
    - unfold to_us, seconds_of_day.
      cbn [dt_ordinal dt_hour dt_minute dt_second dt_microsecond].
      rewrite Hsum. clear Hh Hm Hsec Hsum H1 H2.
      pose proof (Z.div_mod x SECONDS_PER_DAY) as Hdm.
      unfold SECONDS_PER_DAY, US_PER_SECOND, EPOCH_ORDINAL in *. lia. }
  split; [|split].
  - cbn [utcfromtimestamp]. unfold utcfromtimestamp_int. cbv zeta.
    pose proof (Z.div_mod z SECONDS_PER_DAY) as Hdm.
    pose proof (Z.mod_pos_bound z SECONDS_PER_DAY) as Hmb.
    destruct ((1 <=? EPOCH_ORDINAL + z / SECONDS_PER_DAY) &&
              (EPOCH_ORDINAL + z / SECONDS_PER_DAY <=? MAXORDINAL))%bool eqn:Hr.
    + apply andb_prop in Hr as [H1 H2].
      apply Z.leb_le in H1. apply Z.leb_le in H2.
      split; [|eauto]. intros _.
      unfold EPOCH_ORDINAL, SECONDS_PER_DAY, MAXORDINAL in *. lia.
    + split; [intros [d Hd]; discriminate Hd|].
      intros Hz. apply andb_false_iff in Hr.
      rewrite !Z.leb_gt in Hr.
      unfold EPOCH_ORDINAL, SECONDS_PER_DAY, MAXORDINAL in *. lia.
  - exact (Hok z).
  - intros z' d d' Hd Hd'.
    destruct (Hok _ _ Hd) as [_ Hu]. destruct (Hok _ _ Hd') as [_ Hu'].
    unfold datetime_leb. rewrite Z.leb_le, Hu, Hu'.
    unfold US_PER_SECOND in *. split; [lia|].
    intros ->. lia.
Qed.

End WeatherSystem.

(** * Two invocations of the handler

    Each invocation of [lambda_handler] creates its own worker pool, which
    gets its tasks done in an order of its own. *)

Section TwoInvocations.

#[local] Set Default Proof Using "Type".

Variable float : Type.
Variable float_gt0 : float -> bool.
Variable utcfromtimestamp_float : float -> result datetime.
Variable WeatherData_init : pydict float -> result (WeatherData float).
Variable network : string -> http_outcome float.
Variable session_add_raises : WeatherData float -> option exn.
Variable session_commit_raises : WeatherData float -> option exn.
Variable session_refresh_raises : WeatherData float -> option exn.
Variable db_setup_raises : string -> option exn.

(** The orders in which the pool of the first and the pool of the second
    invocation get their tasks done. *)
Variable first_order : list string -> list string.
Variable second_order : list string -> list string.
Hypothesis first_order_perm : forall l, Permutation (first_order l) l.
Hypothesis second_order_perm : forall l, Permutation (second_order l) l.

Lemma same_but_id_sym (a b : WeatherData float) :
  same_but_id float a b -> same_but_id float b a.
Proof.
  clear. unfold same_but_id. intros (H1 & H2 & H3 & H4 & H5 & H6).
  repeat split; symmetry; assumption.
Qed.

Lemma same_but_id_trans (a b c : WeatherData float) :
  same_but_id float a b -> same_but_id float b c -> same_but_id float a c.
Proof.
  clear. unfold same_but_id.
  intros (H1 & H2 & H3 & H4 & H5 & H6) (K1 & K2 & K3 & K4 & K5 & K6).
  repeat split; etransitivity; eassumption.
Qed.

Lemma Forall2_same_source (l a b : list (WeatherData float)) :
  Forall2 (same_but_id float) l a -> Forall2 (same_but_id float) l b ->
  Forall2 (same_but_id float) a b.
Proof.
  clear. intros Ha. revert b.
  induction Ha as [|x y l a Hxy Ha IH]; intros b Hb.
  - inversion Hb. constructor.
  - inversion Hb as [|x' z l' b' Hxz Hb']; subst.
    constructor; [|now apply IH].
    apply same_but_id_trans with x; [now apply same_but_id_sym|assumption].
Qed.

Lemma Forall2_along_permutation {A B : Type} (R : A -> B -> Prop)
      (l l' : list A) :
  Permutation l l' ->
  forall m, Forall2 R l m -> exists m', Permutation m m' /\ Forall2 R l' m'.
Proof.
  clear. induction 1 as [|x l l' Hp IH|x y l|l l' l'' Hp1 IH1 Hp2 IH2]; intros m Hm.
  - inversion Hm. exists []. split; constructor.
  - inversion Hm as [|x0 b l0 m0 Hxb Hm0]; subst.
    destruct (IH _ Hm0) as (m' & Hpm & Hm').
    exists (b :: m'). split; [now constructor|now constructor].
  - inversion Hm as [|y0 b l0 m0 Hyb Hm0]; subst.
    inversion Hm0 as [|x0 a l1 m1 Hxa Hm1]; subst.
    exists (a :: b :: m1). split; [apply perm_swap|].
    constructor; [assumption|]. now constructor.
  - destruct (IH1 _ Hm) as (m' & Hpm & Hm').
    destruct (IH2 _ Hm') as (m'' & Hpm' & Hm'').
    exists m''. split; [now apply Permutation_trans with m'|assumption].
Qed.

(** X16: nothing is deduplicated.  When the handler runs twice and the
    network and the database answer the second time as they did the
    first, the second run stores the batch's records again: after the two
    runs the table holds the old rows, then what the first run stored,
    then what the second run stored, and the rows of the second run are
    those of the first once more, up to their keys and up to the orders in
    which the two pools got their tasks done. *)
Theorem second_invocation_stores_again (api_key database_url : string)
        (w : world float) :
  db_setup_raises database_url = None ->
  let handler := fun pool_order =>
    lambda_handler float float_gt0 utcfromtimestamp_float WeatherData_init
      network session_add_raises session_commit_raises session_refresh_raises
      db_setup_raises pool_order api_key database_url in
  let records := fun pool_order : list string -> list string =>
    flat_map (fun c =>
                fst (city_outcome float float_gt0 utcfromtimestamp_float
                       WeatherData_init network session_add_raises
                       session_commit_raises session_refresh_raises api_key c))
             (pool_order cities) in
  let w1 := snd (handler first_order w) in
  let w2 := snd (handler second_order w1) in
  exists first second,
    w_table float w1 = w_table float w ++ first /\
    w_table float w2 = w_table float w ++ first ++ second /\
    Forall2 (same_but_id float) (records first_order) first /\
    Forall2 (same_but_id float) (records second_order) second /\
    exists second',
      Permutation second second' /\ Forall2 (same_but_id float) first second'.
Proof using first_order_perm second_order_perm.
  intros Hsetup handler records w1 w2.
  destruct (lambda_handler_stores float float_gt0 utcfromtimestamp_float
              WeatherData_init network session_add_raises session_commit_raises
              session_refresh_raises db_setup_raises first_order
              api_key database_url w Hsetup) as (first & H1 & F1).
  destruct (lambda_handler_stores float float_gt0 utcfromtimestamp_float
              WeatherData_init network session_add_raises session_commit_raises
              session_refresh_raises db_setup_raises second_order
              api_key database_url w1 Hsetup) as (second & H2 & F2).
  fold (handler first_order) in H1. fold w1 in H1.
  fold (handler second_order) in H2. fold w2 in H2.
  fold (records first_order) in F1. fold (records second_order) in F2.
  exists first, second.
  split; [exact H1|]. split; [rewrite H2, H1, <- app_assoc; reflexivity|].
  split; [exact F1|]. split; [exact F2|].
  assert (Hperm : Permutation (records second_order) (records first_order)).
  { unfold records. apply Permutation_flat_map.
    apply Permutation_trans with cities; [apply second_order_perm|].
    apply Permutation_sym, first_order_perm. }
  destruct (Forall2_along_permutation _ _ _ Hperm _ F2) as (second' & Hp & F2').
  exists second'. split; [exact Hp|].
  exact (Forall2_same_source _ _ _ F1 F2').
Qed.

End TwoInvocations.

(** * The theorems on the worked setting

    Temperatures are taken in hundredths of a degree, as integers. *)

Lemma Zleb_total (x y : Z) : (x <=? y) = true \/ (y <=? x) = true.
Proof. rewrite !Z.leb_le. lia. Qed.

Lemma Zleb_trans (x y z : Z) :
  (x <=? y) = true -> (y <=? z) = true -> (x <=? z) = true.
Proof. rewrite !Z.leb_le. lia. Qed.

Lemma sample_now_valid : datetime_valid sample_now.
Proof. unfold datetime_valid, sample_now, US_PER_SECOND, MAXORDINAL; simpl. lia. Qed.

(** On Wednesday 2024-03-13 the current week runs from Monday 03-11 to
    Monday 03-18. *)
Lemma parse_date_filter_named_windows_witness :
  datetime_valid (env_now sample_clock) /\
  named_window sample_clock "current_week"
               (midnight_of 738956) (midnight_of 738963).
Proof.
  split.
  - exact sample_now_valid.
  - apply (proj1 (parse_date_filter_named_windows sample_clock sample_now_valid)).
    reflexivity.
Defined.

(** 'tomorrow' is not a named filter. *)
Lemma unrecognized_filter_raises_witness :
  ~ In "tomorrow" named_filters /\
  forall w,
    count_rain_hours Z sample_clock "tomorrow" w =
    (Raise (mkExn ValueError "Invalid date filter"), w).
Proof.
  assert (H : ~ In "tomorrow" named_filters).
  { simpl. intros [H|[H|[H|[H|[H|[]]]]]]; discriminate H. }
  split; [exact H|].
  exact (proj2 (proj2 (proj2
           (unrecognized_filter_raises Z Z.leb Z.eqb (fun _ => None)
              sample_clock "tomorrow" H)))).
Defined.

(** Grouped by city over today: Paris and London, one row each. *)
Lemma query_stats_grouped_witness :
  getattr_WeatherData "city" = Ok col_city /\
  parse_date_filter sample_clock "today" =
    Ok (midnight_of 738958, midnight_of 738959) /\
  exists rows,
    fst (query_stats Z Z.leb Z.eqb (fun _ => None) sample_clock "city" "today"
           (world_of Z (sample_table Z 1250 1400 900 2000))) = Ok rows /\
    NoDup (map (stats_key Z) rows).
Proof.
  split; [reflexivity|]. split; [reflexivity|].
  destruct (query_stats_grouped Z Z.leb Z.eqb (fun _ => None) sample_clock
              Zleb_total Zleb_trans Z.eqb_eq "city" "today" col_city
              (midnight_of 738958) (midnight_of 738959)
              (world_of Z (sample_table Z 1250 1400 900 2000))
              eq_refl eq_refl) as [(rows & Hrows & _ & Hnd & _) _].
  exists rows. split; assumption.
Defined.

(** Two of today's three rows report rain. *)
Lemma count_rain_hours_counts_witness :
  parse_date_filter sample_clock "today" =
    Ok (midnight_of 738958, midnight_of 738959) /\
  fst (count_rain_hours Z sample_clock "today"
         (world_of Z (sample_table Z 1250 1400 900 2000))) = Ok 2.
Proof.
  split; [reflexivity|].
  exact (proj1 (count_rain_hours_counts Z sample_clock "today"
                  (midnight_of 738958) (midnight_of 738959)
                  (world_of Z (sample_table Z 1250 1400 900 2000)) eq_refl)).
Defined.

(** 'MAX' is not 'max': the call is the call with 'min'. *)
Lemma temperature_extremes_min_unless_max_witness :
  parse_date_filter sample_clock "last_seven_days" =
    Ok (midnight_of 738952, midnight_of 738959) /\
  Some "MAX" <> Some "max" /\
  get_temperature_extremes Z Z.leb Z.eqb sample_clock "last_seven_days"
    (Some "MAX") =
  get_temperature_extremes Z Z.leb Z.eqb sample_clock "last_seven_days"
    (Some "min").
Proof.
  assert (H : Some "MAX" <> Some "max") by discriminate.
  split; [reflexivity|]. split; [exact H|].
  exact (proj1 (temperature_extremes_min_unless_max Z Z.leb Z.eqb sample_clock
                  Zleb_total Zleb_trans Z.eqb_eq "last_seven_days" (Some "MAX")
                  (midnight_of 738952) (midnight_of 738959)
                  (world_of Z (sample_table Z 1250 1400 900 2000))
                  eq_refl H)).
Defined.

(** With a URL the engine accepts, 'rain' over today sends the rain count
    over today's window and nothing else. *)
Lemma fetch_weather_stats_dispatch_witness :
  let w := world_of Z (sample_table Z 1250 1400 900 2000) in
  let run := fetch_weather_stats Z Z.leb Z.eqb (fun _ => None) sample_clock
               sample_create_engine "rain" "today" (Some "postgresql://db")
               None w in
  sample_create_engine (Some "postgresql://db") = None /\
  parse_date_filter sample_clock "today" =
    Ok (midnight_of 738958, midnight_of 738959) /\
  fst run = Ok tt /\
  w_statements Z (snd run) =
    w_statements Z w ++
    [SelectRainCount (midnight_of 738958) (midnight_of 738959)].
Proof.
  intros w run.
  split; [reflexivity|]. split; [reflexivity|].
  destruct (proj2 (fetch_weather_stats_dispatch Z Z.leb Z.eqb (fun _ => None)
                     sample_clock sample_create_engine "rain" "today"
                     (Some "postgresql://db") None w eq_refl)
                  (midnight_of 738958) (midnight_of 738959) eq_refl)
    as [Hr Hs].
  split; [exact Hr|].
  exact (proj1 (proj2 Hs)).
Defined.

Lemma rev_order_perm (l : list string) : Permutation (rev l) l.
Proof. apply Permutation_sym, Permutation_rev. Qed.

(** A batch in which London fails validation, Rome fails at commit and
    Berlin cannot be reached, the pool finishing the tasks in reverse
    order: the handler answers 200 and the record of Paris is stored, with
    the first key of the sequence. *)
Lemma batch_survives_city_failures_witness :
  (forall l : list string, Permutation (rev l) l) /\
  (fun _ : string => @None exn) "postgresql://db" = None /\
  let run :=
    lambda_handler Z (Z.ltb 0) (fun _ => Raise (mkExn ValueError "not a number"))
      (sample_init Z) (sample_network Z "key" 1250)
      (fun _ => None) (sample_commit_raises Z) (fun _ => None)
      (fun _ => None) (@rev string) "key" "postgresql://db" (world_of Z []) in
  fst run =
    Ok {| statusCode := 200; body := "Weather data updated successfully" |} /\
  (w_table Z (snd run), w_next_id Z (snd run)) =
    ([{| id := Some 1; country := "FR"; city := "Paris"; temperature := 1250;
         rain_presence := true; weather_description := "light rain";
         weather_data_date :=
           {| dt_ordinal := 738958; dt_hour := 15; dt_minute := 30;
              dt_second := 12; dt_microsecond := 0 |} |}], 2).
Proof.
  split; [exact rev_order_perm|]. split; [reflexivity|].
  intros run. subst run.
  destruct (batch_survives_city_failures Z (Z.ltb 0)
              (fun _ => Raise (mkExn ValueError "not a number"))
              (sample_init Z) (sample_network Z "key" 1250)
              (fun _ => None) (sample_commit_raises Z) (fun _ => None)
              (fun _ => None) (@rev string) rev_order_perm
              "key" "postgresql://db" (world_of Z []) eq_refl)
    as (_ & Hr & _ & _ & Ht & _).
  split; [exact Hr|].
  etransitivity; [exact Ht|].
  vm_compute. reflexivity.
Defined.

(** The sample batch, the pool finishing the tasks in reverse order: 19
    requests at most, no URL twice. *)
Lemma lambda_handler_one_request_per_city_witness :
  (forall l : list string, Permutation (rev l) l) /\
  exists sent,
    w_http Z
      (snd (lambda_handler Z (Z.ltb 0)
              (fun _ => Raise (mkExn ValueError "not a number"))
              (sample_init Z) (sample_network Z "key" 1250)
              (fun _ => None) (sample_commit_raises Z) (fun _ => None)
              (fun _ => None) (@rev string) "key" "postgresql://db"
              (world_of Z []))) = [] ++ sent /\
    (List.length sent <= 19)%nat /\ NoDup sent.
Proof.
  split; [exact rev_order_perm|].
  destruct (lambda_handler_one_request_per_city Z (Z.ltb 0)
              (fun _ => Raise (mkExn ValueError "not a number"))
              (sample_init Z) (sample_network Z "key" 1250)
              (fun _ => None) (sample_commit_raises Z) (fun _ => None)
              (fun _ => None) (@rev string) rev_order_perm
              "key" "postgresql://db" (world_of Z []))
    as (_ & _ & sent & Hsent & _ & Hlen & Hnd & _).
  exists sent. split; [exact Hsent|]. split; assumption.
Defined.

(** C5 as stated fails: [session.refresh] is a database operation inside
    the [try]; when it raises after a commit that went through, the error
    is logged and the session rolled back, yet the committed row stays in
    the table. *)
Lemma add_record_refresh_failure_keeps_row :
  let r := {| id := None; country := "FR"; city := "Paris";
              temperature := 1250; rain_presence := true;
              weather_description := "light rain";
              weather_data_date := sample_now |} in
  let refresh_raises := fun _ : WeatherData Z =>
    Some (mkExn DatabaseError "server closed the connection") in
  let w' := snd (add_record Z (fun _ => None) (fun _ => None) refresh_raises r
                   (world_of Z [])) in
  (exists e, refresh_raises r = Some e /\
             w_log Z w' = [LogDatabaseError Z e]) /\
  w_table Z w' <> w_table Z (world_of Z []) /\
  w_table Z w' = [with_id Z 1 r].
Proof.
  cbv zeta. split; [|split].
  - eexists. split; [reflexivity|]. vm_compute. reflexivity.
  - vm_compute. discriminate.
  - vm_compute. reflexivity.
Defined.

(** * The further properties on the worked setting *)

(** At 07:05 of the same Wednesday the current week is the same window. *)
Lemma clock_filters_depend_on_date_only_witness :
  let morning :=
    {| env_now := {| dt_ordinal := 738958; dt_hour := 7; dt_minute := 5;
                     dt_second := 0; dt_microsecond := 0 |};
       env_input := ""; env_strptime := fun _ => None |} in
  datetime_valid (env_now sample_clock) /\
  datetime_valid (env_now morning) /\
  dt_ordinal (env_now sample_clock) = dt_ordinal (env_now morning) /\
  In "current_week" clock_filters /\
  parse_date_filter sample_clock "current_week" =
  parse_date_filter morning "current_week".
Proof.
  intros morning.
  assert (Hv : datetime_valid (env_now morning)).
  { unfold datetime_valid, morning, US_PER_SECOND, MAXORDINAL; simpl. lia. }
  assert (Hin : In "current_week" clock_filters).
  { simpl. right. right. left. reflexivity. }
  split; [exact sample_now_valid|]. split; [exact Hv|].
  split; [reflexivity|]. split; [exact Hin|].
  exact (clock_filters_depend_on_date_only sample_clock morning "current_week"
           sample_now_valid Hv eq_refl Hin).
Defined.

(** On 2024-03-13 the last seven days can be asked for. *)
Lemma clock_filters_fail_at_calendar_ends_witness :
  datetime_valid (env_now sample_clock) /\
  exists p, parse_date_filter sample_clock "last_seven_days" = Ok p.
Proof.
  split; [exact sample_now_valid|].
  destruct (clock_filters_fail_at_calendar_ends sample_clock sample_now_valid)
    as (_ & _ & _ & H & _).
  apply (proj2 H). unfold MAXORDINAL. simpl. lia.
Defined.

(** The clock of the worked setting stands in its current week. *)
Lemma clock_windows_around_now_witness :
  datetime_valid (env_now sample_clock) /\
  to_us (midnight_of 738956) <= to_us (env_now sample_clock)
    < to_us (midnight_of 738963).
Proof.
  split; [exact sample_now_valid|].
  apply (proj1 (clock_windows_around_now sample_clock sample_now_valid)
           "current_week").
  - simpl. right. left. reflexivity.
  - reflexivity.
Defined.

(** The four windows of 2024-03-13. *)
Lemma clock_windows_nest_witness :
  datetime_valid (env_now sample_clock) /\
  parse_date_filter sample_clock "today" =
    Ok (midnight_of 738958, midnight_of 738959) /\
  parse_date_filter sample_clock "yesterday" =
    Ok (midnight_of 738957, midnight_of 738958) /\
  parse_date_filter sample_clock "current_week" =
    Ok (midnight_of 738956, midnight_of 738963) /\
  parse_date_filter sample_clock "last_seven_days" =
    Ok (midnight_of 738952, midnight_of 738959) /\
  to_us (midnight_of 738958) = to_us (midnight_of 738952) + 6 * US_PER_DAY.
Proof.
  split; [exact sample_now_valid|].
  split; [reflexivity|]. split; [reflexivity|].
  split; [reflexivity|]. split; [reflexivity|].
  exact (proj1 (proj2 (proj2
           (clock_windows_nest sample_clock
              (midnight_of 738958) (midnight_of 738959)
              (midnight_of 738957) (midnight_of 738958)
              (midnight_of 738956) (midnight_of 738963)
              (midnight_of 738952) (midnight_of 738959)
              sample_now_valid eq_refl eq_refl eq_refl eq_refl)))).
Defined.

(** A day and twelve hours are thirty-six hours. *)
Lemma date_range_shifts_witness :
  datetime_valid sample_now /\
  date_range sample_now 1 12 = date_range sample_now 0 (24 * 1 + 12).
Proof.
  split; [exact sample_now_valid|].
  exact (proj1 (proj2 (date_range_shifts Z sample_now 1 12 sample_now_valid))).
Defined.

(** The two rows of today's statistics by city come from three records. *)
Lemma stats_rows_min_le_max_witness :
  let w := world_of Z (sample_table Z 1250 1400 900 2000) in
  let rows := [(SqlText Z "Paris", Some 1400, Some 1250, None);
               (SqlText Z "London", Some 900, Some 900, None)] in
  getattr_WeatherData "city" = Ok col_city /\
  parse_date_filter sample_clock "today" =
    Ok (midnight_of 738958, midnight_of 738959) /\
  fst (query_stats Z Z.leb Z.eqb (fun _ => None) sample_clock "city" "today" w)
    = Ok rows /\
  (List.length rows <=
   List.length (filter (in_window Z (midnight_of 738958) (midnight_of 738959))
                       (w_table Z w)))%nat.
Proof.
  intros w rows.
  assert (H : fst (query_stats Z Z.leb Z.eqb (fun _ => None) sample_clock
                     "city" "today" w) = Ok rows)
    by (vm_compute; reflexivity).
  split; [reflexivity|]. split; [reflexivity|]. split; [exact H|].
  exact (proj2 (stats_rows_min_le_max Z Z.leb Z.eqb (fun _ => None) sample_clock
                  Zleb_total Zleb_trans Z.eqb_eq "city" "today" col_city
                  (midnight_of 738958) (midnight_of 738959) w rows
                  eq_refl eq_refl H)).
Defined.

(** Over the last seven days London is the coldest city and Rome the
    warmest. *)
Lemma extremes_agree_with_cities_stats_witness :
  let w := world_of Z (sample_table Z 1250 1400 900 2000) in
  parse_date_filter sample_clock "last_seven_days" =
    Ok (midnight_of 738952, midnight_of 738959) /\
  exists rows,
    fst (get_cities_stats Z Z.leb Z.eqb (fun _ => None) sample_clock
           "last_seven_days" w) = Ok rows /\
    exists mn sd, In (SqlText Z "Rome", Some 2000, mn, sd) rows.
Proof.
  intros w.
  split; [reflexivity|].
  eexists. split; [vm_compute; reflexivity|].
  refine (proj1 (proj1
            (extremes_agree_with_cities_stats Z Z.leb Z.eqb (fun _ => None)
               sample_clock Zleb_total Zleb_trans Z.eqb_eq "last_seven_days"
               (midnight_of 738952) (midnight_of 738959) w _ eq_refl _)
            (SqlText Z "Rome") (Some 2000) _)).
  - vm_compute. reflexivity.
  - vm_compute. reflexivity.
Defined.

(** The rain counts of the worked table: two today, none yesterday, two in
    the week and in the last seven days. *)
Lemma rain_hours_add_up_witness :
  let w := world_of Z (sample_table Z 1250 1400 900 2000) in
  datetime_valid (env_now sample_clock) /\
  fst (count_rain_hours Z sample_clock "today" w) = Ok 2 /\
  fst (count_rain_hours Z sample_clock "yesterday" w) = Ok 0 /\
  fst (count_rain_hours Z sample_clock "last_seven_days" w) = Ok 2 /\
  fst (count_rain_hours Z sample_clock "current_week" w) = Ok 2 /\
  2 + 0 <= 2.
Proof.
  intros w.
  assert (H1 : fst (count_rain_hours Z sample_clock "today" w) = Ok 2)
    by (vm_compute; reflexivity).
  assert (H2 : fst (count_rain_hours Z sample_clock "yesterday" w) = Ok 0)
    by (vm_compute; reflexivity).
  assert (H3 : fst (count_rain_hours Z sample_clock "last_seven_days" w) = Ok 2)
    by (vm_compute; reflexivity).
  assert (H4 : fst (count_rain_hours Z sample_clock "current_week" w) = Ok 2)
    by (vm_compute; reflexivity).
  split; [exact sample_now_valid|].
  split; [exact H1|]. split; [exact H2|]. split; [exact H3|].
  split; [exact H4|].
  exact (proj1 (proj2 (proj2
           (rain_hours_add_up Z sample_clock w 2 0 2 2 sample_now_valid
              H1 H2 H3 H4)))).
Defined.

(** Today's count of two is witnessed by a record of today with rain. *)
Lemma rain_hours_witnessed_witness :
  let w := world_of Z (sample_table Z 1250 1400 900 2000) in
  parse_date_filter sample_clock "today" =
    Ok (midnight_of 738958, midnight_of 738959) /\
  fst (count_rain_hours Z sample_clock "today" w) = Ok 2 /\
  exists r, In r (w_table Z w) /\
            date_within Z (midnight_of 738958) (midnight_of 738959) r /\
            rain_presence Z r = true.
Proof.
  intros w.
  assert (H : fst (count_rain_hours Z sample_clock "today" w) = Ok 2)
    by (vm_compute; reflexivity).
  split; [reflexivity|]. split; [exact H|].
  apply (proj1 (proj1 (proj2
           (rain_hours_witnessed Z Z.leb Z.eqb (fun _ => None) sample_clock
              Zleb_total Zleb_trans Z.eqb_eq "today"
              (midnight_of 738958) (midnight_of 738959) w 2 eq_refl H)))).
  reflexivity.
Defined.

(** Grouping by the column 'city' leaves the table as it is. *)
Lemma reporting_only_reads_witness :
  let w := world_of Z (sample_table Z 1250 1400 900 2000) in
  getattr_WeatherData "city" = Ok col_city /\
  w_table Z (snd (query_stats Z Z.leb Z.eqb (fun _ => None) sample_clock
                    "city" "today" w)) = w_table Z w.
Proof.
  intros w.
  split; [reflexivity|].
  exact (proj1 (proj1 (reporting_only_reads Z Z.leb Z.eqb (fun _ => None)
                         sample_clock "city" "today" col_city None w
                         eq_refl))).
Defined.

(** A provider that answers 200 with a JSON list: the task ends well and
    the table stays empty. *)
Lemma unexpected_body_is_processing_error_witness :
  let network := fun _ : string => HttpResponse Z 200 (Ok (PyList Z [])) in
  let utc := fun _ : Z => @Raise datetime (mkExn ValueError "not a number") in
  let e := mkExn TypeError "list indices must be integers or slices, not str" in
  network (complete_url "key" "Paris") = HttpResponse Z 200 (Ok (PyList Z [])) /\
  normalized_record Z (Z.ltb 0) utc "Paris" (Ok (PyList Z [])) = Raise e /\
  is_RequestException e = false /\
  fst (fetch_and_store_weather Z (Z.ltb 0) utc (sample_init Z) network
         (fun _ => None) (fun _ => None) (fun _ => None) "Paris" "key"
         (world_of Z [])) = Ok tt.
Proof.
  intros network utc e.
  assert (H : normalized_record Z (Z.ltb 0) utc "Paris" (Ok (PyList Z [])) =
              Raise e) by (vm_compute; reflexivity).
  split; [reflexivity|]. split; [exact H|]. split; [reflexivity|].
  exact (proj1 (proj2
           (unexpected_body_is_processing_error Z (Z.ltb 0) utc (sample_init Z)
              network (fun _ => None) (fun _ => None) (fun _ => None)
              "key" "Paris" (Ok (PyList Z [])) e (world_of Z [])
              eq_refl H eq_refl))).
Defined.

(** The record read from a body of Paris names the city asked for. *)
Lemma normalized_record_fields_witness :
  let utc := fun _ : Z => @Raise datetime (mkExn ValueError "not a number") in
  let d := [("main", PyDict Z [("temp", PyFloat Z 1250)]);
            ("weather", PyList Z [PyDict Z [("description", PyStr Z "light rain")]]);
            ("rain", PyDict Z [("1h", PyInt Z 1)]);
            ("dt", PyInt Z 1710343812);
            ("sys", PyDict Z [("country", PyStr Z "FR")])] in
  let rec :=
    [("country", PyStr Z "FR"); ("city", PyStr Z "Paris");
     ("temperature", PyFloat Z 1250); ("rain_presence", PyBool Z true);
     ("weather_description", PyStr Z "light rain");
     ("weather_data_date",
      PyDatetime Z {| dt_ordinal := 738958; dt_hour := 15; dt_minute := 30;
                      dt_second := 12; dt_microsecond := 0 |})] in
  normalized_record Z (Z.ltb 0) utc "Paris" (Ok (PyDict Z d)) = Ok rec /\
  dict_lookup Z rec "city" = Some (PyStr Z "Paris").
Proof.
  intros utc d rec.
  assert (H : normalized_record Z (Z.ltb 0) utc "Paris" (Ok (PyDict Z d)) =
              Ok rec) by (vm_compute; reflexivity).
  split; [exact H|].
  exact (proj1 (normalized_record_fields Z (Z.ltb 0) utc "Paris" d rec H)).
Defined.

(** The sample batch, the pool finishing the tasks in reverse order, adds
    at most 19 rows. *)
Lemma ingestion_only_appends_witness :
  (forall l : list string, Permutation (rev l) l) /\
  exists added,
    w_table Z
      (snd (lambda_handler Z (Z.ltb 0)
              (fun _ => Raise (mkExn ValueError "not a number"))
              (sample_init Z) (sample_network Z "key" 1250)
              (fun _ => None) (sample_commit_raises Z) (fun _ => None)
              (fun _ => None) (@rev string) "key" "postgresql://db"
              (world_of Z []))) = w_table Z (world_of Z []) ++ added /\
    (List.length added <= 19)%nat.
Proof.
  split; [exact rev_order_perm|].
  exact (proj2 (ingestion_only_appends Z (Z.ltb 0)
                  (fun _ => Raise (mkExn ValueError "not a number"))
                  (sample_init Z) (sample_network Z "key" 1250)
                  (fun _ => None) (sample_commit_raises Z) (fun _ => None)
                  (fun _ => None) (@rev string) rev_order_perm
                  "key" "postgresql://db" "Paris" (world_of Z []))).
Defined.

(** The sample batch run twice, the first pool finishing its tasks in
    reverse order and the second in the order of submission: the second
    run appends to what the first run left. *)
Lemma second_invocation_stores_again_witness :
  (forall l : list string, Permutation (rev l) l) /\
  (forall l : list string, Permutation ((fun l0 : list string => l0) l) l) /\
  (fun _ : string => @None exn) "postgresql://db" = None /\
  let handler := fun pool_order =>
    lambda_handler Z (Z.ltb 0)
      (fun _ => Raise (mkExn ValueError "not a number"))
      (sample_init Z) (sample_network Z "key" 1250)
      (fun _ => None) (sample_commit_raises Z) (fun _ => None)
      (fun _ => None) pool_order "key" "postgresql://db" in
  let w1 := snd (handler (@rev string) (world_of Z [])) in
  let w2 := snd (handler (fun l => l) w1) in
  exists first second,
    w_table Z w1 = w_table Z (world_of Z []) ++ first /\
    w_table Z w2 = w_table Z (world_of Z []) ++ first ++ second /\
    exists second',
      Permutation second second' /\ Forall2 (same_but_id Z) first second'.
Proof.
  assert (Hid : forall l : list string,
             Permutation ((fun l0 : list string => l0) l) l)
    by (intros l; apply Permutation_refl).
  split; [exact rev_order_perm|]. split; [exact Hid|]. split; [reflexivity|].
  intros handler w1 w2.
  destruct (second_invocation_stores_again Z (Z.ltb 0)
              (fun _ => Raise (mkExn ValueError "not a number"))
              (sample_init Z) (sample_network Z "key" 1250)
              (fun _ => None) (sample_commit_raises Z) (fun _ => None)
              (fun _ => None) (@rev string) (fun l => l) rev_order_perm Hid
              "key" "postgresql://db" (world_of Z []) eq_refl)
    as (first & second & H1 & H2 & _ & _ & H3).
  exists first, second.
  split; [exact H1|]. split; [exact H2|exact H3].
Defined.

(** The script called with --cities and --date_filter today leaves the
    table as it is. *)
Lemma cli_script_behaviour_witness :
  let args := mkCliArgs false true false false "today" "max" in
  let w := world_of Z (sample_table Z 1250 1400 900 2000) in
  argparse_accepts args /\
  w_table Z (snd (main_script Z Z.leb Z.eqb (fun _ => None) sample_clock
                    sample_create_engine args (Some "postgresql://db") w)) =
  w_table Z w.
Proof.
  intros args w.
  assert (H : argparse_accepts args).
  { unfold argparse_accepts, args. cbn.
    split; [apply le_n|]. split; [right; left; reflexivity|left; reflexivity]. }
  split; [exact H|].
  exact (proj1 (proj2 (cli_script_behaviour Z Z.leb Z.eqb (fun _ => None)
                         sample_clock sample_create_engine args
                         (Some "postgresql://db") w H) eq_refl)).
Defined.

(** * The model run on the worked setting *)

Example parse_today :
  parse_date_filter sample_clock "today" =
  Ok (midnight_of 738958, midnight_of 738959).
Proof. reflexivity. Qed.

Example parse_yesterday :
  parse_date_filter sample_clock "yesterday" =
  Ok (midnight_of 738957, midnight_of 738958).
Proof. reflexivity. Qed.

Example parse_current_week :
  parse_date_filter sample_clock "current_week" =
  Ok (midnight_of 738956, midnight_of 738963).
Proof. reflexivity. Qed.

Example parse_last_seven_days :
  parse_date_filter sample_clock "last_seven_days" =
  Ok (midnight_of 738952, midnight_of 738959).
Proof. reflexivity. Qed.

Example parse_selected_hour :
  parse_date_filter sample_clock "selected_hour" =
  Ok ({| dt_ordinal := 738958; dt_hour := 10; dt_minute := 0; dt_second := 0;
         dt_microsecond := 0 |},
      {| dt_ordinal := 738958; dt_hour := 11; dt_minute := 0; dt_second := 0;
         dt_microsecond := 0 |}).
Proof. reflexivity. Qed.

(** The last hour of the calendar has no end: the addition overflows. *)
Example parse_selected_hour_overflow :
  parse_date_filter
    {| env_now := sample_now; env_input := "9999-12-31 23";
       env_strptime := fun _ =>
         Some {| dt_ordinal := 3652059; dt_hour := 23; dt_minute := 0;
                 dt_second := 0; dt_microsecond := 0 |} |}
    "selected_hour" =
  Raise (mkExn OverflowError "date value out of range").
Proof. reflexivity. Qed.

Example utcfromtimestamp_sample :
  utcfromtimestamp_int 1710343812 =
  Ok {| dt_ordinal := 738958; dt_hour := 15; dt_minute := 30; dt_second := 12;
        dt_microsecond := 0 |}.
Proof. reflexivity. Qed.

Example stats_by_city_today :
  fst (get_cities_stats Z Z.leb Z.eqb (fun _ => None) sample_clock "today"
         (world_of Z (sample_table Z 1250 1400 900 2000))) =
  Ok [(SqlText Z "Paris", Some 1400, Some 1250, None);
      (SqlText Z "London", Some 900, Some 900, None)].
Proof. vm_compute. reflexivity. Qed.

Example stats_by_country_week :
  fst (get_countries_stats Z Z.leb Z.eqb (fun _ => None) sample_clock
         "last_seven_days"
         (world_of Z (sample_table Z 1250 1400 900 2000))) =
  Ok [(SqlText Z "FR", Some 1400, Some 1250, None);
      (SqlText Z "GB", Some 900, Some 900, None);
      (SqlText Z "IT", Some 2000, Some 2000, None)].
Proof. vm_compute. reflexivity. Qed.

Example stats_unknown_field :
  fst (query_stats Z Z.leb Z.eqb (fun _ => None) sample_clock "town" "today"
         (world_of Z (sample_table Z 1250 1400 900 2000))) =
  Raise (mkExn AttributeError "town").
Proof. vm_compute. reflexivity. Qed.

Example extremes_max_week :
  fst (get_temperature_extremes Z Z.leb Z.eqb sample_clock "last_seven_days"
         (Some "max") (world_of Z (sample_table Z 1250 1400 900 2000))) =
  Ok (Some (SqlText Z "Rome", Some 2000)).
Proof. vm_compute. reflexivity. Qed.

Example extremes_upper_case_is_min :
  fst (get_temperature_extremes Z Z.leb Z.eqb sample_clock "last_seven_days"
         (Some "MAX") (world_of Z (sample_table Z 1250 1400 900 2000))) =
  Ok (Some (SqlText Z "London", Some 900)).
Proof. vm_compute. reflexivity. Qed.

Example extremes_empty_window :
  fst (get_temperature_extremes Z Z.leb Z.eqb sample_clock "selected_hour"
         (Some "max") (world_of Z (sample_table Z 1250 1400 900 2000))) =
  Ok None.
Proof. vm_compute. reflexivity. Qed.

Example rain_hours_week :
  fst (count_rain_hours Z sample_clock "last_seven_days"
         (world_of Z (sample_table Z 1250 1400 900 2000))) = Ok 2.
Proof. vm_compute. reflexivity. Qed.

(** An unknown data type logs the error and sends nothing. *)
Example fetch_weather_stats_unknown :
  let w := snd (fetch_weather_stats Z Z.leb Z.eqb (fun _ => None) sample_clock
                  sample_create_engine "towns" "today" (Some "postgresql://db")
                  None (world_of Z (sample_table Z 1250 1400 900 2000))) in
  w_log Z w = [LogInvalidDataType Z] /\ w_statements Z w = [].
Proof. vm_compute. split; reflexivity. Qed.

(** When DATABASE_URL is not set the [DatabaseManager] cannot be built:
    the call raises before it looks at the data type, and logs nothing. *)
Example fetch_weather_stats_unset_url :
  let w := world_of Z (sample_table Z 1250 1400 900 2000) in
  fetch_weather_stats Z Z.leb Z.eqb (fun _ => None) sample_clock
    sample_create_engine "towns" "today" None None w =
  (Raise (mkExn ArgumentError "Expected string or URL object, got None"), w).
Proof. vm_compute. reflexivity. Qed.

(** The same for a string that is no database URL, and a known data type. *)
Example fetch_weather_stats_malformed_url :
  let w := world_of Z (sample_table Z 1250 1400 900 2000) in
  fetch_weather_stats Z Z.leb Z.eqb (fun _ => None) sample_clock
    sample_create_engine "cities" "today" (Some "not a url") None w =
  (Raise (mkExn ArgumentError "Could not parse SQLAlchemy URL from string"), w).
Proof. vm_compute. reflexivity. Qed.

(** The log of the sample batch when the tasks are done in the order of
    submission: London's validation error, Berlin's request error, Rome's
    database error, and a 404 for each of the fifteen other cities; Paris
    logs nothing. *)
Example sample_batch_log :
  w_log Z
    (snd (lambda_handler Z (Z.ltb 0)
            (fun _ => Raise (mkExn ValueError "not a number"))
            (sample_init Z) (sample_network Z "key" 1250)
            (fun _ => None) (sample_commit_raises Z) (fun _ => None)
            (fun _ => None) (fun l => l) "key" "postgresql://db"
            (world_of Z []))) =
  let http := LogHttpError Z in
  [http;
   LogValidationError Z "London"
     (mkExn ValidationError "validation error for WeatherData");
   http;
   LogRequestError Z (mkExn RequestException "connection refused");
   http; http;
   LogDatabaseError Z (mkExn DatabaseError "connection lost");
   http; http; http; http; http; http; http; http; http; http; http].
Proof. vm_compute. reflexivity. Qed.

(** When the database cannot be set up the handler answers 500 and asks
    the network nothing. *)
Example sample_setup_failure :
  let run :=
    lambda_handler Z (Z.ltb 0)
      (fun _ => Raise (mkExn ValueError "not a number"))
      (sample_init Z) (sample_network Z "key" 1250)
      (fun _ => None) (fun _ => None) (fun _ => None)
      (fun _ => Some (mkExn DatabaseError "could not connect"))
      (fun l => l) "key" "postgresql://db" (world_of Z []) in
  fst run = Ok {| statusCode := 500; body := "Internal server error" |} /\
  w_http Z (snd run) = [].
Proof. vm_compute. split; reflexivity. Qed.
